(** * localflare: the REST route handlers, the row-editor default parser
    and the command-line declaration, embedded from the TypeScript
    sources.

    Embedded here: the route groups of the API worker
    (packages/api/src/worker/routes: d1, kv, r2, queues, logs) with their
    helpers, the route groups of the dashboard server
    (packages/server/src/routes: d1, kv, r2, do) and its health check, the
    health check of the website worker, the row editor dialog of the
    dashboard (parseDefaultValue, isSqlExpression, the defaults of the
    form, validate, handleSave and the change handler of a field), the
    editable cell and the row identifiers of its data table, the relative
    times of the query history, the handlers of the D1 explorer and of
    the queues page that run a query and send a message, the command
    declared with cac in the CLI package, and the log parser, the log
    panel and the log entries of the terminal interface of the CLI.

    A route handler is a program over the calls it makes on the platform
    ([Prog]); running it against a platform ([run]) gives the response,
    the calls made and the final state of the platform.

    Strings are sequences of 8-bit characters ([string] of the Standard
    Library).  The JavaScript string operations below are the ASCII
    fragment of the ECMAScript ones: letters outside [a-z] have no case
    and only the ASCII white space characters are trimmed. *)

From Stdlib Require Import String Ascii List ZArith Lia Bool Arith.
From Stdlib Require Import Permutation Sorted.
From Stdlib Require DecimalString DecimalPos.
Import ListNotations.
Open Scope string_scope.
Set Warnings "-register-all".

(* ------------------------------------------------------------------ *)
(** ** JavaScript string primitives *)
(* ------------------------------------------------------------------ *)

(** The double-quote character (code 34) and the single quote (code 39). *)
Definition dquote : ascii := ascii_of_nat 34.
Definition squote : ascii := ascii_of_nat 39.
#[global] Arguments dquote : simpl never.
#[global] Arguments squote : simpl never.

(** [s.startsWith(p)]. *)
Fixpoint startsWith (s p : string) {struct p} : bool :=
  match p with
  | EmptyString => true
  | String c p' =>
      match s with
      | EmptyString => false
      | String d s' => Ascii.eqb d c && startsWith s' p'
      end
  end.

(** [s.replace(/c/g, r)] for a one-character pattern [c] and a replacement
    [r] without dollar patterns: every occurrence, left to right. *)
Fixpoint replace_global (c : ascii) (r : string) (s : string) : string :=
  match s with
  | EmptyString => EmptyString
  | String a s' =>
      if Ascii.eqb a c then r ++ replace_global c r s'
      else String a (replace_global c r s')
  end.

(** [parts.join(sep)]. *)
Fixpoint join (sep : string) (parts : list string) : string :=
  match parts with
  | [] => EmptyString
  | [p] => p
  | p :: rest => p ++ sep ++ join sep rest
  end.

(** [s.endsWith(p)], through the reversed texts. *)
Fixpoint rev_string (s : string) (acc : string) : string :=
  match s with
  | EmptyString => acc
  | String a s' => rev_string s' (String a acc)
  end.

Definition endsWith (s p : string) : bool :=
  startsWith (rev_string s EmptyString) (rev_string p EmptyString).

(** [s.includes(p)]. *)
Fixpoint includes (s p : string) : bool :=
  startsWith s p ||
  match s with
  | EmptyString => false
  | String _ s' => includes s' p
  end.

(** White space that [trim] removes: tab, line feed, vertical tab, form
    feed, carriage return and space. *)
Definition is_space (a : ascii) : bool :=
  let n := nat_of_ascii a in
  ((9 <=? n)%nat && (n <=? 13)%nat) || (n =? 32)%nat.

Fixpoint trimStart (s : string) : string :=
  match s with
  | EmptyString => EmptyString
  | String a s' => if is_space a then trimStart s' else s
  end.

Fixpoint trimEnd (s : string) : string :=
  match s with
  | EmptyString => EmptyString
  | String a s' =>
      match trimEnd s' with
      | EmptyString => if is_space a then EmptyString else String a EmptyString
      | t => String a t
      end
  end.

(** [s.trim()]. *)
Definition trim (s : string) : string := trimEnd (trimStart s).

Definition upper_char (a : ascii) : ascii :=
  let n := nat_of_ascii a in
  if (97 <=? n)%nat && (n <=? 122)%nat then ascii_of_nat (n - 32) else a.

(** [s.toUpperCase()]. *)
Fixpoint toUpperCase (s : string) : string :=
  match s with
  | EmptyString => EmptyString
  | String a s' => String (upper_char a) (toUpperCase s')
  end.

(** [s.slice(1, -1)]: without the first and the last character; empty for
    a text of fewer than two characters. *)
Fixpoint drop_last (s : string) : string :=
  match s with
  | EmptyString => EmptyString
  | String a EmptyString => EmptyString
  | String a s' => String a (drop_last s')
  end.

Definition slice_1_m1 (s : string) : string :=
  match s with
  | EmptyString => EmptyString
  | String _ s' => drop_last s'
  end.


(** The value of a run of decimal digits at the start of [s], after the
    digits already read, and whether a digit was read. *)
Definition digit_of (a : ascii) : option Z :=
  let n := nat_of_ascii a in
  if (48 <=? n)%nat && (n <=? 57)%nat then Some (Z.of_nat (n - 48)) else None.

Fixpoint leading_digits (s : string) (acc : option Z) : option Z * string :=
  match s with
  | EmptyString => (acc, EmptyString)
  | String a s' =>
      match digit_of a with
      | Some d =>
          leading_digits s' (Some (10 * match acc with Some n => n | None => 0 end + d)%Z)
      | None => (acc, s)
      end
  end.

(** [parseInt(s, 10)]: leading white space, an optional sign, then the
    longest run of digits; [None] stands for NaN.  The result is exact (a
    JavaScript number is exact up to 2^53, and minus zero is zero here). *)
Definition parseInt (s : string) : option Z :=
  match trimStart s with
  | String a s' =>
      if Ascii.eqb a "-"%char then
        match fst (leading_digits s' None) with
        | Some n => Some (- n)%Z
        | None => None
        end
      else if Ascii.eqb a "+"%char then fst (leading_digits s' None)
      else fst (leading_digits (String a s') None)
  | EmptyString => None
  end.

(** [Number(q)] for a query parameter, on the integers: the trimmed text
    is empty (zero) or an optionally signed run of digits; [None] stands
    for NaN, which is also what a missing parameter gives.  Any other
    numeral (a fraction, an exponent, a radix prefix, Infinity) is outside
    the integers of this model and reads as NaN. *)
Definition Number_of_query (q : option string) : option Z :=
  match q with
  | None => None
  | Some s =>
      match trim s with
      | EmptyString => Some 0%Z
      | String a s' =>
          let digits := if Ascii.eqb a "-"%char || Ascii.eqb a "+"%char then s' else String a s' in
          match leading_digits digits None with
          | (Some n, EmptyString) => Some (if Ascii.eqb a "-"%char then - n else n)%Z
          | _ => None
          end
      end
  end.

(** [n || d] on a number: NaN and zero are falsy. *)
Definition number_or (n : option Z) (d : Z) : Z :=
  match n with
  | Some v => if (v =? 0)%Z then d else v
  | None => d
  end.

Definition lower_char (a : ascii) : ascii :=
  let n := nat_of_ascii a in
  if (65 <=? n)%nat && (n <=? 90)%nat then ascii_of_nat (n + 32) else a.

(** [s.toLowerCase()]. *)
Fixpoint toLowerCase (s : string) : string :=
  match s with
  | EmptyString => EmptyString
  | String a s' => String (lower_char a) (toLowerCase s')
  end.

(** [s.slice(n)]. *)
Fixpoint drop (n : nat) (s : string) : string :=
  match n, s with
  | O, _ => s
  | S n', String _ s' => drop n' s'
  | S _, EmptyString => EmptyString
  end.

(** [s.split(sep)[1]] for a separator that is not empty: the text between
    the first occurrence of [sep] and the next one, [None] (undefined)
    when [sep] does not occur. *)
Fixpoint after_first (sep s : string) : option string :=
  if startsWith s sep then Some (drop (String.length sep) s)
  else
    match s with
    | EmptyString => None
    | String _ s' => after_first sep s'
    end.

Fixpoint before_first (sep s : string) : string :=
  if startsWith s sep then EmptyString
  else
    match s with
    | EmptyString => EmptyString
    | String a s' => String a (before_first sep s')
    end.

Definition split_second (sep s : string) : option string :=
  match after_first sep s with
  | Some rest => Some (before_first sep rest)
  | None => None
  end.

(** [String(n)] for an integer. *)
Definition String_of_Z (n : Z) : string :=
  DecimalString.NilZero.string_of_int (Z.to_int n).

(** [q || undefined] and truthiness of an optional text: the empty text is
    falsy. *)
Definition nonempty (q : option string) : option string :=
  match q with
  | Some EmptyString => None
  | _ => q
  end.

(* ------------------------------------------------------------------ *)
(** ** packages/api/src/worker/routes/d1.ts: escapeIdentifier *)
(* ------------------------------------------------------------------ *)

(** A template literal: a double quote, [name.replace(/Q/g, 'QQ')] where Q
    is the double-quote character, and a double quote. *)
Definition escapeIdentifier (name : string) : string :=
  String dquote (replace_global dquote (String dquote (String dquote EmptyString)) name
                 ++ String dquote EmptyString).

(** The claim's wording: every double-quote character of [name] becomes two
    double-quote characters, the other characters stay. *)
Definition double_each_dquote (name : string) : string :=
  string_of_list_ascii
    (flat_map (fun a => if Ascii.eqb a dquote then [dquote; dquote] else [a])
              (list_ascii_of_string name)).

(** How SQLite reads a double-quoted identifier: after the opening quote,
    a pair of quotes stands for one quote and a single quote closes the
    identifier.  The result is the identifier read and the text left after
    the closing quote; [None] when the opening quote is missing or the
    identifier never closes. *)
Fixpoint sqlite_quoted_body (s : string) : option (string * string) :=
  match s with
  | EmptyString => None
  | String a s' =>
      if Ascii.eqb a dquote then
        match s' with
        | String b s'' =>
            if Ascii.eqb b dquote then
              match sqlite_quoted_body s'' with
              | Some (id, rest) => Some (String dquote id, rest)
              | None => None
              end
            else Some (EmptyString, s')
        | EmptyString => Some (EmptyString, EmptyString)
        end
      else
        match sqlite_quoted_body s' with
        | Some (id, rest) => Some (String a id, rest)
        | None => None
        end
  end.

Definition sqlite_read_quoted (s : string) : option (string * string) :=
  match s with
  | String a s' => if Ascii.eqb a dquote then sqlite_quoted_body s' else None
  | EmptyString => None
  end.

(* ------------------------------------------------------------------ *)
(** ** JavaScript values, thrown errors *)
(* ------------------------------------------------------------------ *)

(** Values of type [unknown] as they occur in JSON bodies, rows and bound
    parameters.  Numbers are the integers; an object lists its own
    properties in insertion order, with distinct keys. *)
Inductive JsVal : Type :=
| JUndefined
| JNull
| JBool (b : bool)
| JNum (n : Z)
| JStr (s : string)
| JArr (items : list JsVal)
| JObj (fields : list (string * JsVal)).

(** [Record<string, unknown>]. *)
Definition JsRecord : Type := list (string * JsVal).

(** [o[k]]: the own property [k], [undefined] when there is none.  The
    names an object inherits from Object.prototype are not modelled. *)
Fixpoint prop (o : JsRecord) (k : string) : JsVal :=
  match o with
  | [] => JUndefined
  | (k', v) :: o' => if String.eqb k' k then v else prop o' k
  end.

(** A thrown value: an Error instance with its name and message, or any
    other value, given by the text String makes of it. *)
Inductive Exn : Type :=
| JsError (name message : string)
| Thrown (text : string).

(** [new Error(message)]. *)
Definition new_Error (message : string) : Exn := JsError "Error" message.

(** [String(error)], which is Error.prototype.toString for an Error. *)
Definition String_of_error (e : Exn) : string :=
  match e with
  | JsError name message =>
      if String.eqb name "" then message
      else if String.eqb message "" then name
      else name ++ ": " ++ message
  | Thrown text => text
  end.

(** The outcome of a call that may throw. *)
Inductive Res (A : Type) : Type :=
| Val (a : A)
| Raise (e : Exn).
Arguments Val {A} a.
Arguments Raise {A} e.

(* ------------------------------------------------------------------ *)
(** ** packages/api/src/worker/routes/d1.ts: buildPrimaryKeyWhere *)
(* ------------------------------------------------------------------ *)

(** [rowId: string | Record<string, unknown>]. *)
Inductive RowId : Type :=
| RowIdString (s : string)
| RowIdObject (o : JsRecord).

(** [{ clause: string; values: unknown[] }]. *)
Record WhereClause : Type := mkWhere { clause : string; values : list JsVal }.

(** [pk => `${escapeIdentifier(pk)} = ?`]. *)
Definition pk_condition (pk : string) : string := escapeIdentifier pk ++ " = ?".

Section BuildPrimaryKeyWhere.

(** JSON.parse is the platform's.  It is consulted only on a text that
    starts with an opening bracket, where whatever it returns is an array:
    [JSON_parse_array s] is that array, [None] when JSON.parse throws. *)
Variable JSON_parse_array : string -> option (list JsVal).

Definition buildPrimaryKeyWhere (primaryKeys : list string) (rowId : RowId)
  : Res WhereClause :=
  (* Handle composite keys passed as JSON *)
  let parsed :=
    match rowId with
    | RowIdString s =>
        if startsWith s "[" then
          match JSON_parse_array s with
          | Some keyValues =>
              let conditions := map pk_condition primaryKeys in
              Some (mkWhere (join " AND " conditions) keyValues)
          | None => None (* catch: fall through to single key handling *)
          end
        else None
    | RowIdObject _ => None
    end in
  match parsed with
  | Some w => Val w
  | None =>
      match rowId with
      | RowIdObject o =>
          (* Handle object format *)
          let conditions := map pk_condition primaryKeys in
          let values := map (fun pk => prop o pk) primaryKeys in
          Val (mkWhere (join " AND " conditions) values)
      | RowIdString s =>
          match primaryKeys with
          | [pk0] =>
              (* Single primary key *)
              Val (mkWhere (pk_condition pk0) [JStr s])
          | _ => Raise (new_Error "Invalid row identifier for composite primary key")
          end
      end
  end.


End BuildPrimaryKeyWhere.

(** A reading of JSON arrays of unsigned decimal integers without white
    space, as JSON.parse reads them; every other text is rejected.  It
    instantiates [JSON_parse_array] in the examples. *)
Fixpoint read_int_items (s : string) (cur : option Z) (acc : list JsVal)
  : option (list JsVal) :=
  match s with
  | EmptyString => None
  | String a s' =>
      match digit_of a with
      | Some d =>
          match cur with
          | None => read_int_items s' (Some d) acc
          | Some 0%Z => None
          | Some n => read_int_items s' (Some (10 * n + d)%Z) acc
          end
      | None =>
          match cur with
          | None => None
          | Some n =>
              if Ascii.eqb a ","%char then read_int_items s' None (acc ++ [JNum n])%list
              else if Ascii.eqb a "]"%char then
                match s' with
                | EmptyString => Some (acc ++ [JNum n])%list
                | _ => None
                end
              else None
          end
      end
  end.

Definition parse_int_array (s : string) : option (list JsVal) :=
  match s with
  | String a s' =>
      if Ascii.eqb a "["%char then
        if String.eqb s' "]" then Some [] else read_int_items s' None []
      else None
  | EmptyString => None
  end.

(* ------------------------------------------------------------------ *)
(** ** The bindings and the calls the route handlers make on them *)
(* ------------------------------------------------------------------ *)

(** [D1Result.meta], with the fields the handlers read.  A field the
    handlers default with [??] is optional. *)
Record D1Meta : Type := mkD1Meta {
  changes : option Z;
  last_row_id : JsVal;
  duration : JsVal
}.

(** [D1Result]: the rows, the success flag and the meta object.  The
    handlers read [results] and [meta] through optional chaining, so both
    may be missing. *)
Record D1Result : Type := mkD1Result {
  results : option (list JsRecord);
  success : bool;
  meta : option D1Meta
}.

(** A prepared statement with its bound parameters:
    [db.prepare(sql).bind(...params)].  Preparing and binding are folded
    into the call that executes the statement; a failure of either shows
    as that call throwing. *)
Definition Statement : Type := (string * list JsVal)%type.

(** The [type] option of KVNamespace.get and getWithMetadata. *)
Inductive KvType : Type := KvText | KvJson | KvArrayBuffer.

(** What a KV read gives for each type.  An ArrayBuffer is represented by
    its base64 text, so encoding it to base64 is the identity. *)
Definition KvValue (t : KvType) : Type :=
  match t with
  | KvText => option string
  | KvJson => JsVal
  | KvArrayBuffer => option string
  end.

(** One key of KVNamespace.list. *)
Record KvKey : Type := mkKvKey {
  key_name : string;
  key_expiration : JsVal;
  key_metadata : JsVal
}.

Record KvListResult : Type := mkKvListResult {
  list_keys : list KvKey;
  list_cursor : option string;
  list_complete : bool
}.

Record KvPutOptions : Type := mkKvPutOptions {
  put_metadata : JsVal;
  put_expirationTtl : JsVal;
  put_expiration : JsVal
}.

(** The body of a response: JSON, or a stream given by its content. *)
Inductive Body : Type :=
| JsonBody (v : JsVal)
| StreamBody (content : string).

(** The HTTP response: its status, its body, and the headers the handler
    sets itself. *)
Record Response : Type := mkResponse {
  status : Z;
  body : Body;
  headers : list (string * string)
}.

(** [c.json(body, status)], and [c.json(body)] with status 200. *)
Definition json (v : JsVal) (status : Z) : Response := mkResponse status (JsonBody v) [].
Definition json_ok (v : JsVal) : Response := mkResponse 200 (JsonBody v) [].

(** [new Response(stream, { headers })]. *)
Definition stream_response (content : string) (headers : list (string * string))
  : Response :=
  mkResponse 200 (StreamBody content) headers.

(** An R2 object as the handlers read it.  A date is represented by its
    ISO text, so toISOString and JSON serialization give that text. *)
Record R2Object : Type := mkR2Object {
  r2_key : string;
  r2_size : Z;
  r2_etag : string;
  r2_httpEtag : string;
  r2_uploaded : string;
  r2_checksums : JsVal;
  r2_httpMetadata : option JsRecord;
  r2_customMetadata : JsVal
}.

(** The result of R2Bucket.list. *)
Record R2Objects : Type := mkR2Objects {
  r2_objects : list R2Object;
  r2_truncated : bool;
  r2_cursor : option string;
  r2_delimitedPrefixes : list string
}.

Record R2ListOptions : Type := mkR2ListOptions {
  r2_list_prefix : option string;
  r2_list_limit : Z;
  r2_list_cursor : option string;
  r2_list_delimiter : option string
}.

(** [{ httpMetadata: { contentType }, customMetadata }] of R2Bucket.put. *)
Record R2PutOptions : Type := mkR2PutOptions {
  r2_put_contentType : string;
  r2_put_customMetadata : option (list (string * string))
}.

(** R2Bucket.delete takes one key or an array of keys. *)
Inductive R2Keys : Type :=
| OneKey (key : string)
| ManyKeys (keys : list string).

(** The request forwarded to a Durable Object: the method, the path
    resolved against http://do.internal, the headers and the body. *)
Record DoRequest : Type := mkDoRequest {
  do_method : string;
  do_path : string;
  do_headers : list (string * string);
  do_body : option string
}.

(** The calls on platform objects.  The first argument names the binding
    the object was obtained from.  A Durable Object id is represented by
    its text (toString), and a stub by the namespace and the id it was
    obtained for.  The last group are the accessors of localflare-core,
    which hand out a binding by name and throw when there is none; they
    are not calls on a binding. *)
Inductive Op : Type :=
| D1_all (db : string) (st : Statement)
| D1_first (db : string) (st : Statement)
| D1_run (db : string) (st : Statement)
| D1_batch (db : string) (sts : list Statement)
| KV_list (ns : string) (prefix : option string) (limit : Z) (cursor : option string)
| KV_getWithMetadata (ns key : string) (t : KvType)
| KV_get (ns key : string) (t : KvType)
| KV_put (ns key : string) (value : JsVal) (opts : KvPutOptions)
| KV_delete (ns key : string)
| Queue_send (q : string) (message : JsVal)
| Queue_sendBatch (q : string) (batch : list JsVal)
| R2_list (bucket : string) (opts : R2ListOptions)
| R2_head (bucket key : string)
| R2_get (bucket key : string)
| R2_put (bucket key : string) (content : string) (opts : R2PutOptions)
| R2_delete (bucket : string) (keys : R2Keys)
| DO_idFromString (ns id : string)
| DO_idFromName (ns name : string)
| DO_newUniqueId (ns : string)
| DO_get (ns id : string)
| DO_fetch (ns id : string) (request : DoRequest)
| LF_getD1Database (name : string)
| LF_getKVNamespace (name : string)
| LF_getR2Bucket (name : string)
| LF_getDurableObjectNamespace (name : string).

(** What each call resolves to. *)
Definition ret_type (op : Op) : Type :=
  match op with
  | D1_all _ _ => D1Result
  | D1_first _ _ => option JsRecord
  | D1_run _ _ => D1Result
  | D1_batch _ _ => list D1Result
  | KV_list _ _ _ _ => KvListResult
  | KV_getWithMetadata _ _ t => (KvValue t * JsVal)%type
  | KV_get _ _ t => KvValue t
  | KV_put _ _ _ _ => unit
  | KV_delete _ _ => unit
  | Queue_send _ _ => unit
  | Queue_sendBatch _ _ => unit
  | R2_list _ _ => R2Objects
  | R2_head _ _ => option R2Object
  | R2_get _ _ => option (R2Object * string)
  | R2_put _ _ _ _ => R2Object
  | R2_delete _ _ => unit
  | DO_idFromString _ _ => string
  | DO_idFromName _ _ => string
  | DO_newUniqueId _ => string
  | DO_get _ _ => unit
  | DO_fetch _ _ _ => Response
  | LF_getD1Database _ => unit
  | LF_getKVNamespace _ => unit
  | LF_getR2Bucket _ => unit
  | LF_getDurableObjectNamespace _ => unit
  end.

(** A call on a binding, as opposed to obtaining the binding. *)
Definition is_binding_call (op : Op) : bool :=
  match op with
  | LF_getD1Database _ | LF_getKVNamespace _
  | LF_getR2Bucket _ | LF_getDurableObjectNamespace _ => false
  | _ => true
  end.

(* ------------------------------------------------------------------ *)
(** ** Handler programs: calls, exceptions, try/catch *)
(* ------------------------------------------------------------------ *)

(** A handler body is a tree: it returns, throws, or makes a call and goes
    on with what the call resolved to or threw. *)
Inductive Prog (A : Type) : Type :=
| Ret (a : A)
| Throw (e : Exn)
| Call (op : Op) (k : Res (ret_type op) -> Prog A).
Arguments Ret {A} a.
Arguments Throw {A} e.
Arguments Call {A} op k.

(** [await <call>] outside any handler of its own: a throw propagates. *)
Definition call (op : Op) : Prog (ret_type op) :=
  Call op (fun r => match r with Val a => Ret a | Raise e => Throw e end).

Fixpoint bind {A B : Type} (p : Prog A) (f : A -> Prog B) : Prog B :=
  match p with
  | Ret a => f a
  | Throw e => Throw e
  | Call op k => Call op (fun r => bind (k r) f)
  end.

(** [try { p } catch (error) { h error }]. *)
Fixpoint try_catch {A : Type} (p : Prog A) (h : Exn -> Prog A) : Prog A :=
  match p with
  | Ret a => Ret a
  | Throw e => h e
  | Call op k => Call op (fun r => try_catch (k r) h)
  end.

(** A value that is there or was thrown instead, as a program. *)
Definition of_res {A : Type} (r : Res A) : Prog A :=
  match r with Val a => Ret a | Raise e => Throw e end.

Declare Scope prog_scope.
Delimit Scope prog_scope with prog.
Notation "x <- p ;; q" := (bind p (fun x => q))
  (at level 61, p at next level, right associativity) : prog_scope.
Notation "' pat <- p ;; q" := (bind p (fun x => match x with pat => q end))
  (at level 61, pat pattern, p at next level, right associativity) : prog_scope.

(** [for (const x of xs) { ... f(x) ... }] collecting the results, where
    [f] may throw: the first throw ends the loop. *)
Fixpoint map_res {A B : Type} (f : A -> Res B) (xs : list A) : Res (list B) :=
  match xs with
  | [] => Val []
  | x :: xs' =>
      match f x with
      | Raise e => Raise e
      | Val b =>
          match map_res f xs' with
          | Raise e => Raise e
          | Val bs => Val (b :: bs)
          end
      end
  end.

(** [Promise.all(xs.map(x => <call of x>))]: every call is started, in
    order; the promise resolves to all results, or rejects with the first
    rejection (taken in call order here). *)
Fixpoint call_all (ops : list Op) (failed : option Exn) : Prog unit :=
  match ops with
  | [] => match failed with Some e => Throw e | None => Ret tt end
  | op :: ops' =>
      Call op (fun r =>
        match r, failed with
        | Raise e, None => call_all ops' (Some e)
        | _, _ => call_all ops' failed
        end)
  end.

Section Run.

(** The platform: a state and, for each call, its outcome and the next
    state. *)
Variable World : Type.
Variable answer : forall op : Op, World -> Res (ret_type op) * World.

(** Running a handler body against the platform: the outcome, the calls
    made in order, each with what it threw if it did, and the final state. *)
Fixpoint run {A : Type} (p : Prog A) (w : World)
  : Res A * list (Op * option Exn) * World :=
  match p with
  | Ret a => (Val a, [], w)
  | Throw e => (Raise e, [], w)
  | Call op k =>
      let '(r, w1) := answer op w in
      let '(out, log, w2) := run (k r) w1 in
      (out, (op, match r with Val _ => None | Raise e => Some e end) :: log, w2)
  end.

End Run.

(** The number of calls on a binding a program makes is at most [n],
    whatever the platform answers. *)
Fixpoint calls_at_most {A : Type} (n : nat) (p : Prog A) : Prop :=
  match p with
  | Ret _ => True
  | Throw _ => True
  | Call op k =>
      if is_binding_call op then
        match n with
        | O => False
        | S n' => forall r, calls_at_most n' (k r)
        end
      else forall r, calls_at_most n (k r)
  end.

(* ------------------------------------------------------------------ *)
(** ** packages/api/src/worker: the environment of the API worker *)
(* ------------------------------------------------------------------ *)

(** What the type guards of worker/types.js (isD1Database, isKVNamespace,
    isQueue) say of [env[binding]]. *)
Inductive BindingKind : Type := IsD1 | IsKV | IsR2 | IsQueue | IsOther.

Record D1Entry : Type := mkD1Entry { d1_binding : string; d1_database_name : string }.

Record QueueProducer : Type := mkProducer { producer_binding : string; producer_queue : string }.

Record QueueConsumer : Type := mkConsumer {
  consumer_queue : string;
  max_batch_size : option Z;
  max_batch_timeout : option Z;
  max_retries : option Z;
  dead_letter_queue : JsVal
}.

(** [getManifest(c.env)]: the bindings declared in the project's
    configuration. *)
Record R2Entry : Type := mkR2Entry { r2_binding : string; r2_bucket_name : string }.

Record Manifest : Type := mkManifest {
  manifest_d1 : list D1Entry;
  manifest_kv : list string;
  manifest_r2 : list R2Entry;
  manifest_producers : list QueueProducer;
  manifest_consumers : list QueueConsumer
}.

(** [c.env]. *)
Record Env : Type := mkEnv {
  env_binding : string -> option BindingKind;
  env_manifest : Manifest
}.

(** [a ?? b] on an optional number. *)
Definition nullish_or (a : option Z) (b : Z) : Z :=
  match a with Some n => n | None => b end.

(** [{ error: String(error) }] with status 500, and the D1 variant that
    adds [success: false]. *)
Definition error_500 (error : Exn) : Response :=
  json (JObj [("error", JStr (String_of_error error))]) 500.

Definition error_500_unsuccessful (error : Exn) : Response :=
  json (JObj [("error", JStr (String_of_error error)); ("success", JBool false)]) 500.

Definition error_json (message : string) (status : Z) : Response :=
  json (JObj [("error", JStr message)]) status.

(** Rows as a JSON array; [undefined] when the result carries none. *)
Definition rows_json (rows : option (list JsRecord)) : JsVal :=
  match rows with
  | Some rs => JArr (map JObj rs)
  | None => JUndefined
  end.

(** [result.meta?.changes ?? 0], [result.meta?.last_row_id] and
    [result.meta?.duration]. *)
Definition meta_changes (r : D1Result) : Z :=
  match meta r with Some m => nullish_or (changes m) 0 | None => 0%Z end.

Definition meta_last_row_id (r : D1Result) : JsVal :=
  match meta r with Some m => last_row_id m | None => JUndefined end.

Definition meta_duration (r : D1Result) : JsVal :=
  match meta r with Some m => duration m | None => JUndefined end.

(** The TypeError of reading a property of [undefined]. *)
Definition TypeError_undefined (property : string) : Exn :=
  JsError "TypeError"
          ("Cannot read properties of undefined (reading '" ++ property ++ "')").

(* ------------------------------------------------------------------ *)
(** ** packages/api/src/worker/routes/d1.ts: helpers *)
(* ------------------------------------------------------------------ *)

(** Get database instance from binding name. *)
Definition getDatabase (env : Env) (binding : string) : option string :=
  match env_binding env binding with
  | Some IsD1 => Some binding
  | _ => None
  end.

(** A row of PRAGMA table_info read through the cast to
    [{ name: string; pk: number }]: the pragma gives a string name and a
    numeric pk; a row without them counts as unnamed with pk 0. *)
Definition col_pk (col : JsRecord) : Z :=
  match prop col "pk" with JNum n => n | _ => 0%Z end.

Definition col_name (col : JsRecord) : string :=
  match prop col "name" with JStr s => s | _ => "" end.

(** [cols.sort((a, b) => a.pk - b.pk)]: a stable sort by pk. *)
Fixpoint insert_by_pk (col : JsRecord) (sorted : list JsRecord) : list JsRecord :=
  match sorted with
  | [] => [col]
  | c :: rest =>
      if (col_pk col <=? col_pk c)%Z then col :: c :: rest
      else c :: insert_by_pk col rest
  end.

Definition sort_by_pk (cols : list JsRecord) : list JsRecord :=
  fold_right insert_by_pk [] cols.

(** [cols.filter(col => col.pk > 0).sort(...).map(col => col.name)]. *)
Definition primary_keys_of (cols : list JsRecord) : list string :=
  map col_name (sort_by_pk (filter (fun col => (0 <? col_pk col)%Z) cols)).

Definition table_info_statement (tableName : string) : Statement :=
  ("PRAGMA table_info(" ++ escapeIdentifier tableName ++ ")", []).

Open Scope prog_scope.

(** Get primary key columns for a table. *)
Definition getPrimaryKeys (db : string) (tableName : string) : Prog (list string) :=
  result <- call (D1_all db (table_info_statement tableName)) ;;
  match results result with
  | Some cols => Ret (primary_keys_of cols)
  | None => Throw (TypeError_undefined "filter")
  end.

(* ------------------------------------------------------------------ *)
(** ** packages/api/src/worker/routes/d1.ts: the routes *)
(* ------------------------------------------------------------------ *)

(** Request bodies, as the handlers type [c.req.json<T>()].  An optional
    or checked field is an option. *)
Record QueryBody : Type := mkQueryBody {
  body_sql : option string;
  body_params : option (list JsVal)
}.

Record CellBody : Type := mkCellBody {
  body_column : option string;
  body_value : JsVal
}.

Record BulkDeleteBody : Type := mkBulkDeleteBody {
  delete_rowIds : option (list RowId)
}.

Record BulkUpdateBody : Type := mkBulkUpdateBody {
  update_rowIds : option (list RowId);
  update_data : option JsRecord
}.

(** [{ success: true, meta: { changes, duration } }] and the variant with
    [last_row_id]. *)
Definition changes_response (result : D1Result) : Response :=
  json_ok (JObj [("success", JBool true);
                 ("meta", JObj [("changes", JNum (meta_changes result));
                                ("duration", meta_duration result)])]).

Definition write_response (result : D1Result) : Response :=
  json_ok (JObj [("success", JBool true);
                 ("meta", JObj [("changes", JNum (meta_changes result));
                                ("last_row_id", meta_last_row_id result);
                                ("duration", meta_duration result)])]).

(** [{ success: true, meta: { changes: totalChanges, rowsProcessed } }]. *)
Definition bulk_response (totalChanges : Z) (rowsProcessed : nat) : Response :=
  json_ok (JObj [("success", JBool true);
                 ("meta", JObj [("changes", JNum totalChanges);
                                ("rowsProcessed", JNum (Z.of_nat rowsProcessed))])]).

(** [let totalChanges = 0; for (const r of results) totalChanges +=
    r.meta?.changes ?? 0]. *)
Definition total_changes (rs : list D1Result) : Z :=
  fold_left (fun total r => (total + meta_changes r)%Z) rs 0%Z.

(** [Object.entries(data).filter(([k]) => !primaryKeys.includes(k))]. *)
Definition update_entries (primaryKeys : list string) (data : JsRecord) : JsRecord :=
  filter (fun '(k, _) => negb (existsb (String.eqb k) primaryKeys)) data.

(** [updateEntries.map(([k]) => `${escapeIdentifier(k)} = ?`).join(', ')]. *)
Definition set_clause (updateEntries : JsRecord) : string :=
  join ", " (map (fun '(k, _) => escapeIdentifier k ++ " = ?") updateEntries).

Definition update_sql (tableName setClause whereClause : string) : string :=
  "UPDATE " ++ escapeIdentifier tableName ++ " SET " ++ setClause
  ++ " WHERE " ++ whereClause.

Definition delete_sql (tableName whereClause : string) : string :=
  "DELETE FROM " ++ escapeIdentifier tableName ++ " WHERE " ++ whereClause.

(** The schema query, with the line breaks and indentation of the
    template literal. *)
Definition worker_schema_sql : string :=
"SELECT name, sql FROM sqlite_master
         WHERE type='table' AND name NOT LIKE 'sqlite_%' AND name NOT LIKE '_cf_%' AND name NOT LIKE '_mf_%'
         ORDER BY name".

(** Determine query type for response formatting. *)
Definition isRead (sql : string) : bool :=
  let trimmedSql := toUpperCase (trim sql) in
  startsWith trimmedSql "SELECT" ||
  startsWith trimmedSql "PRAGMA" ||
  startsWith trimmedSql "EXPLAIN".

Section WorkerD1Routes.

Variable JSON_parse_array : string -> option (list JsVal).
Variable env : Env.

(** GET /: list all D1 databases. *)
Definition worker_d1_list : Prog Response :=
  Ret (json_ok (JObj [("databases",
    JArr (map (fun db => JObj [("binding", JStr (d1_binding db));
                               ("database_name", JStr (d1_database_name db))])
              (manifest_d1 (env_manifest env))))])).

(** GET /:binding/schema *)
Definition worker_d1_schema (binding : string) : Prog Response :=
  match getDatabase env binding with
  | None => Ret (error_json "Database not found" 404)
  | Some db =>
      try_catch
        (result <- call (D1_all db (worker_schema_sql, [])) ;;
         Ret (json_ok (JObj [("tables", rows_json (results result))])))
        (fun error => Ret (error_500 error))
  end.

(** GET /:binding/tables/:table.  The four schema queries are started
    together (Promise.all); a rejection surfaces after all were started. *)
Definition worker_d1_table_info (binding tableName : string) : Prog Response :=
  match getDatabase env binding with
  | None => Ret (error_json "Database not found" 404)
  | Some db =>
      try_catch
        (let escapedTable := escapeIdentifier tableName in
         Call (D1_all db ("PRAGMA table_info(" ++ escapedTable ++ ")", [])) (fun r1 =>
         Call (D1_first db ("SELECT COUNT(*) as count FROM " ++ escapedTable, [])) (fun r2 =>
         Call (D1_all db ("PRAGMA index_list(" ++ escapedTable ++ ")", [])) (fun r3 =>
         Call (D1_all db ("PRAGMA foreign_key_list(" ++ escapedTable ++ ")", [])) (fun r4 =>
           columnsResult <- of_res r1 ;;
           countResult <- of_res r2 ;;
           indexesResult <- of_res r3 ;;
           foreignKeysResult <- of_res r4 ;;
           match results columnsResult with
           | None => Throw (TypeError_undefined "filter")
           | Some columns =>
               let primaryKeys := primary_keys_of columns in
               Ret (json_ok (JObj [
                 ("table", JStr tableName);
                 ("columns", rows_json (results columnsResult));
                 ("primaryKeys", JArr (map JStr primaryKeys));
                 ("indexes", rows_json (results indexesResult));
                 ("foreignKeys", rows_json (results foreignKeysResult));
                 ("rowCount",
                  match countResult with
                  | Some row =>
                      match prop row "count" with
                      | JUndefined | JNull => JNum 0
                      | n => n
                      end
                  | None => JNum 0
                  end)]))
           end)))))
        (fun error => Ret (error_500 error))
  end.

(** GET /:binding/tables/:table/rows *)
Definition worker_d1_rows (binding tableName : string)
    (q_limit q_offset q_sort q_dir : option string) : Prog Response :=
  match getDatabase env binding with
  | None => Ret (error_json "Database not found" 404)
  | Some db =>
      try_catch
        (let escapedTable := escapeIdentifier tableName in
         let limit := Z.min (number_or (Number_of_query q_limit) 50) 1000 in
         let offset := number_or (Number_of_query q_offset) 0 in
         let sortDirection :=
           match q_dir with
           | Some d => if String.eqb (toUpperCase d) "DESC" then "DESC" else "ASC"
           | None => "ASC"
           end in
         let sql := "SELECT * FROM " ++ escapedTable in
         let sql :=
           match nonempty q_sort with
           | Some sortColumn =>
               sql ++ " ORDER BY " ++ escapeIdentifier sortColumn ++ " " ++ sortDirection
           | None => sql
           end in
         let sql := sql ++ " LIMIT ? OFFSET ?" in
         result <- call (D1_all db (sql, [JNum limit; JNum offset])) ;;
         Ret (json_ok (JObj [
           ("rows", rows_json (results result));
           ("meta", JObj [("limit", JNum limit);
                          ("offset", JNum offset);
                          ("duration", meta_duration result)])])))
        (fun error => Ret (error_500 error))
  end.

(** POST /:binding/query *)
Definition worker_d1_query (binding : string) (req_json : Res QueryBody)
  : Prog Response :=
  match getDatabase env binding with
  | None => Ret (error_json "Database not found" 404)
  | Some db =>
      try_catch
        (b <- of_res req_json ;;
         match nonempty (body_sql b) with
         | None => Ret (error_json "SQL query is required" 400)
         | Some sql =>
             let params := match body_params b with Some ps => ps | None => [] end in
             if isRead sql then
               result <- call (D1_all db (sql, params)) ;;
               Ret (json_ok (JObj [
                 ("success", JBool true);
                 ("results", rows_json (results result));
                 ("rowCount",
                  JNum (match results result with
                        | Some rs => Z.of_nat (length rs)
                        | None => 0
                        end));
                 ("meta", JObj [("changes", JNum 0);
                                ("duration", meta_duration result)])]))
             else
               result <- call (D1_run db (sql, params)) ;;
               Ret (write_response result)
         end)
        (fun error => Ret (error_500_unsuccessful error))
  end.

(** POST /:binding/tables/:table/rows *)
Definition worker_d1_insert (binding tableName : string) (req_json : Res JsRecord)
  : Prog Response :=
  match getDatabase env binding with
  | None => Ret (error_json "Database not found" 404)
  | Some db =>
      try_catch
        (data <- of_res req_json ;;
         let entries :=
           filter (fun '(_, v) => match v with JUndefined => false | _ => true end) data in
         let columns := map (fun '(k, _) => escapeIdentifier k) entries in
         let vals := map snd entries in
         let placeholders := join ", " (map (fun _ => "?") columns) in
         match columns with
         | [] => Ret (error_json "No data provided" 400)
         | _ =>
             let sql := "INSERT INTO " ++ escapeIdentifier tableName ++ " ("
                        ++ join ", " columns ++ ") VALUES (" ++ placeholders ++ ")" in
             result <- call (D1_run db (sql, vals)) ;;
             Ret (write_response result)
         end)
        (fun error => Ret (error_500_unsuccessful error))
  end.

(** PUT /:binding/tables/:table/rows/:rowId *)
Definition worker_d1_update_row (binding tableName rowId : string)
    (req_json : Res JsRecord) : Prog Response :=
  match getDatabase env binding with
  | None => Ret (error_json "Database not found" 404)
  | Some db =>
      try_catch
        (data <- of_res req_json ;;
         primaryKeys <- getPrimaryKeys db tableName ;;
         match primaryKeys with
         | [] => Ret (error_json "Table has no primary key" 400)
         | _ =>
             w <- of_res (buildPrimaryKeyWhere JSON_parse_array primaryKeys
                            (RowIdString rowId)) ;;
             let updateEntries := update_entries primaryKeys data in
             match updateEntries with
             | [] => Ret (error_json "No data to update" 400)
             | _ =>
                 let updateValues := map snd updateEntries in
                 let sql := update_sql tableName (set_clause updateEntries) (clause w) in
                 result <- call (D1_run db (sql, (updateValues ++ values w)%list)) ;;
                 Ret (changes_response result)
             end
         end)
        (fun error => Ret (error_500_unsuccessful error))
  end.

(** PATCH /:binding/tables/:table/rows/:rowId *)
Definition worker_d1_update_cell (binding tableName rowId : string)
    (req_json : Res CellBody) : Prog Response :=
  match getDatabase env binding with
  | None => Ret (error_json "Database not found" 404)
  | Some db =>
      try_catch
        (b <- of_res req_json ;;
         match nonempty (body_column b) with
         | None => Ret (error_json "Column name is required" 400)
         | Some column =>
             primaryKeys <- getPrimaryKeys db tableName ;;
             match primaryKeys with
             | [] => Ret (error_json "Table has no primary key" 400)
             | _ =>
                 w <- of_res (buildPrimaryKeyWhere JSON_parse_array primaryKeys
                                (RowIdString rowId)) ;;
                 let sql := "UPDATE " ++ escapeIdentifier tableName ++ " SET "
                            ++ escapeIdentifier column ++ " = ? WHERE " ++ clause w in
                 result <- call (D1_run db (sql, body_value b :: values w)) ;;
                 Ret (changes_response result)
             end
         end)
        (fun error => Ret (error_500_unsuccessful error))
  end.

(** DELETE /:binding/tables/:table/rows/:rowId *)
Definition worker_d1_delete_row (binding tableName rowId : string) : Prog Response :=
  match getDatabase env binding with
  | None => Ret (error_json "Database not found" 404)
  | Some db =>
      try_catch
        (primaryKeys <- getPrimaryKeys db tableName ;;
         match primaryKeys with
         | [] => Ret (error_json "Table has no primary key" 400)
         | _ =>
             w <- of_res (buildPrimaryKeyWhere JSON_parse_array primaryKeys
                            (RowIdString rowId)) ;;
             result <- call (D1_run db (delete_sql tableName (clause w), values w)) ;;
             Ret (changes_response result)
         end)
        (fun error => Ret (error_500_unsuccessful error))
  end.

(** The statement the bulk-delete loop pushes for one row identifier. *)
Definition delete_statement (primaryKeys : list string) (tableName : string)
    (rowId : RowId) : Res Statement :=
  match buildPrimaryKeyWhere JSON_parse_array primaryKeys rowId with
  | Val w => Val (delete_sql tableName (clause w), values w)
  | Raise e => Raise e
  end.

(** POST /:binding/tables/:table/bulk-delete *)
Definition worker_d1_bulk_delete (binding tableName : string)
    (req_json : Res BulkDeleteBody) : Prog Response :=
  match getDatabase env binding with
  | None => Ret (error_json "Database not found" 404)
  | Some db =>
      try_catch
        (b <- of_res req_json ;;
         match delete_rowIds b with
         | None | Some [] => Ret (error_json "No row IDs provided" 400)
         | Some rowIds =>
             primaryKeys <- getPrimaryKeys db tableName ;;
             match primaryKeys with
             | [] => Ret (error_json "Table has no primary key" 400)
             | _ =>
                 statements <- of_res (map_res (delete_statement primaryKeys tableName)
                                               rowIds) ;;
                 rs <- call (D1_batch db statements) ;;
                 Ret (bulk_response (total_changes rs) (length rowIds))
             end
         end)
        (fun error => Ret (error_500_unsuccessful error))
  end.

(** The statement the bulk-update loop pushes for one row identifier. *)
Definition update_statement (primaryKeys : list string) (tableName : string)
    (updateEntries : JsRecord) (rowId : RowId) : Res Statement :=
  match buildPrimaryKeyWhere JSON_parse_array primaryKeys rowId with
  | Val w => Val (update_sql tableName (set_clause updateEntries) (clause w),
                  (map snd updateEntries ++ values w)%list)
  | Raise e => Raise e
  end.

(** POST /:binding/tables/:table/bulk-update *)
Definition worker_d1_bulk_update (binding tableName : string)
    (req_json : Res BulkUpdateBody) : Prog Response :=
  match getDatabase env binding with
  | None => Ret (error_json "Database not found" 404)
  | Some db =>
      try_catch
        (b <- of_res req_json ;;
         match update_rowIds b with
         | None | Some [] => Ret (error_json "No row IDs provided" 400)
         | Some rowIds =>
             match update_data b with
             | None | Some [] => Ret (error_json "No data provided" 400)
             | Some data =>
                 primaryKeys <- getPrimaryKeys db tableName ;;
                 match primaryKeys with
                 | [] => Ret (error_json "Table has no primary key" 400)
                 | _ =>
                     let updateEntries := update_entries primaryKeys data in
                     match updateEntries with
                     | [] =>
                         Ret (error_json
                           "No data to update (only primary key columns provided)" 400)
                     | _ =>
                         statements <- of_res
                           (map_res (update_statement primaryKeys tableName updateEntries)
                                    rowIds) ;;
                         rs <- call (D1_batch db statements) ;;
                         Ret (bulk_response (total_changes rs) (length rowIds))
                     end
                 end
             end
         end)
        (fun error => Ret (error_500_unsuccessful error))
  end.

End WorkerD1Routes.

(* ------------------------------------------------------------------ *)
(** ** packages/api/src/worker/routes/kv.ts *)
(* ------------------------------------------------------------------ *)

(** [{ value, metadata?, expirationTtl?, expiration? }]. *)
Record KvPutBody : Type := mkKvPutBody {
  kv_body_value : JsVal;
  kv_body_metadata : JsVal;
  kv_body_expirationTtl : JsVal;
  kv_body_expiration : JsVal
}.

(** The [type] query parameter: [c.req.query('type') || 'text'], then
    json, arrayBuffer, or text for anything else. *)
Definition kv_type_of_query (q_type : option string) : KvType :=
  match nonempty q_type with
  | Some t =>
      if String.eqb t "json" then KvJson
      else if String.eqb t "arrayBuffer" then KvArrayBuffer
      else KvText
  | None => KvText
  end.

(** A value read from KV as the response carries it, [null] for a missing
    key.  The base64 text of an ArrayBuffer is its representation. *)
Definition kv_response_value (t : KvType) : KvValue t -> JsVal :=
  match t with
  | KvText => fun v => match v with Some s => JStr s | None => JNull end
  | KvJson => fun v => v
  | KvArrayBuffer => fun v => match v with Some b64 => JStr b64 | None => JNull end
  end.

Definition is_null (v : JsVal) : bool :=
  match v with JNull => true | _ => false end.

Definition kv_key_json (k : KvKey) : JsVal :=
  JObj [("name", JStr (key_name k));
        ("expiration", key_expiration k);
        ("metadata", key_metadata k)].

Definition optional_text (o : option string) : JsVal :=
  match o with Some s => JStr s | None => JUndefined end.

Definition kv_put_options (b : KvPutBody) : KvPutOptions :=
  mkKvPutOptions (kv_body_metadata b) (kv_body_expirationTtl b) (kv_body_expiration b).

Section WorkerKVRoutes.

Variable env : Env.

(** Helper to get KV namespace from env. *)
Definition getKV (binding : string) : option string :=
  match env_binding env binding with
  | Some IsKV => Some binding
  | _ => None
  end.

(** GET /: list all KV namespaces. *)
Definition worker_kv_namespaces : Prog Response :=
  Ret (json_ok (JObj [("namespaces",
    JArr (map (fun kv => JObj [("binding", JStr kv); ("id", JStr kv)])
              (manifest_kv (env_manifest env))))])).

(** GET /:binding/keys *)
Definition worker_kv_keys (binding : string) (q_prefix q_limit q_cursor : option string)
  : Prog Response :=
  match getKV binding with
  | None => Ret (error_json "Namespace not found" 404)
  | Some kv =>
      try_catch
        (let prefix := nonempty q_prefix in
         let limit := number_or (Number_of_query q_limit) 100 in
         let cursor := nonempty q_cursor in
         result <- call (KV_list kv prefix limit cursor) ;;
         Ret (json_ok (JObj [
           ("keys", JArr (map kv_key_json (list_keys result)));
           ("cursor", optional_text (nonempty (list_cursor result)));
           ("list_complete", JBool (list_complete result))])))
        (fun error => Ret (error_500 error))
  end.

(** GET /:binding/keys/:key *)
Definition worker_kv_get (binding key : string) (q_type : option string)
  : Prog Response :=
  match getKV binding with
  | None => Ret (error_json "Namespace not found" 404)
  | Some kv =>
      try_catch
        (let t := kv_type_of_query q_type in
         '(value, metadata) <- call (KV_getWithMetadata kv key t) ;;
         let responseValue := kv_response_value t value in
         if is_null responseValue then Ret (error_json "Key not found" 404)
         else
           Ret (json_ok (JObj [("key", JStr key);
                               ("value", responseValue);
                               ("metadata", metadata)])))
        (fun error => Ret (error_500 error))
  end.

(** PUT /:binding/keys/:key *)
Definition worker_kv_put (binding key : string) (req_json : Res KvPutBody)
  : Prog Response :=
  match getKV binding with
  | None => Ret (error_json "Namespace not found" 404)
  | Some kv =>
      try_catch
        (b <- of_res req_json ;;
         _ <- call (KV_put kv key (kv_body_value b) (kv_put_options b)) ;;
         Ret (json_ok (JObj [("success", JBool true)])))
        (fun error => Ret (error_500 error))
  end.

(** DELETE /:binding/keys/:key *)
Definition worker_kv_delete (binding key : string) : Prog Response :=
  match getKV binding with
  | None => Ret (error_json "Namespace not found" 404)
  | Some kv =>
      try_catch
        (_ <- call (KV_delete kv key) ;;
         Ret (json_ok (JObj [("success", JBool true)])))
        (fun error => Ret (error_500 error))
  end.

(** POST /:binding/bulk-delete *)
Definition worker_kv_bulk_delete (binding : string) (req_json : Res (list string))
  : Prog Response :=
  match getKV binding with
  | None => Ret (error_json "Namespace not found" 404)
  | Some kv =>
      try_catch
        (keys <- of_res req_json ;;
         _ <- call_all (map (fun key => KV_delete kv key) keys) None ;;
         Ret (json_ok (JObj [("success", JBool true);
                             ("deleted", JNum (Z.of_nat (length keys)))])))
        (fun error => Ret (error_500 error))
  end.

End WorkerKVRoutes.

(* ------------------------------------------------------------------ *)
(** ** packages/api/src/worker/routes/queues.ts *)
(* ------------------------------------------------------------------ *)

Definition optional_number (o : option Z) (d : Z) : JsVal := JNum (nullish_or o d).

(** [`${n}`] for a length. *)
Definition decimal (n : nat) : string :=
  DecimalString.NilZero.string_of_uint (Nat.to_uint n).

Section WorkerQueuesRoutes.

Variable env : Env.

(** Helper to get queue from env. *)
Definition getQueue (binding : string) : option string :=
  match env_binding env binding with
  | Some IsQueue => Some binding
  | _ => None
  end.

(** GET /: list all queues. *)
Definition worker_queues_list : Prog Response :=
  Ret (json_ok (JObj [
    ("producers",
     JArr (map (fun p => JObj [("binding", JStr (producer_binding p));
                               ("queue", JStr (producer_queue p))])
               (manifest_producers (env_manifest env))));
    ("consumers",
     JArr (map (fun consumer => JObj [
                  ("queue", JStr (consumer_queue consumer));
                  ("max_batch_size", optional_number (max_batch_size consumer) 10);
                  ("max_batch_timeout", optional_number (max_batch_timeout consumer) 5);
                  ("max_retries", optional_number (max_retries consumer) 3);
                  ("dead_letter_queue", dead_letter_queue consumer)])
               (manifest_consumers (env_manifest env))))])).

(** POST /:binding/send.  The body is [{ message }]. *)
Definition worker_queues_send (binding : string) (req_json : Res JsVal) : Prog Response :=
  match getQueue binding with
  | None => Ret (error_json "Queue not found" 404)
  | Some queue =>
      try_catch
        (message <- of_res req_json ;;
         match message with
         | JUndefined => Ret (error_json "Message is required" 400)
         | _ =>
             _ <- call (Queue_send queue message) ;;
             Ret (json_ok (JObj [
               ("success", JBool true);
               ("message",
                JStr "Message sent! Check your terminal for consumer output.")]))
         end)
        (fun error => Ret (error_500 error))
  end.

(** POST /:binding/send-batch.  The body is [{ messages }]. *)
Definition worker_queues_send_batch (binding : string) (req_json : Res JsVal)
  : Prog Response :=
  match getQueue binding with
  | None => Ret (error_json "Queue not found" 404)
  | Some queue =>
      try_catch
        (messages <- of_res req_json ;;
         match messages with
         | JArr (m :: ms) =>
             let msgs := m :: ms in
             let batch := map (fun msg => JObj [("body", msg)]) msgs in
             _ <- call (Queue_sendBatch queue batch) ;;
             Ret (json_ok (JObj [
               ("success", JBool true);
               ("count", JNum (Z.of_nat (length msgs)));
               ("message",
                JStr (decimal (length msgs)
                      ++ " message(s) sent! Check your terminal for consumer output."))]))
         | _ =>
             Ret (error_json "Messages array is required and must not be empty" 400)
         end)
        (fun error => Ret (error_500 error))
  end.

End WorkerQueuesRoutes.

(* ------------------------------------------------------------------ *)
(** ** packages/server/src/routes/d1.ts *)
(* ------------------------------------------------------------------ *)

(** [localflare.getDiscoveredBindings()]: the binding lists the dashboard
    server shows; the whole object may be missing. *)
Record Discovered : Type := mkDiscovered {
  discovered_d1 : option (list JsVal);
  discovered_kv : option (list JsVal);
  discovered_r2 : option (list JsVal);
  discovered_durableObjects : option (list JsVal)
}.

(** [bindings?.d1 ?? []] and the like. *)
Definition discovered_list (bindings : option Discovered)
    (field : Discovered -> option (list JsVal)) : JsVal :=
  match bindings with
  | Some b => match field b with Some l => JArr l | None => JArr [] end
  | None => JArr []
  end.

(** [result.meta] as the server hands it on. *)
Definition meta_json (r : D1Result) : JsVal :=
  match meta r with
  | Some m =>
      JObj [("changes", match changes m with Some n => JNum n | None => JUndefined end);
            ("last_row_id", last_row_id m);
            ("duration", duration m)]
  | None => JUndefined
  end.

(** The schema query of the server, with the line breaks and indentation
    of the template literal. *)
Definition server_schema_sql : string :=
"
          SELECT name, sql FROM sqlite_master
          WHERE type='table' AND name NOT LIKE 'sqlite_%' AND name NOT LIKE '_cf_%'
          ORDER BY name
        ".

(** A name between double quotes, as is. *)
Definition quoted (name : string) : string :=
  String dquote (name ++ String dquote EmptyString).

Section ServerD1Routes.

Variable bindings : option Discovered.

(** GET /: list all D1 databases. *)
Definition server_d1_list : Prog Response :=
  Ret (json_ok (JObj [("databases", discovered_list bindings discovered_d1)])).

(** GET /:binding/schema *)
Definition server_d1_schema (binding : string) : Prog Response :=
  try_catch
    (_ <- call (LF_getD1Database binding) ;;
     tables <- call (D1_all binding (server_schema_sql, [])) ;;
     Ret (json_ok (JObj [("tables", rows_json (results tables))])))
    (fun error => Ret (error_500 error)).

(** GET /:binding/tables/:table *)
Definition server_d1_table_info (binding tableName : string) : Prog Response :=
  try_catch
    (_ <- call (LF_getD1Database binding) ;;
     columns <- call (D1_all binding ("PRAGMA table_info(" ++ quoted tableName ++ ")", [])) ;;
     count <- call (D1_first binding
                      ("SELECT COUNT(*) as count FROM " ++ quoted tableName, [])) ;;
     Ret (json_ok (JObj [
       ("table", JStr tableName);
       ("columns", rows_json (results columns));
       ("rowCount",
        match count with
        | Some row =>
            match prop row "count" with
            | JUndefined | JNull => JNum 0
            | n => n
            end
        | None => JNum 0
        end)])))
    (fun error => Ret (error_500 error)).

(** GET /:binding/tables/:table/rows *)
Definition server_d1_rows (binding tableName : string) (q_limit q_offset : option string)
  : Prog Response :=
  try_catch
    (_ <- call (LF_getD1Database binding) ;;
     let limit := number_or (Number_of_query q_limit) 100 in
     let offset := number_or (Number_of_query q_offset) 0 in
     rows <- call (D1_all binding
                     ("SELECT * FROM " ++ quoted tableName ++ " LIMIT ? OFFSET ?",
                      [JNum limit; JNum offset])) ;;
     Ret (json_ok (JObj [("rows", rows_json (results rows));
                         ("meta", meta_json rows)])))
    (fun error => Ret (error_500 error)).

(** POST /:binding/query *)
Definition server_d1_query (binding : string) (req_json : Res QueryBody) : Prog Response :=
  try_catch
    (_ <- call (LF_getD1Database binding) ;;
     b <- of_res req_json ;;
     match nonempty (body_sql b) with
     | None => Ret (error_json "SQL query is required" 400)
     | Some sql =>
         let params := match body_params b with Some ps => ps | None => [] end in
         if startsWith (toUpperCase (trim sql)) "SELECT" then
           result <- call (D1_all binding (sql, params)) ;;
           Ret (json_ok (JObj [("success", JBool true);
                               ("results", rows_json (results result));
                               ("meta", meta_json result)]))
         else
           result <- call (D1_run binding (sql, params)) ;;
           Ret (json_ok (JObj [("success", JBool (success result));
                               ("meta", meta_json result)]))
     end)
    (fun error => Ret (error_500 error)).

(** POST /:binding/tables/:table/rows *)
Definition server_d1_insert (binding tableName : string) (req_json : Res JsRecord)
  : Prog Response :=
  try_catch
    (_ <- call (LF_getD1Database binding) ;;
     data <- of_res req_json ;;
     let columns := map fst data in
     let vals := map snd data in
     let placeholders := join ", " (map (fun _ => "?") columns) in
     let sql := "INSERT INTO " ++ quoted tableName ++ " ("
                ++ join ", " (map quoted columns) ++ ") VALUES (" ++ placeholders ++ ")" in
     result <- call (D1_run binding (sql, vals)) ;;
     Ret (json_ok (JObj [("success", JBool (success result));
                         ("meta", meta_json result)])))
    (fun error => Ret (error_500 error)).

(** PUT /:binding/tables/:table/rows/:id *)
Definition server_d1_update_row (binding tableName id : string) (req_json : Res JsRecord)
  : Prog Response :=
  try_catch
    (_ <- call (LF_getD1Database binding) ;;
     data <- of_res req_json ;;
     let setClause := join ", " (map (fun col => quoted col ++ " = ?") (map fst data)) in
     let vals := (map snd data ++ [JStr id])%list in
     let sql := "UPDATE " ++ quoted tableName ++ " SET " ++ setClause ++ " WHERE id = ?" in
     result <- call (D1_run binding (sql, vals)) ;;
     Ret (json_ok (JObj [("success", JBool (success result));
                         ("meta", meta_json result)])))
    (fun error => Ret (error_500 error)).

(** DELETE /:binding/tables/:table/rows/:id *)
Definition server_d1_delete_row (binding tableName id : string) : Prog Response :=
  try_catch
    (_ <- call (LF_getD1Database binding) ;;
     result <- call (D1_run binding
                       ("DELETE FROM " ++ quoted tableName ++ " WHERE id = ?", [JStr id])) ;;
     Ret (json_ok (JObj [("success", JBool (success result));
                         ("meta", meta_json result)])))
    (fun error => Ret (error_500 error)).

End ServerD1Routes.

(* ------------------------------------------------------------------ *)
(** ** packages/server/src/routes/kv.ts *)
(* ------------------------------------------------------------------ *)

Section ServerKVRoutes.

Variable bindings : option Discovered.

(** GET /: list all KV namespaces. *)
Definition server_kv_namespaces : Prog Response :=
  Ret (json_ok (JObj [("namespaces", discovered_list bindings discovered_kv)])).

(** GET /:binding/keys *)
Definition server_kv_keys (binding : string) (q_prefix q_cursor q_limit : option string)
  : Prog Response :=
  try_catch
    (_ <- call (LF_getKVNamespace binding) ;;
     let prefix := nonempty q_prefix in
     let cursor := nonempty q_cursor in
     let limit := number_or (Number_of_query q_limit) 100 in
     list <- call (KV_list binding prefix limit cursor) ;;
     Ret (json_ok (JObj [
       ("keys", JArr (map kv_key_json (list_keys list)));
       ("cursor", optional_text (list_cursor list));
       ("list_complete", JBool (list_complete list))])))
    (fun error => Ret (error_500 error)).

(** GET /:binding/keys/:key.  The metadata is read as text first, then
    the value in the requested type. *)
Definition server_kv_get (binding key : string) (q_type : option string) : Prog Response :=
  try_catch
    (_ <- call (LF_getKVNamespace binding) ;;
     let t := kv_type_of_query q_type in
     metadata <- call (KV_getWithMetadata binding key KvText) ;;
     v <- call (KV_get binding key t) ;;
     let value := kv_response_value t v in
     if is_null value then Ret (error_json "Key not found" 404)
     else
       Ret (json_ok (JObj [("key", JStr key);
                           ("value", value);
                           ("metadata", snd metadata)])))
    (fun error => Ret (error_500 error)).

(** PUT /:binding/keys/:key *)
Definition server_kv_put (binding key : string) (req_json : Res KvPutBody) : Prog Response :=
  try_catch
    (_ <- call (LF_getKVNamespace binding) ;;
     b <- of_res req_json ;;
     _ <- call (KV_put binding key (kv_body_value b) (kv_put_options b)) ;;
     Ret (json_ok (JObj [("success", JBool true)])))
    (fun error => Ret (error_500 error)).

(** DELETE /:binding/keys/:key *)
Definition server_kv_delete (binding key : string) : Prog Response :=
  try_catch
    (_ <- call (LF_getKVNamespace binding) ;;
     _ <- call (KV_delete binding key) ;;
     Ret (json_ok (JObj [("success", JBool true)])))
    (fun error => Ret (error_500 error)).

(** POST /:binding/bulk-delete *)
Definition server_kv_bulk_delete (binding : string) (req_json : Res (list string))
  : Prog Response :=
  try_catch
    (_ <- call (LF_getKVNamespace binding) ;;
     keys <- of_res req_json ;;
     _ <- call_all (map (fun key => KV_delete binding key) keys) None ;;
     Ret (json_ok (JObj [("success", JBool true);
                         ("deleted", JNum (Z.of_nat (length keys)))])))
    (fun error => Ret (error_500 error)).

End ServerKVRoutes.

(* ------------------------------------------------------------------ *)
(** ** R2 routes: packages/api/src/worker/routes/r2.ts and
       packages/server/src/routes/r2.ts *)
(* ------------------------------------------------------------------ *)

(** The headers of a request, as the Headers object lists them: lower-case
    names, each once. *)
Definition RequestHeaders : Type := list (string * string).

(** [c.req.header(name)]. *)
Fixpoint header_value (hs : RequestHeaders) (name : string) : option string :=
  match hs with
  | [] => None
  | (k, v) :: hs' =>
      if String.eqb k (toLowerCase name) then Some v else header_value hs' name
  end.

(** [o[k] = v] on a record of texts. *)
Fixpoint assign (o : list (string * string)) (k v : string) : list (string * string) :=
  match o with
  | [] => [(k, v)]
  | (k', v') :: o' =>
      if String.eqb k' k then (k, v) :: o' else (k', v') :: assign o' k v
  end.

(** Extract custom metadata from the x-amz-meta- headers. *)
Definition custom_metadata (hs : RequestHeaders) : list (string * string) :=
  fold_left
    (fun customMetadata '(headerKey, value) =>
       if startsWith (toLowerCase headerKey) "x-amz-meta-"
       then assign customMetadata (drop 11 headerKey) value
       else customMetadata)
    hs [].

(** [Object.keys(customMetadata).length > 0 ? customMetadata : undefined]. *)
Definition nonempty_record (o : list (string * string)) : option (list (string * string)) :=
  match o with
  | [] => None
  | _ => Some o
  end.

(** [m?.k] for a text property of optional metadata, with [|| d]. *)
Definition metadata_text (md : option JsRecord) (k : string) : option string :=
  match md with
  | Some fields =>
      match prop fields k with
      | JStr s => nonempty (Some s)
      | _ => None
      end
  | None => None
  end.

Definition text_or (o : option string) (d : string) : string :=
  match o with Some s => s | None => d end.

Definition optional_record (md : option JsRecord) : JsVal :=
  match md with Some fields => JObj fields | None => JUndefined end.

(** An object of a listing, and the metadata of one object. *)
Definition r2_listed_json (obj : R2Object) : JsVal :=
  JObj [("key", JStr (r2_key obj));
        ("size", JNum (r2_size obj));
        ("etag", JStr (r2_etag obj));
        ("httpEtag", JStr (r2_httpEtag obj));
        ("uploaded", JStr (r2_uploaded obj));
        ("checksums", r2_checksums obj);
        ("customMetadata", r2_customMetadata obj)].

Definition r2_head_json (head : R2Object) : JsVal :=
  JObj [("key", JStr (r2_key head));
        ("size", JNum (r2_size head));
        ("etag", JStr (r2_etag head));
        ("httpEtag", JStr (r2_httpEtag head));
        ("uploaded", JStr (r2_uploaded head));
        ("checksums", r2_checksums head);
        ("httpMetadata", optional_record (r2_httpMetadata head));
        ("customMetadata", r2_customMetadata head)].

(** The headers set for the content of an object. *)
Definition r2_content_headers (object : R2Object) : list (string * string) :=
  ([("Content-Type",
     text_or (metadata_text (r2_httpMetadata object) "contentType")
             "application/octet-stream");
    ("ETag", r2_httpEtag object);
    ("Content-Length", String_of_Z (r2_size object))]
   ++ match metadata_text (r2_httpMetadata object) "contentDisposition" with
      | Some d => [("Content-Disposition", d)]
      | None => []
      end)%list.

Definition r2_put_json (result : R2Object) : JsVal :=
  JObj [("success", JBool true);
        ("key", JStr (r2_key result));
        ("size", JNum (r2_size result));
        ("etag", JStr (r2_etag result))].

Definition r2_put_options (hs : RequestHeaders) : R2PutOptions :=
  mkR2PutOptions (text_or (nonempty (header_value hs "Content-Type"))
                          "application/octet-stream")
                 (nonempty_record (custom_metadata hs)).

Definition deleted_json (keys : list string) : JsVal :=
  JObj [("success", JBool true); ("deleted", JNum (Z.of_nat (length keys)))].

Section WorkerR2Routes.

Variable env : Env.

(** Helper to get R2 bucket from env. *)
Definition getR2 (binding : string) : option string :=
  match env_binding env binding with
  | Some IsR2 => Some binding
  | _ => None
  end.

(** GET /: list all R2 buckets. *)
Definition worker_r2_buckets : Prog Response :=
  Ret (json_ok (JObj [("buckets",
    JArr (map (fun r2 => JObj [("binding", JStr (r2_binding r2));
                               ("bucket_name", JStr (r2_bucket_name r2))])
              (manifest_r2 (env_manifest env))))])).

(** GET /:binding/objects *)
Definition worker_r2_objects (binding : string)
    (q_prefix q_limit q_cursor q_delimiter : option string) : Prog Response :=
  match getR2 binding with
  | None => Ret (error_json "Bucket not found" 404)
  | Some r2 =>
      try_catch
        (let prefix := nonempty q_prefix in
         let limit := number_or (Number_of_query q_limit) 100 in
         let cursor := nonempty q_cursor in
         let delimiter := nonempty q_delimiter in
         result <- call (R2_list r2 (mkR2ListOptions prefix limit cursor delimiter)) ;;
         Ret (json_ok (JObj [
           ("objects", JArr (map r2_listed_json (r2_objects result)));
           ("truncated", JBool (r2_truncated result));
           ("cursor", optional_text (nonempty (r2_cursor result)));
           ("delimitedPrefixes", JArr (map JStr (r2_delimitedPrefixes result)))])))
        (fun error => Ret (error_500 error))
  end.

(** GET /:binding/objects/:key/meta *)
Definition worker_r2_head (binding key : string) : Prog Response :=
  match getR2 binding with
  | None => Ret (error_json "Bucket not found" 404)
  | Some r2 =>
      try_catch
        (head <- call (R2_head r2 key) ;;
         match head with
         | None => Ret (error_json "Object not found" 404)
         | Some h => Ret (json_ok (r2_head_json h))
         end)
        (fun error => Ret (error_500 error))
  end.

(** GET /:binding/objects/:key *)
Definition worker_r2_get (binding key : string) : Prog Response :=
  match getR2 binding with
  | None => Ret (error_json "Bucket not found" 404)
  | Some r2 =>
      try_catch
        (object <- call (R2_get r2 key) ;;
         match object with
         | None => Ret (error_json "Object not found" 404)
         | Some (obj, content) => Ret (stream_response content (r2_content_headers obj))
         end)
        (fun error => Ret (error_500 error))
  end.

(** PUT /:binding/objects/:key.  The body is the stream of the request. *)
Definition worker_r2_put (binding key : string) (hs : RequestHeaders) (content : string)
  : Prog Response :=
  match getR2 binding with
  | None => Ret (error_json "Bucket not found" 404)
  | Some r2 =>
      try_catch
        (result <- call (R2_put r2 key content (r2_put_options hs)) ;;
         Ret (json_ok (r2_put_json result)))
        (fun error => Ret (error_500 error))
  end.

(** DELETE /:binding/objects/:key *)
Definition worker_r2_delete (binding key : string) : Prog Response :=
  match getR2 binding with
  | None => Ret (error_json "Bucket not found" 404)
  | Some r2 =>
      try_catch
        (_ <- call (R2_delete r2 (OneKey key)) ;;
         Ret (json_ok (JObj [("success", JBool true)])))
        (fun error => Ret (error_500 error))
  end.

(** POST /:binding/bulk-delete *)
Definition worker_r2_bulk_delete (binding : string) (req_json : Res (list string))
  : Prog Response :=
  match getR2 binding with
  | None => Ret (error_json "Bucket not found" 404)
  | Some r2 =>
      try_catch
        (keys <- of_res req_json ;;
         _ <- call (R2_delete r2 (ManyKeys keys)) ;;
         Ret (json_ok (deleted_json keys)))
        (fun error => Ret (error_500 error))
  end.

End WorkerR2Routes.

Section ServerR2Routes.

Variable bindings : option Discovered.

(** GET /: list all R2 buckets. *)
Definition server_r2_buckets : Prog Response :=
  Ret (json_ok (JObj [("buckets", discovered_list bindings discovered_r2)])).

(** GET /:binding/objects *)
Definition server_r2_objects (binding : string)
    (q_prefix q_cursor q_limit q_delimiter : option string) : Prog Response :=
  try_catch
    (_ <- call (LF_getR2Bucket binding) ;;
     let prefix := nonempty q_prefix in
     let cursor := nonempty q_cursor in
     let limit := number_or (Number_of_query q_limit) 100 in
     let delimiter := nonempty q_delimiter in
     list <- call (R2_list binding (mkR2ListOptions prefix limit cursor delimiter)) ;;
     Ret (json_ok (JObj [
       ("objects", JArr (map r2_listed_json (r2_objects list)));
       ("truncated", JBool (r2_truncated list));
       ("cursor", optional_text (r2_cursor list));
       ("delimitedPrefixes", JArr (map JStr (r2_delimitedPrefixes list)))])))
    (fun error => Ret (error_500 error)).

(** GET /:binding/objects/:key/meta *)
Definition server_r2_head (binding key : string) : Prog Response :=
  try_catch
    (_ <- call (LF_getR2Bucket binding) ;;
     head <- call (R2_head binding key) ;;
     match head with
     | None => Ret (error_json "Object not found" 404)
     | Some h => Ret (json_ok (r2_head_json h))
     end)
    (fun error => Ret (error_500 error)).

(** GET /:binding/objects/:key *)
Definition server_r2_get (binding key : string) : Prog Response :=
  try_catch
    (_ <- call (LF_getR2Bucket binding) ;;
     object <- call (R2_get binding key) ;;
     match object with
     | None => Ret (error_json "Object not found" 404)
     | Some (obj, content) => Ret (stream_response content (r2_content_headers obj))
     end)
    (fun error => Ret (error_500 error)).

(** PUT /:binding/objects/:key.  The body is read whole
    ([c.req.arrayBuffer()]), which may fail. *)
Definition server_r2_put (binding key : string) (hs : RequestHeaders)
    (req_arrayBuffer : Res string) : Prog Response :=
  try_catch
    (_ <- call (LF_getR2Bucket binding) ;;
     content <- of_res req_arrayBuffer ;;
     result <- call (R2_put binding key content (r2_put_options hs)) ;;
     Ret (json_ok (r2_put_json result)))
    (fun error => Ret (error_500 error)).

(** DELETE /:binding/objects/:key *)
Definition server_r2_delete (binding key : string) : Prog Response :=
  try_catch
    (_ <- call (LF_getR2Bucket binding) ;;
     _ <- call (R2_delete binding (OneKey key)) ;;
     Ret (json_ok (JObj [("success", JBool true)])))
    (fun error => Ret (error_500 error)).

(** POST /:binding/bulk-delete *)
Definition server_r2_bulk_delete (binding : string) (req_json : Res (list string))
  : Prog Response :=
  try_catch
    (_ <- call (LF_getR2Bucket binding) ;;
     keys <- of_res req_json ;;
     _ <- call (R2_delete binding (ManyKeys keys)) ;;
     Ret (json_ok (deleted_json keys)))
    (fun error => Ret (error_500 error)).

End ServerR2Routes.

(* ------------------------------------------------------------------ *)
(** ** packages/api/src/worker/routes/logs.ts *)
(* ------------------------------------------------------------------ *)

(** GET /: recent logs (a placeholder). *)
Definition worker_logs_list : Prog Response :=
  Ret (json_ok (JObj [
    ("logs", JArr []);
    ("message",
     JStr "In sidecar mode, logs are displayed in your terminal where localflare is running.")])).

(** DELETE /: clear logs (a no-op). *)
Definition worker_logs_clear : Prog Response :=
  Ret (json_ok (JObj [("success", JBool true)])).

Definition line_feed : string := String (ascii_of_nat 10) EmptyString.

(** GET /stream: a server-sent event stream that carries one comment and
    closes. *)
Definition worker_logs_stream : Prog Response :=
  Ret (stream_response
         (": Logs are displayed in your terminal in sidecar mode" ++ line_feed ++ line_feed)
         [("Content-Type", "text/event-stream");
          ("Cache-Control", "no-cache");
          ("Connection", "keep-alive")]).

(* ------------------------------------------------------------------ *)
(** ** packages/server/src/routes/do.ts *)
(* ------------------------------------------------------------------ *)

(** [{ name?, id? }]. *)
Record DoIdBody : Type := mkDoIdBody {
  do_body_name : option string;
  do_body_id : option string
}.

(** [method !== 'GET' && method !== 'HEAD' ? c.req.raw.body : undefined]. *)
Definition forwarded_body (method : string) (raw_body : option string) : option string :=
  if String.eqb method "GET" || String.eqb method "HEAD" then None else raw_body.

(** [c.req.path.split('/fetch')[1] || '/']. *)
Definition forwarded_path (path : string) : string :=
  text_or (nonempty (split_second "/fetch" path)) "/".

Section ServerDORoutes.

Variable bindings : option Discovered.

(** GET /: list all Durable Object bindings. *)
Definition server_do_list : Prog Response :=
  Ret (json_ok (JObj [("durableObjects",
                      discovered_list bindings discovered_durableObjects)])).

(** POST /:binding/id: get or create a Durable Object id. *)
Definition server_do_id (binding : string) (req_json : Res DoIdBody) : Prog Response :=
  try_catch
    (_ <- call (LF_getDurableObjectNamespace binding) ;;
     b <- of_res req_json ;;
     doId <-
       match nonempty (do_body_id b) with
       | Some id => call (DO_idFromString binding id)
       | None =>
           match nonempty (do_body_name b) with
           | Some name => call (DO_idFromName binding name)
           | None => call (DO_newUniqueId binding)
           end
       end ;;
     Ret (json_ok (JObj [("id", JStr doId)])))
    (fun error => Ret (error_500 error)).

(** ALL /:binding/:id/fetch/*: send the request to the Durable Object and
    return its response as it is.  The URL and the Request are built
    without a call; their construction is taken not to fail. *)
Definition server_do_fetch (binding idStr path method : string)
    (hs : RequestHeaders) (raw_body : option string) : Prog Response :=
  try_catch
    (_ <- call (LF_getDurableObjectNamespace binding) ;;
     let forwarded := forwarded_path path in
     doId <- call (DO_idFromString binding idStr) ;;
     _ <- call (DO_get binding doId) ;;
     let request := mkDoRequest method forwarded hs (forwarded_body method raw_body) in
     response <- call (DO_fetch binding doId request) ;;
     Ret response)
    (fun error => Ret (error_500 error)).

End ServerDORoutes.

(* ------------------------------------------------------------------ *)
(** ** The health checks: packages/server/src/index.ts and
       www/worker/index.ts *)
(* ------------------------------------------------------------------ *)

(** GET /api/health of the dashboard server; [running] is
    [localflare.isRunning()]. *)
Definition server_health (running : bool) : Prog Response :=
  Ret (json_ok (JObj [("status", JStr "ok"); ("running", JBool running)])).

(** GET /api/health of the website worker. *)
Definition www_health : Prog Response :=
  Ret (json_ok (JObj [("status", JStr "ok"); ("service", JStr "localflare-www")])).

(* ------------------------------------------------------------------ *)
(** ** The route tables *)
(* ------------------------------------------------------------------ *)

(** A request matched to its route, with the path parameters, the query
    parameters the handler reads and the outcome of [c.req.json()] where
    the handler reads the body. *)
Inductive Request : Type :=
(* packages/api/src/worker/routes/d1.ts *)
| WorkerD1List
| WorkerD1Schema (binding : string)
| WorkerD1TableInfo (binding table : string)
| WorkerD1Rows (binding table : string) (q_limit q_offset q_sort q_dir : option string)
| WorkerD1Query (binding : string) (req_json : Res QueryBody)
| WorkerD1Insert (binding table : string) (req_json : Res JsRecord)
| WorkerD1UpdateRow (binding table rowId : string) (req_json : Res JsRecord)
| WorkerD1UpdateCell (binding table rowId : string) (req_json : Res CellBody)
| WorkerD1DeleteRow (binding table rowId : string)
| WorkerD1BulkDelete (binding table : string) (req_json : Res BulkDeleteBody)
| WorkerD1BulkUpdate (binding table : string) (req_json : Res BulkUpdateBody)
(* packages/api/src/worker/routes/kv.ts *)
| WorkerKVNamespaces
| WorkerKVKeys (binding : string) (q_prefix q_limit q_cursor : option string)
| WorkerKVGet (binding key : string) (q_type : option string)
| WorkerKVPut (binding key : string) (req_json : Res KvPutBody)
| WorkerKVDelete (binding key : string)
| WorkerKVBulkDelete (binding : string) (req_json : Res (list string))
(* packages/api/src/worker/routes/queues.ts *)
| WorkerQueuesList
| WorkerQueuesSend (binding : string) (req_json : Res JsVal)
| WorkerQueuesSendBatch (binding : string) (req_json : Res JsVal)
(* packages/server/src/routes/d1.ts *)
| ServerD1List
| ServerD1Schema (binding : string)
| ServerD1TableInfo (binding table : string)
| ServerD1Rows (binding table : string) (q_limit q_offset : option string)
| ServerD1Query (binding : string) (req_json : Res QueryBody)
| ServerD1Insert (binding table : string) (req_json : Res JsRecord)
| ServerD1UpdateRow (binding table id : string) (req_json : Res JsRecord)
| ServerD1DeleteRow (binding table id : string)
(* packages/server/src/routes/kv.ts *)
| ServerKVNamespaces
| ServerKVKeys (binding : string) (q_prefix q_cursor q_limit : option string)
| ServerKVGet (binding key : string) (q_type : option string)
| ServerKVPut (binding key : string) (req_json : Res KvPutBody)
| ServerKVDelete (binding key : string)
| ServerKVBulkDelete (binding : string) (req_json : Res (list string))
(* packages/api/src/worker/routes/r2.ts *)
| WorkerR2Buckets
| WorkerR2Objects (binding : string) (q_prefix q_limit q_cursor q_delimiter : option string)
| WorkerR2Head (binding key : string)
| WorkerR2Get (binding key : string)
| WorkerR2Put (binding key : string) (hs : RequestHeaders) (content : string)
| WorkerR2Delete (binding key : string)
| WorkerR2BulkDelete (binding : string) (req_json : Res (list string))
(* packages/api/src/worker/routes/logs.ts *)
| WorkerLogsList
| WorkerLogsClear
| WorkerLogsStream
(* packages/server/src/routes/r2.ts *)
| ServerR2Buckets
| ServerR2Objects (binding : string) (q_prefix q_cursor q_limit q_delimiter : option string)
| ServerR2Head (binding key : string)
| ServerR2Get (binding key : string)
| ServerR2Put (binding key : string) (hs : RequestHeaders) (req_arrayBuffer : Res string)
| ServerR2Delete (binding key : string)
| ServerR2BulkDelete (binding : string) (req_json : Res (list string))
(* packages/server/src/routes/do.ts *)
| ServerDOList
| ServerDOId (binding : string) (req_json : Res DoIdBody)
| ServerDOFetch (binding id path method : string) (hs : RequestHeaders)
    (raw_body : option string)
(* packages/server/src/index.ts and www/worker/index.ts *)
| ServerHealth
| WwwHealth.

(** What the handlers close over: JSON.parse, the worker's environment,
    the bindings the dashboard server discovered and whether its
    localflare instance is running. *)
Record Platform : Type := mkPlatform {
  JSON_parse_array : string -> option (list JsVal);
  worker_env : Env;
  server_bindings : option Discovered;
  server_running : bool
}.

(** The handler a request is routed to. *)
Definition handle (pf : Platform) (req : Request) : Prog Response :=
  let parse := JSON_parse_array pf in
  let env := worker_env pf in
  let bindings := server_bindings pf in
  match req with
  | WorkerD1List => worker_d1_list env
  | WorkerD1Schema b => worker_d1_schema env b
  | WorkerD1TableInfo b t => worker_d1_table_info env b t
  | WorkerD1Rows b t l o srt d => worker_d1_rows env b t l o srt d
  | WorkerD1Query b j => worker_d1_query env b j
  | WorkerD1Insert b t j => worker_d1_insert env b t j
  | WorkerD1UpdateRow b t r j => worker_d1_update_row parse env b t r j
  | WorkerD1UpdateCell b t r j => worker_d1_update_cell parse env b t r j
  | WorkerD1DeleteRow b t r => worker_d1_delete_row parse env b t r
  | WorkerD1BulkDelete b t j => worker_d1_bulk_delete parse env b t j
  | WorkerD1BulkUpdate b t j => worker_d1_bulk_update parse env b t j
  | WorkerKVNamespaces => worker_kv_namespaces env
  | WorkerKVKeys b p l c => worker_kv_keys env b p l c
  | WorkerKVGet b k t => worker_kv_get env b k t
  | WorkerKVPut b k j => worker_kv_put env b k j
  | WorkerKVDelete b k => worker_kv_delete env b k
  | WorkerKVBulkDelete b j => worker_kv_bulk_delete env b j
  | WorkerQueuesList => worker_queues_list env
  | WorkerQueuesSend b j => worker_queues_send env b j
  | WorkerQueuesSendBatch b j => worker_queues_send_batch env b j
  | ServerD1List => server_d1_list bindings
  | ServerD1Schema b => server_d1_schema b
  | ServerD1TableInfo b t => server_d1_table_info b t
  | ServerD1Rows b t l o => server_d1_rows b t l o
  | ServerD1Query b j => server_d1_query b j
  | ServerD1Insert b t j => server_d1_insert b t j
  | ServerD1UpdateRow b t i j => server_d1_update_row b t i j
  | ServerD1DeleteRow b t i => server_d1_delete_row b t i
  | ServerKVNamespaces => server_kv_namespaces bindings
  | ServerKVKeys b p c l => server_kv_keys b p c l
  | ServerKVGet b k t => server_kv_get b k t
  | ServerKVPut b k j => server_kv_put b k j
  | ServerKVDelete b k => server_kv_delete b k
  | ServerKVBulkDelete b j => server_kv_bulk_delete b j
  | WorkerR2Buckets => worker_r2_buckets env
  | WorkerR2Objects b p l c d => worker_r2_objects env b p l c d
  | WorkerR2Head b k => worker_r2_head env b k
  | WorkerR2Get b k => worker_r2_get env b k
  | WorkerR2Put b k hs content => worker_r2_put env b k hs content
  | WorkerR2Delete b k => worker_r2_delete env b k
  | WorkerR2BulkDelete b j => worker_r2_bulk_delete env b j
  | WorkerLogsList => worker_logs_list
  | WorkerLogsClear => worker_logs_clear
  | WorkerLogsStream => worker_logs_stream
  | ServerR2Buckets => server_r2_buckets bindings
  | ServerR2Objects b p c l d => server_r2_objects b p c l d
  | ServerR2Head b k => server_r2_head b k
  | ServerR2Get b k => server_r2_get b k
  | ServerR2Put b k hs a => server_r2_put b k hs a
  | ServerR2Delete b k => server_r2_delete b k
  | ServerR2BulkDelete b j => server_r2_bulk_delete b j
  | ServerDOList => server_do_list bindings
  | ServerDOId b j => server_do_id b j
  | ServerDOFetch b i p m hs raw => server_do_fetch b i p m hs raw
  | ServerHealth => server_health (server_running pf)
  | WwwHealth => www_health
  end.

(** The bulk routes: bulk-delete and bulk-update. *)
Definition is_bulk (req : Request) : bool :=
  match req with
  | WorkerD1BulkDelete _ _ _ | WorkerD1BulkUpdate _ _ _
  | WorkerKVBulkDelete _ _ | ServerKVBulkDelete _ _
  | WorkerR2BulkDelete _ _ | ServerR2BulkDelete _ _ => true
  | _ => false
  end.

(** The first exception in a log of calls. *)
Fixpoint first_thrown (log : list (Op * option Exn)) : option Exn :=
  match log with
  | [] => None
  | (_, Some e) :: _ => Some e
  | (_, None) :: log' => first_thrown log'
  end.

(** The calls on a binding in a log. *)
Definition binding_calls (log : list (Op * option Exn)) : list Op :=
  filter is_binding_call (map fst log).

(** A field of a JSON response body. *)
Definition body_field (r : Response) (k : string) : JsVal :=
  match body r with
  | JsonBody (JObj fields) => prop fields k
  | _ => JUndefined
  end.





(** The routes that stream a body instead of serializing JSON: the
    content of an R2 object, the log stream, and the relayed response of
    a Durable Object. *)
Definition streams_body (req : Request) : bool :=
  match req with
  | WorkerR2Get _ _ | ServerR2Get _ _ | WorkerLogsStream
  | ServerDOFetch _ _ _ _ _ _ => true
  | _ => false
  end.

Definition is_json (r : Response) : bool :=
  match body r with JsonBody _ => true | StreamBody _ => false end.

(** Every response the program may end with is JSON. *)
Fixpoint returns_json (p : Prog Response) : Prop :=
  match p with
  | Ret r => is_json r = true
  | Throw _ => True
  | Call op k => forall r, returns_json (k r)
  end.

(** The number of calls on a binding a route may make: four for the table
    information route of the API worker, three for the Durable Object
    fetch route, two for the others. *)
Definition call_bound (req : Request) : nat :=
  match req with
  | WorkerD1TableInfo _ _ => 4
  | ServerDOFetch _ _ _ _ _ _ => 3
  | _ => 2
  end.

(* ------------------------------------------------------------------ *)
(** ** packages/dashboard/src/components/d1/RowEditorDialog.tsx *)
(* ------------------------------------------------------------------ *)

(** The values the form holds, of D1CellValue: null, a string, or a
    number.  A number read by parseInt is an integer; a number read by
    parseFloat is represented by the numeral it was read from. *)
Inductive CellValue : Type :=
| CellNull
| CellString (s : string)
| CellInt (n : Z)
| CellFloat (numeral : string).

(** SQL expression defaults that should be handled by SQLite, not us. *)
Definition sqlExpressionDefaults : list string :=
  ["CURRENT_TIMESTAMP"; "CURRENT_DATE"; "CURRENT_TIME";
   "DATETIME"; "DATE"; "TIME"; "STRFTIME";
   "(" (* Any expression starting with parenthesis *)].

(** A default value is read only through the test against null and
    undefined and through [String(defaultValue)]: it is given as that
    text, [None] for null or undefined. *)
Definition isSqlExpression (defaultValue : option string) : bool :=
  match defaultValue with
  | None => false
  | Some text =>
      let strValue := trim (toUpperCase text) in
      existsb (fun expr => startsWith strValue expr) sqlExpressionDefaults
  end.




Section ParseDefaultValue.

(** parseFloat is the platform's: [parseFloat_numeral s] is the numeral it
    reads at the start of [s], whose value is its result; [None] stands
    for NaN. *)
Variable parseFloat_numeral : string -> option string.

(** Parse SQLite default value to get the actual value. *)
Definition parseDefaultValue (defaultValue : option string) (columnType : string)
  : CellValue :=
  match defaultValue with
  | None => CellNull
  | Some text =>
      let strValue := trim text in
      let upperType := toUpperCase columnType in
      (* Check for SQL expressions - don't parse these *)
      if isSqlExpression defaultValue then CellNull
      (* Check for quoted strings *)
      else if (startsWith strValue (String squote EmptyString)
               && endsWith strValue (String squote EmptyString))
              || (startsWith strValue (String dquote EmptyString)
                  && endsWith strValue (String dquote EmptyString))
      then CellString (slice_1_m1 strValue)
      (* Check for NULL *)
      else if String.eqb (toUpperCase strValue) "NULL" then CellNull
      (* Check for numeric types *)
      else if includes upperType "INT" then
        match parseInt strValue with
        | Some num => CellInt num
        | None => CellString strValue
        end
      else if includes upperType "REAL" || includes upperType "FLOAT"
              || includes upperType "DOUBLE" then
        match parseFloat_numeral strValue with
        | Some num => CellFloat num
        | None => CellString strValue
        end
      (* Return as-is for other cases *)
      else CellString strValue
  end.

End ParseDefaultValue.

(** The numerals made of digits with at most one fraction part, after an
    optional minus sign: a fragment of what parseFloat reads, for the
    examples. *)
Fixpoint digits_prefix (s : string) : string :=
  match s with
  | EmptyString => EmptyString
  | String a s' =>
      match digit_of a with
      | Some _ => String a (digits_prefix s')
      | None => EmptyString
      end
  end.

Definition plain_numeral (s : string) : option string :=
  let t := trimStart s in
  let '(sign, rest) :=
    match t with
    | String a t' => if Ascii.eqb a "-"%char then ("-", t') else ("", t)
    | EmptyString => ("", t)
    end in
  let int_part := digits_prefix rest in
  match int_part with
  | EmptyString => None
  | _ =>
      match drop (String.length int_part) rest with
      | String a after =>
          if Ascii.eqb a "."%char then
            Some (sign ++ int_part ++ "." ++ digits_prefix after)
          else Some (sign ++ int_part)
      | EmptyString => Some (sign ++ int_part)
      end
  end.

(* ------------------------------------------------------------------ *)
(** ** packages/cli: the command-line entry point *)
(* ------------------------------------------------------------------ *)

(** [.option(rawName, description, { default })]. *)
Record CliOption : Type := mkCliOption {
  option_rawName : string;
  option_description : string;
  option_default : option JsVal
}.

(** [.command(rawName, description)] with its options. *)
Record CliCommand : Type := mkCliCommand {
  command_rawName : string;
  command_description : string;
  command_options : list CliOption
}.

(** [const cli = cac('localflare')] with the one command it declares. *)
Definition cli_name : string := "localflare".

Definition cli_commands : list CliCommand :=
  [ mkCliCommand "[configPath]" "Start LocalFlare development server"
      [ mkCliOption "-p, --port <port>" "Worker port" (Some (JNum 8787));
        mkCliOption "-d, --dashboard-port <port>" "Dashboard port" (Some (JNum 8788));
        mkCliOption "--persist <path>" "Persistence directory" (Some (JStr ".localflare"));
        mkCliOption "-v, --verbose" "Verbose output" None ] ].

(** [configPath ?? './wrangler.toml'] in the action. *)
Definition config_of (configPath : option string) : string :=
  match configPath with
  | Some path => path
  | None => "./wrangler.toml"
  end.

(** How the cac library reads the raw names.  The text before the first
    bracket, trimmed: the name of a command (empty for the default
    command) and the comma-separated names of an option. *)
Fixpoint before_bracket (s : string) : string :=
  match s with
  | EmptyString => EmptyString
  | String a s' =>
      if Ascii.eqb a "<"%char || Ascii.eqb a "["%char then EmptyString
      else String a (before_bracket s')
  end.

Definition command_name (c : CliCommand) : string :=
  trim (before_bracket (command_rawName c)).

(** [s.split(',')]. *)
Fixpoint split_commas (s : string) (cur : string) : list string :=
  match s with
  | EmptyString => [cur]
  | String a s' =>
      if Ascii.eqb a ","%char then cur :: split_commas s' EmptyString
      else split_commas s' (cur ++ String a EmptyString)
  end.

(** A name without its one or two leading dashes. *)
Definition strip_dashes (s : string) : string :=
  match s with
  | String a (String b rest) =>
      if Ascii.eqb a "-"%char then
        if Ascii.eqb b "-"%char then rest else String b rest
      else s
  | String a EmptyString => if Ascii.eqb a "-"%char then EmptyString else s
  | EmptyString => EmptyString
  end.

Definition option_names (o : CliOption) : list string :=
  map (fun n => strip_dashes (trim n))
      (split_commas (before_bracket (option_rawName o)) EmptyString).

(** The names of the positional arguments a command declares between
    square brackets (optional ones). *)
Fixpoint bracket_args (s : string) (inside : option string) : list string :=
  match s with
  | EmptyString => []
  | String a s' =>
      match inside with
      | None =>
          if Ascii.eqb a "["%char then bracket_args s' (Some EmptyString)
          else bracket_args s' None
      | Some cur =>
          if Ascii.eqb a "]"%char then cur :: bracket_args s' None
          else bracket_args s' (Some (cur ++ String a EmptyString))
      end
  end.

Definition optional_positionals (c : CliCommand) : list string :=
  bracket_args (command_rawName c) None.

(** The command has a flag of that name. *)
Definition has_flag (c : CliCommand) (name : string) : bool :=
  existsb (fun o => existsb (String.eqb name) (option_names o)) (command_options c).

(** The claim's wording: some command is named [start] and has a port, a
    config and a persistence flag. *)
Definition exposes_start_command (commands : list CliCommand) : bool :=
  existsb (fun c => String.eqb (command_name c) "start"
                    && has_flag c "port" && has_flag c "config"
                    && has_flag c "persist") commands.




(* ------------------------------------------------------------------ *)
(** ** Platforms for the examples *)
(* ------------------------------------------------------------------ *)

(** A worker environment with a D1 database DB, a KV namespace KV and a
    queue QUEUE. *)
Definition example_env : Env :=
  mkEnv (fun b => if String.eqb b "DB" then Some IsD1
                  else if String.eqb b "KV" then Some IsKV
                  else if String.eqb b "QUEUE" then Some IsQueue
                  else None)
        (mkManifest [mkD1Entry "DB" "example-db"] ["KV"] []
                    [mkProducer "QUEUE" "jobs"] []).

Definition example_platform : Platform :=
  mkPlatform parse_int_array example_env None true.

Definition result_of_rows (rows : list JsRecord) (n_changes : Z) : D1Result :=
  mkD1Result (Some rows) true (Some (mkD1Meta (Some n_changes) JNull (JNum 0))).

Definition kv_missing (t : KvType) : KvValue t :=
  match t with
  | KvText => None
  | KvJson => JNull
  | KvArrayBuffer => None
  end.

(** A platform without state whose every read of a database gives [rows],
    whose every write changes one row, whose KV namespaces and R2 buckets
    are empty, and whose Durable Objects answer 204 with the path they
    were asked. *)
Definition rows_world (rows : list JsRecord) (op : Op) (w : unit)
  : Res (ret_type op) * unit :=
  (match op as o return Res (ret_type o) with
   | D1_all _ _ => Val (result_of_rows rows 0)
   | D1_first _ _ => Val (Some [("count", JNum (Z.of_nat (length rows)))])
   | D1_run _ _ => Val (result_of_rows [] 1)
   | D1_batch _ sts => Val (map (fun _ => result_of_rows [] 1) sts)
   | KV_list _ _ _ _ => Val (mkKvListResult [] None true)
   | KV_getWithMetadata _ _ t => Val (kv_missing t, JNull)
   | KV_get _ _ t => Val (kv_missing t)
   | KV_put _ _ _ _ => Val tt
   | KV_delete _ _ => Val tt
   | Queue_send _ _ => Val tt
   | Queue_sendBatch _ _ => Val tt
   | R2_list _ _ => Val (mkR2Objects [] false None [])
   | R2_head _ _ => Val None
   | R2_get _ _ => Val None
   | R2_put _ key content _ =>
       Val (mkR2Object key (Z.of_nat (String.length content)) "etag" "etag" ""
                       JUndefined None JUndefined)
   | R2_delete _ _ => Val tt
   | DO_idFromString _ id => Val id
   | DO_idFromName _ name => Val name
   | DO_newUniqueId _ => Val "unique"
   | DO_get _ _ => Val tt
   | DO_fetch _ _ request => Val (mkResponse 204 (StreamBody (do_path request)) [])
   | LF_getD1Database _ => Val tt
   | LF_getKVNamespace _ => Val tt
   | LF_getR2Bucket _ => Val tt
   | LF_getDurableObjectNamespace _ => Val tt
   end, w).


(** Columns of PRAGMA table_info. *)
Definition column (name : string) (pk : Z) : JsRecord :=
  [("name", JStr name); ("pk", JNum pk)].

(* ------------------------------------------------------------------ *)
(** ** The binding a route of the API worker looks up *)
(* ------------------------------------------------------------------ *)


(** [v !== undefined]. *)
Definition is_defined (v : JsVal) : bool :=
  match v with JUndefined => false | _ => true end.

(* ------------------------------------------------------------------ *)
(** ** packages/dashboard/src/components/d1/RowEditorDialog.tsx: the form *)
(* ------------------------------------------------------------------ *)

(** A column as PRAGMA table_info describes it (D1Column of
    components/d1/types).  The pragma gives the default as its SQL text,
    or null. *)
Record D1Column : Type := mkD1Column {
  column_cid : Z;
  column_name : string;
  column_type : string;
  column_notnull : Z;
  column_dflt_value : option string;
  column_pk : Z
}.

(** D1TableSchema, with the fields the dialog and the schema panel read. *)
Record D1TableSchema : Type := mkD1TableSchema {
  schema_name : string;
  schema_columns : list D1Column;
  schema_primaryKeys : list string
}.

(** D1CellValue: null, a string or a number ([CellValue]), a boolean, or
    a Uint8Array given by its bytes. *)
Inductive D1CellValue : Type :=
| Cell (v : CellValue)
| CellBool (b : bool)
| CellBytes (bytes : list Z).

(** A record keyed by strings: [o[k]] ([None] for undefined) and
    [o[k] = v].  A key occurs once; the order of the keys is not observed
    here. *)
Fixpoint record_get {A : Type} (o : list (string * A)) (k : string) : option A :=
  match o with
  | [] => None
  | (k', v) :: o' => if String.eqb k' k then Some v else record_get o' k
  end.

Fixpoint record_set {A : Type} (o : list (string * A)) (k : string) (v : A)
  : list (string * A) :=
  match o with
  | [] => [(k, v)]
  | (k', v') :: o' =>
      if String.eqb k' k then (k, v) :: o' else (k', v') :: record_set o' k v
  end.

(** [Record<string, D1CellValue>]. *)
Definition FormData : Type := list (string * D1CellValue).

(** [value === null || value === undefined || value === ''] of a value
    read from the form. *)
Definition is_blank (value : option D1CellValue) : bool :=
  match value with
  | None => true
  | Some (Cell CellNull) => true
  | Some (Cell (CellString EmptyString)) => true
  | _ => false
  end.

(** [schema.primaryKeys.includes(col.name) &&
     col.type.toUpperCase() === 'INTEGER']. *)
Definition isAutoIncrement (schema : D1TableSchema) (col : D1Column) : bool :=
  existsb (String.eqb (column_name col)) (schema_primaryKeys schema)
  && String.eqb (toUpperCase (column_type col)) "INTEGER".

(** [col.notnull === 1 && col.dflt_value === null]. *)
Definition isRequired (col : D1Column) : bool :=
  (column_notnull col =? 1)%Z
  && match column_dflt_value col with None => true | Some _ => false end.



Section RowEditorDialog.

(** The platform's numbers: parseFloat as for [parseDefaultValue]; for
    the number a numeral read by parseFloat denotes, whether
    Number.isInteger holds of it and the text String makes of it. *)
Variable parseFloat_numeral : string -> option string.
Variable Number_isInteger : string -> bool.
Variable String_of_number : string -> string.

(** [String(value)]. *)
Definition String_of_value (value : D1CellValue) : string :=
  match value with
  | Cell CellNull => "null"
  | Cell (CellString s) => s
  | Cell (CellInt n) => String_of_Z n
  | Cell (CellFloat numeral) => String_of_number numeral
  | CellBool b => if b then "true" else "false"
  | CellBytes bytes => join "," (map String_of_Z bytes)
  end.

(** [typeof value === 'number' && Number.isInteger(value)]. *)
Definition is_integer_number (value : D1CellValue) : bool :=
  match value with
  | Cell (CellInt _) => true
  | Cell (CellFloat numeral) => Number_isInteger numeral
  | _ => false
  end.


(** Create mode: the value the form starts with for a column. *)
Definition default_of (col : D1Column) : D1CellValue :=
  (* Don't pre-fill SQL expression defaults - leave empty so SQLite handles them *)
  if match column_dflt_value col with Some _ => true | None => false end
     && negb (isSqlExpression (column_dflt_value col))
  then Cell (parseDefaultValue parseFloat_numeral (column_dflt_value col) (column_type col))
  else if (column_notnull col =? 0)%Z
          || match column_dflt_value col with Some _ => true | None => false end
  then Cell CellNull
  else Cell (CellString EmptyString).

(** Initialize form data when row changes: the row in edit mode, the
    defaults in create mode. *)
Definition initial_form (schema : D1TableSchema) (row : option FormData) : FormData :=
  match row with
  | Some r => r
  | None =>
      fold_left (fun defaults col => record_set defaults (column_name col) (default_of col))
                (schema_columns schema) []
  end.

(** One turn of the loop of validate. *)
Definition validate_column (schema : D1TableSchema) (isEditing : bool)
    (formData : FormData) (newErrors : list (string * string)) (col : D1Column)
  : list (string * string) :=
  let value := record_get formData (column_name col) in
  (* Skip auto-increment PKs for new rows *)
  if isAutoIncrement schema col && negb isEditing then newErrors
  else
    (* Check required fields *)
    let newErrors :=
      if isRequired col && is_blank value
      then record_set newErrors (column_name col) "This field is required"
      else newErrors in
    (* Type validation *)
    let upperType := toUpperCase (column_type col) in
    match value with
    | Some v =>
        if negb (is_blank value) && includes upperType "INT"
           && negb (is_integer_number v)
        then
          match parseInt (String_of_value v) with
          | None => record_set newErrors (column_name col) "Must be an integer"
          | Some _ => newErrors
          end
        else newErrors
    | None => newErrors
    end.

(** Validate form: the errors, and whether there is none. *)
Definition validate (schema : D1TableSchema) (isEditing : bool) (formData : FormData)
  : list (string * string) * bool :=
  let newErrors :=
    fold_left (validate_column schema isEditing formData) (schema_columns schema) [] in
  (newErrors, match newErrors with [] => true | _ => false end).

(** One turn of the loop of handleSave. *)
Definition save_column (schema : D1TableSchema) (isEditing : bool)
    (formData : FormData) (saveData : list (string * option D1CellValue))
    (col : D1Column) : list (string * option D1CellValue) :=
  (* Skip auto-increment PKs for new rows *)
  if isAutoIncrement schema col && negb isEditing then saveData
  (* For new rows, skip columns with SQL expression defaults if value is empty/null *)
  else if negb isEditing
          && match column_dflt_value col with Some _ => true | None => false end
          && isSqlExpression (column_dflt_value col)
          && is_blank (record_get formData (column_name col))
  then saveData
  else record_set saveData (column_name col) (record_get formData (column_name col)).

(** Handle save: the errors shown, and the data onSave is called with,
    [None] when it is not called. *)
Definition handleSave (schema : D1TableSchema) (isEditing : bool) (formData : FormData)
  : list (string * string) * option (list (string * option D1CellValue)) :=
  let '(errors, valid) := validate schema isEditing formData in
  if valid then
    (errors, Some (fold_left (save_column schema isEditing formData)
                             (schema_columns schema) []))
  else (errors, None).

End RowEditorDialog.

(* ------------------------------------------------------------------ *)
(** ** packages/cli/src/tui: the log parser, the log panel and the
       terminal interface *)
(* ------------------------------------------------------------------ *)

Inductive LogCategory : Type := UserLog | LocalflareLog | SystemLog.

(** ParsedLog.  A Date is given by the reading of the clock it was made
    from. *)
Record ParsedLog : Type := mkParsedLog {
  log_category : LogCategory;
  log_content : string;
  log_timestamp : Z
}.

(** The characters of the class \w: digits, letters and the underscore. *)
Definition is_word (a : ascii) : bool :=
  let n := nat_of_ascii a in
  ((48 <=? n)%nat && (n <=? 57)%nat) || ((65 <=? n)%nat && (n <=? 90)%nat)
  || (n =? 95)%nat || ((97 <=? n)%nat && (n <=? 122)%nat).

(** The text left after the longest run of characters of a class. *)
Fixpoint skip_while (f : ascii -> bool) (s : string) : string :=
  match s with
  | EmptyString => EmptyString
  | String a s' => if f a then skip_while f s' else s
  end.

(** The pattern of a row of the binding table, env. then word characters,
    white space ([is_space]) and an opening parenthesis, matched at the
    start of [s].  The classes \w and \s are disjoint and hold no
    parenthesis, so each run is the longest one. *)
Definition binding_row_here (s : string) : bool :=
  startsWith s "env." &&
  match drop 4 s with
  | String a rest =>
      is_word a &&
      match skip_while is_word rest with
      | String b rest' => is_space b && startsWith (skip_while is_space rest') "("
      | EmptyString => false
      end
  | EmptyString => false
  end.

(** [pattern.test(line)]: the pattern matches somewhere in the line. *)
Fixpoint binding_row_test (s : string) : bool :=
  binding_row_here s ||
  match s with
  | EmptyString => false
  | String _ s' => binding_row_test s'
  end.

(** Parse a log line and categorize it; [now] is the reading of the
    clock. *)
Definition parseLogLine (now : Z) (line : string) : option ParsedLog :=
  if String.eqb (trim line) EmptyString then None
  else
    let timestamp := now in
    (* Localflare API routes *)
    if includes line "/__localflare/" then
      Some (mkParsedLog LocalflareLog line timestamp)
    (* Localflare internal messages *)
    else if includes line "localflare-api has access"
            || includes line "env.LOCALFLARE_MANIFEST"
            || includes line "env.USER_WORKER"
            || includes line "Reloading local server"
            || (includes line "Binding" && includes line "Resource"
                && includes line "Mode") then
      Some (mkParsedLog SystemLog line timestamp)
    (* Binding table rows (env.XXXX ... local) *)
    else if binding_row_test line && includes line "local" then
      Some (mkParsedLog SystemLog line timestamp)
    (* User's worker logs (everything else) *)
    else Some (mkParsedLog UserLog line timestamp).

(** [s.split(c)] for a one-character separator. *)
Fixpoint split_char (c : ascii) (s : string) : list string :=
  match s with
  | EmptyString => [EmptyString]
  | String a s' =>
      if Ascii.eqb a c then EmptyString :: split_char c s'
      else
        match split_char c s' with
        | first :: rest => String a first :: rest
        | [] => [String a EmptyString]
        end
  end.

(** [lines.map(parseLogLine).filter(log => log !== null)]; [clock k] is
    the reading of the clock when it is read for the k-th time, which
    happens for the lines that are not blank. *)
Fixpoint parse_lines (clock : nat -> Z) (reads : nat) (lines : list string)
  : list ParsedLog :=
  match lines with
  | [] => []
  | line :: rest =>
      match parseLogLine (clock reads) line with
      | Some log => log :: parse_lines clock (S reads) rest
      | None => parse_lines clock reads rest
      end
  end.

(** Parse multiple log lines. *)
Definition parseLogs (clock : nat -> Z) (output : string) : list ParsedLog :=
  parse_lines clock 0 (split_char (ascii_of_nat 10) output).

(** The text before the first closing bracket and the text after it;
    [None] when there is no closing bracket. *)
Fixpoint until_bracket (s : string) : option (string * string) :=
  match s with
  | EmptyString => None
  | String a s' =>
      if Ascii.eqb a "]"%char then Some (EmptyString, s')
      else
        match until_bracket s' with
        | Some (name, rest) => Some (String a name, rest)
        | None => None
        end
  end.

(** Extract worker name from log line if present: an opening bracket at
    the start, one or more characters other than a closing bracket, and
    a closing bracket. *)
Definition extractWorkerName (line : string) : option string :=
  match line with
  | String a rest =>
      if Ascii.eqb a "["%char then
        match until_bracket rest with
        | Some (String b name, _) => Some (String b name)
        | _ => None
        end
      else None
  | EmptyString => None
  end.

(** The escape character. *)
Definition esc : ascii := ascii_of_nat 27.
#[global] Arguments esc : simpl never.

(** The characters of the class [0-9;]. *)
Definition is_ansi_param (a : ascii) : bool :=
  match digit_of a with Some _ => true | None => Ascii.eqb a ";"%char end.

Fixpoint count_while (f : ascii -> bool) (s : string) : nat :=
  match s with
  | EmptyString => O
  | String a s' => if f a then S (count_while f s') else O
  end.

(** The length of the match of the ANSI colour pattern at the start of
    [s]: the escape character, an opening bracket, the longest run of
    digits and semicolons, and the letter m. *)
Definition ansi_code_length (s : string) : option nat :=
  match s with
  | String e (String b rest) =>
      if Ascii.eqb e esc && Ascii.eqb b "["%char then
        match drop (count_while is_ansi_param rest) rest with
        | String m _ =>
            if Ascii.eqb m "m"%char then Some (count_while is_ansi_param rest + 3)%nat
            else None
        | EmptyString => None
        end
      else None
  | _ => None
  end.

(** [line.replace(pattern, '')] with the global flag: from left to
    right, a match is left out and the search goes on after it; [skip]
    is the number of characters of the current match still to leave
    out. *)
Fixpoint strip_ansi (skip : nat) (s : string) : string :=
  match s with
  | EmptyString => EmptyString
  | String a s' =>
      match skip with
      | S k => strip_ansi k s'
      | O =>
          match ansi_code_length s with
          | Some n => strip_ansi (n - 1) s'
          | None => String a (strip_ansi 0 s')
          end
      end
  end.

(** Clean a log line for display (the terminal interface). *)
Definition cleanLogLine (line : string) : string := strip_ansi 0 line.




(** An entry of the terminal interface. *)
Record LogEntry : Type := mkLogEntry {
  entry_id : Z;
  entry_content : string;
  entry_timestamp : Z
}.

(** The state addOutput works on: the counter of the module and the two
    lists of startTui. *)
Record TuiLogs : Type := mkTuiLogs {
  logIdCounter : Z;
  userLogsRef : list LogEntry;
  localflareLogsRef : list LogEntry
}.

(** One turn of the loop of addOutput; [now] is Date.now(). *)
Definition add_entry (now : Z) (st : TuiLogs) (log : ParsedLog) : TuiLogs :=
  let id := (logIdCounter st + 1)%Z in
  let entry := mkLogEntry id (log_content log) now in
  match log_category log with
  | UserLog => mkTuiLogs id (userLogsRef st ++ [entry]) (localflareLogsRef st)
  | LocalflareLog => mkTuiLogs id (userLogsRef st) (localflareLogsRef st ++ [entry])
  | SystemLog => mkTuiLogs id (userLogsRef st) (localflareLogsRef st)
  end.

Fixpoint add_entries (now : nat -> Z) (k : nat) (st : TuiLogs) (parsed : list ParsedLog)
  : TuiLogs :=
  match parsed with
  | [] => st
  | log :: rest => add_entries now (S k) (add_entry (now k) st log) rest
  end.

(** addOutput of startTui; [clock] gives the readings of the clock while
    parsing and [now] those made for the entries. *)
Definition addOutput (clock now : nat -> Z) (output : string) (st : TuiLogs) : TuiLogs :=
  add_entries now 0 st (parseLogs clock output).

(** The ids of the entries: increasing in each list, none twice, and none
    above the counter. *)
Definition ids_in_order (st : TuiLogs) : Prop :=
  StronglySorted Z.lt (map entry_id (userLogsRef st))
  /\ StronglySorted Z.lt (map entry_id (localflareLogsRef st))
  /\ NoDup (map entry_id (userLogsRef st ++ localflareLogsRef st))
  /\ Forall (fun entry => (entry_id entry <= logIdCounter st)%Z)
            (userLogsRef st ++ localflareLogsRef st).

(** The logs that go to the panel of the worker and to the panel of the
    Localflare API. *)
Definition is_user_log (log : ParsedLog) : bool :=
  match log_category log with UserLog => true | _ => false end.

Definition is_localflare_log (log : ParsedLog) : bool :=
  match log_category log with LocalflareLog => true | _ => false end.

(* ------------------------------------------------------------------ *)
(** ** packages/dashboard/src/components/d1/EditableCell.tsx *)
(* ------------------------------------------------------------------ *)

Section EditableCell.

(** The platform's numbers, for the number a numeral read by parseFloat
    denotes: the text String makes of it, whether it equals the number of
    another numeral, and whether it equals an integer. *)
Variable parseFloat_numeral : string -> option string.
Variable String_of_number : string -> string.
Variable number_equal : string -> string -> bool.
Variable number_equal_integer : string -> Z -> bool.







End EditableCell.

(* ------------------------------------------------------------------ *)
(** ** packages/dashboard/src/components/d1/EditableDataTable.tsx *)
(* ------------------------------------------------------------------ *)

(** [String(v)] of a value of a row, and the text Array.prototype.join
    makes of an element: empty for null and undefined. *)
Fixpoint String_of_js (v : JsVal) : string :=
  match v with
  | JUndefined => "undefined"
  | JNull => "null"
  | JBool b => if b then "true" else "false"
  | JNum n => String_of_Z n
  | JStr s => s
  | JArr items =>
      join "," (map (fun item => match item with
                                 | JUndefined | JNull => EmptyString
                                 | _ => String_of_js item
                                 end) items)
  | JObj _ => "[object Object]"
  end.

Definition join_text (v : JsVal) : string :=
  match v with
  | JUndefined | JNull => EmptyString
  | _ => String_of_js v
  end.

Section EditableDataTable.

(** JSON.stringify is the platform's. *)
Variable JSON_stringify : JsRecord -> string.

(** Get primary key column(s) for row identification. *)
Definition getRowId (schema : D1TableSchema) (row : JsRecord) : string :=
  match schema_primaryKeys schema with
  | [] => JSON_stringify row
  | [pk] => String_of_js (prop row pk)
  | primaryKeys => join "::" (map (fun pk => join_text (prop row pk)) primaryKeys)
  end.

End EditableDataTable.

(* ------------------------------------------------------------------ *)
(** ** packages/dashboard/src/components/d1/QueryHistory.tsx *)
(* ------------------------------------------------------------------ *)

(** Format timestamp to relative time; [now] is Date.now(), and both
    times are whole milliseconds. *)
Definition formatRelativeTime (now timestamp : Z) : string :=
  let diff := (now - timestamp)%Z in
  let seconds := (diff / 1000)%Z in
  let minutes := (seconds / 60)%Z in
  let hours := (minutes / 60)%Z in
  let days := (hours / 24)%Z in
  if (0 <? days)%Z then String_of_Z days ++ "d ago"
  else if (0 <? hours)%Z then String_of_Z hours ++ "h ago"
  else if (0 <? minutes)%Z then String_of_Z minutes ++ "m ago"
  else if (10 <? seconds)%Z then String_of_Z seconds ++ "s ago"
  else "just now".

(* ------------------------------------------------------------------ *)
(** ** The pages of the dashboard that call the query and the send
       routes: components/d1/D1Explorer.tsx and
       components/queues/QueuesExplorer.tsx *)
(* ------------------------------------------------------------------ *)


Section QueuesExplorer.

(** JSON.parse is the platform's: [None] when it throws. *)
Variable JSON_parse : string -> option JsVal.

(** handleSendMessage of components/queues/QueuesExplorer.tsx: the
    binding and the message handed to queuesApi.send, [None] when nothing
    is sent.  A body that is not valid JSON is sent as a string. *)
Definition handleSendMessage (selectedQueue : option string) (messageBody : string)
  : option (string * JsVal) :=
  match nonempty selectedQueue with
  | None => None
  | Some binding =>
      if String.eqb (trim messageBody) EmptyString then None
      else
        match JSON_parse messageBody with
        | Some message => Some (binding, message)
        | None => Some (binding, JStr messageBody)
        end
  end.

(** handleSendMessage of the queues page kept with the R2 explorer: a
    body that is not valid JSON is not sent. *)
Definition handleSendMessage_json (selectedQueue : option string) (messageInput : string)
  : option (string * JsVal) :=
  match nonempty selectedQueue with
  | None => None
  | Some binding =>
      match JSON_parse messageInput with
      | Some message => Some (binding, message)
      | None => None
      end
  end.

End QueuesExplorer.

(* ------------------------------------------------------------------ *)
(** ** Facts on escapeIdentifier *)
(* ------------------------------------------------------------------ *)

Lemma string_of_list_ascii_app (l1 l2 : list ascii) :
  string_of_list_ascii (l1 ++ l2) =
  string_of_list_ascii l1 ++ string_of_list_ascii l2.
Proof.
  induction l1 as [|a l1 IH]; simpl; [reflexivity | now rewrite IH].
Qed.

Lemma replace_global_dquote_spec (name : string) :
  replace_global dquote (String dquote (String dquote EmptyString)) name =
  double_each_dquote name.
Proof.
  unfold double_each_dquote.
  induction name as [|a name IH]; simpl; [reflexivity|].
  rewrite string_of_list_ascii_app, <- IH.
  destruct (Ascii.eqb a dquote) eqn:E; simpl; [|reflexivity].
  reflexivity.
Qed.

(** Reading back an escaped name followed by anything that does not start
    with a quote gives the name and leaves that text. *)
Lemma sqlite_quoted_body_escape (name rest : string) :
  startsWith rest (String dquote EmptyString) = false ->
  sqlite_quoted_body
    (replace_global dquote (String dquote (String dquote EmptyString)) name
     ++ String dquote rest) = Some (name, rest).
Proof.
  intros Hrest.
  induction name as [|a name IH]; simpl.
  - rewrite ?Ascii.eqb_refl.
    destruct rest as [|b rest]; [reflexivity|].
    simpl in Hrest. rewrite andb_true_r in Hrest. now rewrite Hrest.
  - destruct (Ascii.eqb a dquote) eqn:E; simpl.
    + rewrite ?Ascii.eqb_refl. simpl. rewrite ?Ascii.eqb_refl. rewrite IH. apply Ascii.eqb_eq in E. now subst.
    + rewrite E, IH. reflexivity.
Qed.

(** C4. escapeIdentifier(name) is a double quote, then [name] with each
    double-quote character doubled, then a closing double quote; read back
    as a quoted SQLite identifier the whole result is consumed and denotes
    exactly [name], so no character of [name] closes the quoted context. *)
Theorem escapeIdentifier_quotes (name : string) :
  escapeIdentifier name =
    String dquote (double_each_dquote name ++ String dquote EmptyString)
  /\ sqlite_read_quoted (escapeIdentifier name) = Some (name, EmptyString).
Proof.
  split.
  - unfold escapeIdentifier. now rewrite replace_global_dquote_spec.
  - unfold escapeIdentifier, sqlite_read_quoted.
    rewrite ?Ascii.eqb_refl.
    now apply sqlite_quoted_body_escape.
Qed.

(** The name a, double quote, b becomes: double quote, a, two double
    quotes, b, double quote. *)
Example escapeIdentifier_embedded_quote :
  escapeIdentifier (String "a" (String dquote "b")) =
  String dquote (String "a" (String dquote (String dquote (String "b"
    (String dquote EmptyString))))).
Proof. reflexivity. Qed.

(* ------------------------------------------------------------------ *)
(** ** Facts on buildPrimaryKeyWhere *)
(* ------------------------------------------------------------------ *)

Example parse_int_array_pair :
  parse_int_array "[1,20]" = Some [JNum 1; JNum 20].
Proof. reflexivity. Qed.

Example buildPrimaryKeyWhere_json_pair :
  buildPrimaryKeyWhere parse_int_array ["a"; "b"] (RowIdString "[1,20]") =
  Val (mkWhere (escapeIdentifier "a" ++ " = ? AND " ++ escapeIdentifier "b" ++ " = ?")
               [JNum 1; JNum 20]).
Proof. reflexivity. Qed.

Example buildPrimaryKeyWhere_bad_json_single :
  buildPrimaryKeyWhere parse_int_array ["id"] (RowIdString "[oops") =
  Val (mkWhere (escapeIdentifier "id" ++ " = ?") [JStr "[oops"]).
Proof. reflexivity. Qed.




(* ------------------------------------------------------------------ *)
(** ** Facts on running handler programs *)
(* ------------------------------------------------------------------ *)

Ltac unfold_handlers :=
  unfold handle,
    worker_d1_list, worker_d1_schema, worker_d1_table_info, worker_d1_rows,
    worker_d1_query, worker_d1_insert, worker_d1_update_row, worker_d1_update_cell,
    worker_d1_delete_row, worker_d1_bulk_delete, worker_d1_bulk_update,
    worker_kv_namespaces, worker_kv_keys, worker_kv_get, worker_kv_put,
    worker_kv_delete, worker_kv_bulk_delete,
    worker_queues_list, worker_queues_send, worker_queues_send_batch,
    server_d1_list, server_d1_schema, server_d1_table_info, server_d1_rows,
    server_d1_query, server_d1_insert, server_d1_update_row, server_d1_delete_row,
    server_kv_namespaces, server_kv_keys, server_kv_get, server_kv_put,
    server_kv_delete, server_kv_bulk_delete,
    worker_r2_buckets, worker_r2_objects, worker_r2_head, worker_r2_get,
    worker_r2_put, worker_r2_delete, worker_r2_bulk_delete,
    worker_logs_list, worker_logs_clear, worker_logs_stream,
    server_r2_buckets, server_r2_objects, server_r2_head, server_r2_get,
    server_r2_put, server_r2_delete, server_r2_bulk_delete,
    server_do_list, server_do_id, server_do_fetch,
    server_health, www_health, getPrimaryKeys.

Ltac prog_simpl :=
  cbn [calls_at_most try_catch bind call of_res is_binding_call].

Ltac calls_step :=
  first
    [ exact I
    | progress prog_simpl
    | match goal with
      | |- forall _, _ => intro
      | |- calls_at_most _ ?p =>
          match p with
          | context [of_res ?x] => destruct x
          | context [match ?x with _ => _ end] => destruct x
          end
      end ].

Lemma calls_at_most_mono {A : Type} (p : Prog A) :
  forall n m, (n <= m)%nat -> calls_at_most n p -> calls_at_most m p.
Proof.
  induction p as [a|e|op k IH]; intros n m Hnm H; simpl in *; auto.
  destruct (is_binding_call op).
  - destruct n as [|n]; [contradiction|].
    destruct m as [|m]; [lia|].
    intros r. apply (IH r n m); [lia | apply H].
  - intros r. apply (IH r n m); [lia | apply H].
Qed.

Lemma calls_at_most_run {A : Type} (World : Type)
    (answer : forall op : Op, World -> Res (ret_type op) * World) (p : Prog A) :
  forall n w, calls_at_most n p ->
    (length (binding_calls (snd (fst (run World answer p w)))) <= n)%nat.
Proof.
  unfold binding_calls.
  induction p as [a|e|op k IH]; intros n w H; simpl in *; try lia.
  destruct (answer op w) as [r w1].
  destruct (run World answer (k r) w1) as [[out log] w2] eqn:E.
  simpl. specialize (IH r).
  destruct (is_binding_call op).
  - destruct n as [|n]; [contradiction|].
    specialize (IH n w1 (H r)). rewrite E in IH. simpl in *. lia.
  - specialize (IH n w1 (H r)). rewrite E in IH. simpl in *. lia.
Qed.

(** Every handler that is not a bulk route makes at most as many calls on
    a binding as its bound says. *)
Lemma handlers_calls_at_most (pf : Platform) (req : Request) :
  is_bulk req = false ->
  calls_at_most (call_bound req) (handle pf req).
Proof.
  intros Hb.
  destruct req; try discriminate Hb; unfold call_bound; unfold_handlers;
    repeat calls_step.
Qed.





(* ------------------------------------------------------------------ *)
(** ** Facts on parseDefaultValue *)
(* ------------------------------------------------------------------ *)


Lemma toUpperCase_empty (s : string) :
  toUpperCase s = EmptyString -> s = EmptyString.
Proof.
  destruct s; simpl; [reflexivity | discriminate].
Qed.












(* ------------------------------------------------------------------ *)
(** ** Facts on the KV routes *)
(* ------------------------------------------------------------------ *)




(* ------------------------------------------------------------------ *)
(** ** Facts on the query route of the API worker *)
(* ------------------------------------------------------------------ *)


Lemma with_clause_is_not_empty (sql : string) :
  startsWith (toUpperCase (trim sql)) "WITH" = true -> sql <> EmptyString.
Proof.
  intros H ->. discriminate H.
Qed.

Example isRead_examples :
  isRead "  select 1" = true
  /\ isRead "PRAGMA table_list" = true
  /\ isRead "explain query plan select 1" = true
  /\ isRead "WITH t AS (SELECT 1) SELECT * FROM t" = false
  /\ isRead "DELETE FROM notes" = false.
Proof. repeat split. Qed.





(* ------------------------------------------------------------------ *)
(** ** Facts on the bulk routes of the API worker *)
(* ------------------------------------------------------------------ *)





Lemma run_getPrimaryKeys_then {A : Type} (World : Type)
    (answer : forall op : Op, World -> Res (ret_type op) * World)
    (db table : string) (k : list string -> Prog A) (h : Exn -> Prog A)
    (w w1 : World) (info : D1Result) (cols : list JsRecord) :
  answer (D1_all db (table_info_statement table)) w = (Val info, w1) ->
  results info = Some cols ->
  run World answer (try_catch (bind (getPrimaryKeys db table) k) h) w =
  let '(out, log, w2) :=
    run World answer (try_catch (k (primary_keys_of cols)) h) w1 in
  (out, (D1_all db (table_info_statement table), None) :: log, w2).
Proof.
  intros Hanswer Hcols. unfold getPrimaryKeys.
  cbn [bind call try_catch run]. rewrite Hanswer.
  cbn [bind try_catch]. rewrite Hcols. cbn [bind try_catch]. reflexivity.
Qed.








(* ------------------------------------------------------------------ *)
(** ** Facts on the update routes of the API worker *)
(* ------------------------------------------------------------------ *)




(** The SET clause assigns the kept columns, in order. *)
Lemma set_clause_columns (entries : JsRecord) :
  set_clause entries =
  join ", " (map (fun k => escapeIdentifier k ++ " = ?") (map fst entries)).
Proof.
  unfold set_clause. rewrite map_map. f_equal.
  apply map_ext. now intros [k v].
Qed.



(** A PUT that names the primary key and another column: the UPDATE sets
    the other column only. *)
Example update_row_sets_title_only :
  run unit (rows_world [column "id" 1; column "title" 0])
    (handle example_platform
       (WorkerD1UpdateRow "DB" "notes" "7"
          (Val [("id", JNum 9); ("title", JStr "draft")]))) tt
  = (Val (changes_response (result_of_rows [] 1)),
     [(D1_all "DB" (table_info_statement "notes"), None);
      (D1_run "DB"
         (update_sql "notes" (escapeIdentifier "title" ++ " = ?")
                     (escapeIdentifier "id" ++ " = ?"),
          [JStr "draft"; JStr "7"]), None)],
     tt).
Proof. reflexivity. Qed.




(* ------------------------------------------------------------------ *)
(** ** Facts on all the handlers *)
(* ------------------------------------------------------------------ *)



(** The Durable Object fetch route returns what the object answers, here
    a 204. *)
Example do_fetch_relays :
  fst (fst (run unit (rows_world [])
     (handle example_platform
        (ServerDOFetch "COUNTER" "abc" "/api/do/COUNTER/abc/fetch/increment" "POST"
           [] (Some "1"))) tt))
  = Val (mkResponse 204 (StreamBody "/increment") []).
Proof. reflexivity. Qed.


Ltac json_step :=
  first
    [ exact I
    | reflexivity
    | progress cbn [returns_json try_catch bind call of_res]
    | match goal with
      | |- forall _, _ => intro
      | |- returns_json ?p =>
          match p with
          | context [of_res ?x] => destruct x
          | context [match ?x with _ => _ end] => destruct x
          end
      end ].

Lemma returns_json_call_all (ok : Response) (ops : list Op) :
  is_json ok = true ->
  forall failed,
    returns_json
      (try_catch (bind (call_all ops failed) (fun _ => Ret ok))
                 (fun error => Ret (error_500 error))).
Proof.
  intros Hok.
  induction ops as [|op ops IH]; intros failed.
  - destruct failed; cbn [call_all bind try_catch returns_json];
      [reflexivity | exact Hok].
  - cbn [call_all bind try_catch returns_json].
    intros [a|e]; destruct failed; apply IH.
Qed.

Lemma returns_json_run (World : Type)
    (answer : forall op : Op, World -> Res (ret_type op) * World)
    (p : Prog Response) :
  returns_json p ->
  forall w resp, fst (fst (run World answer p w)) = Val resp -> is_json resp = true.
Proof.
  induction p as [r|e|op k IH]; intros H w resp Hout; simpl in *.
  - injection Hout as <-. exact H.
  - discriminate Hout.
  - destruct (answer op w) as [a w1].
    specialize (IH a (H a) w1 resp).
    destruct (run World answer (k a) w1) as [[out log] w2].
    simpl in *. now apply IH.
Qed.

Lemma handlers_return_json (pf : Platform) (req : Request) :
  streams_body req = false -> returns_json (handle pf req).
Proof.
  intros Hs.
  destruct req; try discriminate Hs; unfold_handlers;
    try (repeat json_step; fail).
  - repeat json_step. apply returns_json_call_all. reflexivity.
  - repeat json_step; apply returns_json_call_all; reflexivity.
Qed.

Lemma handlers_serialize_json (pf : Platform) (req : Request) (World : Type)
    (answer : forall op : Op, World -> Res (ret_type op) * World) (w : World) :
  streams_body req = false ->
  forall resp, fst (fst (run World answer (handle pf req) w)) = Val resp ->
               is_json resp = true.
Proof.
  intros Hs. apply returns_json_run. now apply handlers_return_json.
Qed.

(** C9, as the code has it.  A handler that is not a bulk route makes at
    most two calls on a binding, except the table information route of
    the API worker, which makes at most four, and the Durable Object fetch
    route, which makes at most three; and its response is JSON, except
    where it streams the content of an R2 object, the log stream or the
    response of a Durable Object. *)
Theorem handlers_call_count (pf : Platform) (req : Request) (World : Type)
    (answer : forall op : Op, World -> Res (ret_type op) * World) (w : World) :
  is_bulk req = false ->
  (length (binding_calls (snd (fst (run World answer (handle pf req) w))))
   <= call_bound req)%nat
  /\ (streams_body req = false ->
      forall resp, fst (fst (run World answer (handle pf req) w)) = Val resp ->
                   is_json resp = true).
Proof.
  intros Hb. split.
  - apply calls_at_most_run. now apply handlers_calls_at_most.
  - now apply handlers_serialize_json.
Qed.

Lemma handlers_call_count_witness :
  (length (binding_calls (snd (fst (run unit (rows_world [column "id" 1])
      (handle example_platform (ServerD1TableInfo "DB" "notes")) tt)))) <= 2)%nat.
Proof.
  apply (handlers_call_count example_platform (ServerD1TableInfo "DB" "notes")).
  reflexivity.
Defined.

(** The claim C9 as stated fails: the table information route of the API
    worker makes four calls on the database. *)
Lemma table_info_makes_four_calls :
  binding_calls (snd (fst (run unit (rows_world [column "id" 1])
      (handle example_platform (WorkerD1TableInfo "DB" "notes")) tt)))
  = [D1_all "DB" ("PRAGMA table_info(" ++ escapeIdentifier "notes" ++ ")", []);
     D1_first "DB" ("SELECT COUNT(*) as count FROM " ++ escapeIdentifier "notes", []);
     D1_all "DB" ("PRAGMA index_list(" ++ escapeIdentifier "notes" ++ ")", []);
     D1_all "DB" ("PRAGMA foreign_key_list(" ++ escapeIdentifier "notes" ++ ")", [])]
  /\ (2 <? length (binding_calls (snd (fst (run unit (rows_world [column "id" 1])
         (handle example_platform (WorkerD1TableInfo "DB" "notes")) tt)))))%nat = true.
Proof. split; reflexivity. Qed.

(** The Durable Object fetch route makes three calls on the namespace and
    its stub, after the lookup of the namespace. *)
Example do_fetch_makes_three_calls :
  binding_calls (snd (fst (run unit (rows_world [])
     (handle example_platform
        (ServerDOFetch "COUNTER" "abc" "/api/do/COUNTER/abc/fetch/increment" "POST"
           [] (Some "1"))) tt)))
  = [DO_idFromString "COUNTER" "abc";
     DO_get "COUNTER" "abc";
     DO_fetch "COUNTER" "abc" (mkDoRequest "POST" "/increment" [] (Some "1"))].
Proof. reflexivity. Qed.

(* ------------------------------------------------------------------ *)
(** ** Facts on the command line *)
(* ------------------------------------------------------------------ *)

(** C10, as the code has it.  The command line declares one command, the
    default one (it has no name): it takes the configuration path as an
    optional positional argument, defaulting to ./wrangler.toml, and its
    flags are port, dashboard-port, persist and verbose; there is no
    config flag. *)
Theorem cli_default_command :
  map command_name cli_commands = [EmptyString]
  /\ map optional_positionals cli_commands = [["configPath"]]
  /\ map (fun c => map option_names (command_options c)) cli_commands
     = [[["p"; "port"]; ["d"; "dashboard-port"]; ["persist"]; ["v"; "verbose"]]]
  /\ forallb (fun c => has_flag c "port" && has_flag c "persist"
                       && negb (has_flag c "config")) cli_commands = true
  /\ config_of None = "./wrangler.toml"
  /\ forall path, config_of (Some path) = path.
Proof. repeat split. Qed.

(** The claim C10 as stated fails: no command is named start and no
    command has a config flag. *)
Lemma cli_has_no_start_command :
  exposes_start_command cli_commands = false
  /\ existsb (fun c => String.eqb (command_name c) "start") cli_commands = false
  /\ existsb (fun c => has_flag c "config") cli_commands = false.
Proof. repeat split. Qed.

(* ------------------------------------------------------------------ *)
(** ** Further facts on the helpers of the worker's D1 routes *)
(* ------------------------------------------------------------------ *)

Lemma insert_by_pk_perm (col : JsRecord) (l : list JsRecord) :
  Permutation (insert_by_pk col l) (col :: l).
Proof.
  induction l as [|c l IH]; simpl; [reflexivity|].
  destruct (col_pk col <=? col_pk c)%Z; [reflexivity|].
  rewrite IH. apply perm_swap.
Qed.

Lemma sort_by_pk_perm (l : list JsRecord) : Permutation (sort_by_pk l) l.
Proof.
  unfold sort_by_pk.
  induction l as [|c l IH]; simpl; [constructor|].
  rewrite insert_by_pk_perm. now constructor.
Qed.

Lemma insert_by_pk_sorted (col : JsRecord) (l : list JsRecord) :
  StronglySorted (fun a b => (col_pk a <= col_pk b)%Z) l ->
  StronglySorted (fun a b => (col_pk a <= col_pk b)%Z) (insert_by_pk col l).
Proof.
  induction l as [|c l IH]; intros Hs; simpl.
  - repeat constructor.
  - inversion Hs as [|? ? Hl Hc]; subst.
    destruct (col_pk col <=? col_pk c)%Z eqn:E.
    + apply Z.leb_le in E. constructor; [exact Hs|].
      constructor; [exact E|].
      eapply Forall_impl; [|exact Hc]. simpl. intros; lia.
    + apply Z.leb_gt in E. constructor; [now apply IH|].
      apply (Permutation_Forall (Permutation_sym (insert_by_pk_perm col l))).
      constructor; [lia | exact Hc].
Qed.

Lemma sort_by_pk_sorted (l : list JsRecord) :
  StronglySorted (fun a b => (col_pk a <= col_pk b)%Z) (sort_by_pk l).
Proof.
  unfold sort_by_pk.
  induction l as [|c l IH]; simpl; [constructor|].
  now apply insert_by_pk_sorted.
Qed.

(** The primary keys read from PRAGMA table_info are the names of the
    columns whose pk is positive, each column once, in the order of their
    pk (their position in the key), whatever the order of the rows of the
    pragma. *)
Theorem primary_keys_of_sorted (cols : list JsRecord) :
  exists keyCols,
    primary_keys_of cols = map col_name keyCols
    /\ Permutation keyCols (filter (fun col => (0 <? col_pk col)%Z) cols)
    /\ StronglySorted (fun a b => (col_pk a <= col_pk b)%Z) keyCols
    /\ forall col, In col keyCols <-> In col cols /\ (0 < col_pk col)%Z.
Proof.
  exists (sort_by_pk (filter (fun col => (0 <? col_pk col)%Z) cols)).
  split; [reflexivity|]. split; [apply sort_by_pk_perm|].
  split; [apply sort_by_pk_sorted|].
  intros col. split.
  - intros H. apply (Permutation_in _ (sort_by_pk_perm _)) in H.
    apply filter_In in H. destruct H as [H1 H2]. apply Z.ltb_lt in H2. now split.
  - intros [H1 H2]. apply (Permutation_in _ (Permutation_sym (sort_by_pk_perm _))).
    apply filter_In. split; [exact H1 | now apply Z.ltb_lt].
Qed.






(** Escaping keeps identifiers apart: two names give the same escaped
    identifier only when they are the same name. *)
Theorem escapeIdentifier_injective (a b : string) :
  String.eqb (escapeIdentifier a) (escapeIdentifier b) = String.eqb a b.
Proof.
  destruct (String.eqb_spec a b) as [->|Hne].
  - apply String.eqb_refl.
  - apply String.eqb_neq. intros H. apply Hne.
    unfold escapeIdentifier in H. injection H as H.
    pose proof (sqlite_quoted_body_escape a EmptyString eq_refl) as Ha.
    pose proof (sqlite_quoted_body_escape b EmptyString eq_refl) as Hb.
    rewrite H in Ha. rewrite Ha in Hb. now injection Hb.
Qed.

(* ------------------------------------------------------------------ *)
(** ** Further facts on the D1 routes of the API worker *)
(* ------------------------------------------------------------------ *)







(** The PATCH route of the API worker sets whatever column the body
    names, a primary-key column included: on a table with the single
    primary key [pk] and for a row identifier that does not start with a
    bracket, it reads the columns, runs one UPDATE of that column for the
    row whose key equals the identifier, with the new value bound first,
    and answers with the change count. *)
Theorem update_cell_sets_named_column (pf : Platform) (World : Type)
    (answer : forall op : Op, World -> Res (ret_type op) * World)
    (binding db table rowId name pk : string) (value : JsVal)
    (w w1 w2 : World) (info result : D1Result) (cols : list JsRecord) :
  getDatabase (worker_env pf) binding = Some db ->
  name <> EmptyString ->
  startsWith rowId "[" = false ->
  answer (D1_all db (table_info_statement table)) w = (Val info, w1) ->
  results info = Some cols ->
  primary_keys_of cols = [pk] ->
  let update :=
    D1_run db ("UPDATE " ++ escapeIdentifier table ++ " SET " ++ escapeIdentifier name
               ++ " = ? WHERE " ++ escapeIdentifier pk ++ " = ?",
               [value; JStr rowId]) in
  answer update w1 = (Val result, w2) ->
  run World answer
    (handle pf (WorkerD1UpdateCell binding table rowId
                  (Val (mkCellBody (Some name) value)))) w
  = (Val (changes_response result),
     [(D1_all db (table_info_statement table), None); (update, None)], w2).
Proof.
  intros Hdb Hcol Hrow Hinfo Hcols Hpk update Hrun. subst update.
  unfold handle, worker_d1_update_cell. rewrite Hdb.
  cbn [of_res bind try_catch body_column body_value].
  destruct name as [|a name]; [congruence|]. cbn [nonempty].
  rewrite (run_getPrimaryKeys_then World answer db table _ _ w w1 info cols Hinfo Hcols).
  rewrite Hpk. unfold buildPrimaryKeyWhere. rewrite Hrow.
  cbn [of_res bind try_catch call run clause values pk_condition].
  unfold pk_condition. rewrite Hrun. reflexivity.
Qed.

Lemma update_cell_sets_named_column_witness :
  run unit (rows_world [column "id" 1; column "title" 0])
    (handle example_platform
       (WorkerD1UpdateCell "DB" "notes" "7" (Val (mkCellBody (Some "id") (JNum 9))))) tt
  = (Val (changes_response (result_of_rows [] 1)),
     [(D1_all "DB" (table_info_statement "notes"), None);
      (D1_run "DB" ("UPDATE " ++ escapeIdentifier "notes" ++ " SET "
                    ++ escapeIdentifier "id" ++ " = ? WHERE "
                    ++ escapeIdentifier "id" ++ " = ?", [JNum 9; JStr "7"]), None)],
     tt).
Proof.
  refine (update_cell_sets_named_column example_platform unit
            (rows_world [column "id" 1; column "title" 0])
            "DB" "DB" "notes" "7" "id" "id" (JNum 9) tt tt tt
            (result_of_rows [column "id" 1; column "title" 0] 0)
            (result_of_rows [] 1)
            [column "id" 1; column "title" 0]
            eq_refl _ eq_refl eq_refl eq_refl eq_refl eq_refl).
  discriminate.
Defined.

(** A row identifier that JSON.parse reads as an array is taken as the
    key values as they are, for a single primary key as for a composite
    one and whatever the number of values: the DELETE route binds the
    parsed values to a statement with one condition for each primary-key
    column, without comparing the two numbers. *)
Theorem delete_row_json_key (pf : Platform) (World : Type)
    (answer : forall op : Op, World -> Res (ret_type op) * World)
    (binding db table rowId : string) (w w1 : World) (info : D1Result)
    (cols : list JsRecord) (keyValues : list JsVal) :
  getDatabase (worker_env pf) binding = Some db ->
  answer (D1_all db (table_info_statement table)) w = (Val info, w1) ->
  results info = Some cols ->
  primary_keys_of cols <> [] ->
  startsWith rowId "[" = true ->
  JSON_parse_array pf rowId = Some keyValues ->
  map fst (snd (fst (run World answer
    (handle pf (WorkerD1DeleteRow binding table rowId)) w)))
  = [D1_all db (table_info_statement table);
     D1_run db ("DELETE FROM " ++ escapeIdentifier table ++ " WHERE "
                ++ join " AND " (map (fun pk => escapeIdentifier pk ++ " = ?")
                                     (primary_keys_of cols)),
                keyValues)].
Proof.
  intros Hdb Hinfo Hcols Hpk Hrow Hparse.
  unfold handle, worker_d1_delete_row. rewrite Hdb.
  rewrite (run_getPrimaryKeys_then World answer db table _ _ w w1 info cols Hinfo Hcols).
  destruct (primary_keys_of cols) as [|pk pks] eqn:Epk; [contradiction|].
  unfold buildPrimaryKeyWhere. rewrite Hrow, Hparse.
  cbn [of_res bind try_catch call run clause values].
  destruct (answer _ w1) as [[result|e] w2]; reflexivity.
Qed.

Lemma delete_row_json_key_witness :
  map fst (snd (fst (run unit (rows_world [column "id" 1; column "title" 0])
    (handle example_platform (WorkerD1DeleteRow "DB" "notes" "[1,20]")) tt)))
  = [D1_all "DB" (table_info_statement "notes");
     D1_run "DB" ("DELETE FROM " ++ escapeIdentifier "notes" ++ " WHERE "
                  ++ escapeIdentifier "id" ++ " = ?", [JNum 1; JNum 20])].
Proof.
  refine (delete_row_json_key example_platform unit
            (rows_world [column "id" 1; column "title" 0])
            "DB" "DB" "notes" "[1,20]" tt tt
            (result_of_rows [column "id" 1; column "title" 0] 0)
            [column "id" 1; column "title" 0] [JNum 1; JNum 20]
            eq_refl eq_refl eq_refl _ eq_refl eq_refl).
  discriminate.
Defined.

(* ------------------------------------------------------------------ *)
(** ** Facts on the D1 routes of the dashboard server *)
(* ------------------------------------------------------------------ *)

Lemma sqlite_quoted_body_shorter (n : nat) :
  forall s id rest,
    (String.length s <= n)%nat ->
    sqlite_quoted_body s = Some (id, rest) ->
    (String.length id + String.length rest < String.length s)%nat.
Proof.
  induction n as [|n IH]; intros s id rest Hlen H.
  - destruct s; [discriminate H | simpl in Hlen; lia].
  - destruct s as [|a s']; [discriminate H|]. simpl in H.
    destruct (Ascii.eqb a dquote).
    + destruct s' as [|b s'']; [injection H as <- <-; simpl; lia|].
      destruct (Ascii.eqb b dquote).
      * destruct (sqlite_quoted_body s'') as [[id' rest']|] eqn:E; [|discriminate H].
        injection H as <- <-.
        apply IH in E; [simpl; lia | simpl in Hlen; lia].
      * injection H as <- <-. simpl. lia.
    + destruct (sqlite_quoted_body s') as [[id' rest']|] eqn:E; [|discriminate H].
      injection H as <- <-.
      apply IH in E; [simpl; lia | simpl in Hlen; lia].
Qed.

Lemma string_length_append (a b : string) :
  String.length (a ++ b) = (String.length a + String.length b)%nat.
Proof. induction a as [|x a IH]; simpl; [reflexivity | now rewrite IH]. Qed.

Lemma sqlite_quoted_body_plain (name : string) :
  sqlite_quoted_body (name ++ String dquote EmptyString) = Some (name, EmptyString)
  <-> includes name (String dquote EmptyString) = false.
Proof.
  induction name as [|a name IH].
  - cbn [append sqlite_quoted_body includes startsWith orb].
    rewrite Ascii.eqb_refl. split; reflexivity.
  - cbn [append sqlite_quoted_body includes startsWith].
    rewrite andb_true_r.
    destruct (Ascii.eqb a dquote) eqn:Ea.
    + simpl. split; [|discriminate].
      destruct (name ++ String dquote EmptyString) as [|b s''] eqn:Es.
      { destruct name; discriminate Es. }
      destruct (Ascii.eqb b dquote).
      * destruct (sqlite_quoted_body s'') as [[id rest]|] eqn:E; [|discriminate].
        intros H. injection H as _ -> ->.
        apply (sqlite_quoted_body_shorter _ _ _ _ (le_n _)) in E.
        apply (f_equal String.length) in Es. rewrite string_length_append in Es.
        simpl in Es, E. lia.
      * discriminate.
    + simpl. destruct (sqlite_quoted_body (name ++ String dquote EmptyString))
        as [[id rest]|] eqn:E.
      * split.
        -- intros H. injection H as -> ->. now apply IH.
        -- intros H. apply IH in H. congruence.
      * split; [discriminate|]. intros H. apply IH in H. discriminate H.
Qed.

(** The dashboard server puts a table or column name between double
    quotes as it is.  SQLite reads the result back as that name exactly
    when the name holds no double quote; a name that holds one is not
    read back as itself. *)
Theorem server_quoted_reads_back (name : string) :
  sqlite_read_quoted (quoted name) = Some (name, EmptyString)
  <-> includes name (String dquote EmptyString) = false.
Proof.
  unfold quoted, sqlite_read_quoted. rewrite Ascii.eqb_refl.
  apply sqlite_quoted_body_plain.
Qed.



(* ------------------------------------------------------------------ *)
(** ** Facts on the bulk-delete routes of KV *)
(* ------------------------------------------------------------------ *)

Lemma run_call_all (World : Type)
    (answer : forall op : Op, World -> Res (ret_type op) * World)
    (ok : Response) (ops : list Op) :
  forall failed w,
    let r := run World answer
               (try_catch (bind (call_all ops failed) (fun _ => Ret ok))
                          (fun error => Ret (error_500 error))) w in
    map fst (snd (fst r)) = ops
    /\ fst (fst r) =
       Val (match failed with
            | Some e => error_500 e
            | None =>
                match first_thrown (snd (fst r)) with
                | Some e => error_500 e
                | None => ok
                end
            end).
Proof.
  induction ops as [|op ops IH]; intros failed w.
  - destruct failed; cbn; split; reflexivity.
  - cbn [call_all bind try_catch run].
    destruct (answer op w) as [[a|e] w1].
    + specialize (IH failed w1). cbn zeta in IH.
      destruct (run World answer _ w1) as [[out log] w2] eqn:Er.
      cbn [fst snd map first_thrown] in *.
      destruct IH as [IH1 IH2]. split; [now rewrite IH1 | exact IH2].
    + destruct failed as [e0|].
      * specialize (IH (Some e0) w1). cbn zeta in IH.
        destruct (run World answer _ w1) as [[out log] w2] eqn:Er.
        cbn [fst snd map first_thrown] in *.
        destruct IH as [IH1 IH2]. split; [now rewrite IH1 | exact IH2].
      * specialize (IH (Some e) w1). cbn zeta in IH.
        destruct (run World answer _ w1) as [[out log] w2] eqn:Er.
        cbn [fst snd map first_thrown] in *.
        destruct IH as [IH1 IH2]. split; [now rewrite IH1 | exact IH2].
Qed.

(** The bulk-delete routes of KV start one delete for every key of the
    body, in order and whatever the earlier ones answer (a key listed
    twice is deleted twice); they answer with the number of keys when no
    delete throws, and otherwise 500 with the first error. *)
Theorem kv_bulk_delete_every_key (pf : Platform) (World : Type)
    (answer : forall op : Op, World -> Res (ret_type op) * World)
    (binding : string) (keys : list string) (w : World) :
  let done :=
    json_ok (JObj [("success", JBool true);
                   ("deleted", JNum (Z.of_nat (length keys)))]) in
  (forall kv,
      getKV (worker_env pf) binding = Some kv ->
      let r := run World answer (handle pf (WorkerKVBulkDelete binding (Val keys))) w in
      map fst (snd (fst r)) = map (fun key => KV_delete kv key) keys
      /\ fst (fst r) = Val (match first_thrown (snd (fst r)) with
                            | Some e => error_500 e
                            | None => done
                            end))
  /\ (forall w1,
         answer (LF_getKVNamespace binding) w = (Val tt, w1) ->
         let r := run World answer (handle pf (ServerKVBulkDelete binding (Val keys))) w in
         map fst (snd (fst r))
         = LF_getKVNamespace binding :: map (fun key => KV_delete binding key) keys
         /\ fst (fst r) = Val (match first_thrown (snd (fst r)) with
                               | Some e => error_500 e
                               | None => done
                               end)).
Proof.
  intros done. split.
  - intros kv Hkv r. subst r.
    unfold handle, worker_kv_bulk_delete. rewrite Hkv. cbn [of_res bind].
    apply (run_call_all World answer done (map (fun key => KV_delete kv key) keys) None w).
  - intros w1 Hget r. subst r.
    unfold handle, server_kv_bulk_delete.
    cbn [try_catch bind call run]. rewrite Hget. cbn [try_catch bind of_res].
    pose proof (run_call_all World answer done
                  (map (fun key => KV_delete binding key) keys) None w1) as H.
    cbn zeta in H.
    destruct (run World answer _ w1) as [[out log] w2] eqn:Er.
    cbn [fst snd map first_thrown] in *.
    destruct H as [H1 H2]. split; [now rewrite H1 | exact H2].
Qed.

(* ------------------------------------------------------------------ *)
(** ** Facts on the custom metadata of an R2 upload *)
(* ------------------------------------------------------------------ *)







(* ------------------------------------------------------------------ *)
(** ** Facts on the path forwarded to a Durable Object *)
(* ------------------------------------------------------------------ *)







(* ------------------------------------------------------------------ *)
(** ** Facts on refused row identifiers and on the queue routes *)
(* ------------------------------------------------------------------ *)





(** The queue routes of the API worker.  The send route refuses only a
    missing message (400, no call) and hands any other value, null
    included, to the queue as it is, in one call.  The send-batch route
    refuses what is not an array or is an empty one (400, no call), and
    otherwise sends one batch that holds each message, in order, as the
    body of an entry, and answers with their number. *)
Theorem queue_routes_send (pf : Platform) (World : Type)
    (answer : forall op : Op, World -> Res (ret_type op) * World)
    (binding queue : string) (w : World) :
  getQueue (worker_env pf) binding = Some queue ->
  (forall message,
      let r := run World answer (handle pf (WorkerQueuesSend binding (Val message))) w in
      if is_defined message
      then map fst (snd (fst r)) = [Queue_send queue message]
      else r = (Val (error_json "Message is required" 400), [], w))
  /\ (forall messages,
         let r := run World answer
                    (handle pf (WorkerQueuesSendBatch binding (Val messages))) w in
         match messages with
         | JArr (m :: ms) =>
             map fst (snd (fst r))
             = [Queue_sendBatch queue (map (fun msg => JObj [("body", msg)]) (m :: ms))]
             /\ (first_thrown (snd (fst r)) = None ->
                 exists resp, fst (fst r) = Val resp /\ status resp = 200%Z
                   /\ body_field resp "count" = JNum (Z.of_nat (length (m :: ms))))
         | _ =>
             r = (Val (error_json "Messages array is required and must not be empty" 400),
                  [], w)
         end).
Proof.
  intros Hq. split.
  - intros message r. subst r. unfold handle, worker_queues_send. rewrite Hq.
    cbn [of_res bind try_catch].
    destruct message; cbn [is_defined]; try reflexivity;
      cbn [bind call try_catch run];
      destruct (answer _ w) as [[u|e] w1]; reflexivity.
  - intros messages r. subst r. unfold handle, worker_queues_send_batch. rewrite Hq.
    cbn [of_res bind try_catch].
    destruct messages as [| |b|n|s|[|m ms]|fields]; try reflexivity.
    cbn [bind call try_catch run].
    destruct (answer _ w) as [[u|e] w1]; cbn; split; try reflexivity.
    + intros _. eexists. repeat split.
    + discriminate.
Qed.

Lemma queue_routes_send_witness :
  map fst (snd (fst (run unit (rows_world [])
    (handle example_platform (WorkerQueuesSend "QUEUE" (Val JNull))) tt)))
  = [Queue_send "QUEUE" JNull].
Proof.
  exact (proj1 (queue_routes_send example_platform unit (rows_world [])
                  "QUEUE" "QUEUE" tt eq_refl) JNull).
Defined.

(* ------------------------------------------------------------------ *)
(** ** Facts on the row editor dialog *)
(* ------------------------------------------------------------------ *)

Lemma record_get_set {A : Type} (o : list (string * A)) (k k' : string) (v : A) :
  record_get (record_set o k v) k' =
  if String.eqb k k' then Some v else record_get o k'.
Proof.
  induction o as [|[k0 v0] o IH]; simpl.
  - reflexivity.
  - destruct (String.eqb_spec k0 k) as [->|Hne]; simpl.
    + destruct (String.eqb k k'); reflexivity.
    + rewrite IH. destruct (String.eqb_spec k k') as [->|Hne'].
      * apply String.eqb_neq in Hne. now rewrite Hne.
      * reflexivity.
Qed.

Lemma record_set_not_empty {A : Type} (o : list (string * A)) (k : string) (v : A) :
  record_set o k v <> [].
Proof.
  destruct o as [|[k0 v0] o]; simpl; [discriminate|].
  destruct (String.eqb k0 k); discriminate.
Qed.

(** A loop that sets, for each item, the key of the item or nothing. *)
Lemma fold_record_set_other {A B : Type} (key : B -> string) (val : B -> option A)
    (items : list B) :
  forall acc k,
    ~ In k (map key items) ->
    record_get
      (fold_left (fun o c => match val c with
                             | Some v => record_set o (key c) v
                             | None => o
                             end) items acc) k
    = record_get acc k.
Proof.
  induction items as [|c items IH]; intros acc k Hk; simpl; [reflexivity|].
  rewrite IH by (intros H; apply Hk; now right).
  destruct (val c); [|reflexivity].
  rewrite record_get_set.
  destruct (String.eqb_spec (key c) k) as [E|E]; [|reflexivity].
  exfalso. apply Hk. now left.
Qed.

Lemma fold_record_set_at {A B : Type} (key : B -> string) (val : B -> option A)
    (items : list B) :
  forall acc c,
    NoDup (map key items) -> In c items ->
    record_get
      (fold_left (fun o c => match val c with
                             | Some v => record_set o (key c) v
                             | None => o
                             end) items acc) (key c)
    = match val c with Some v => Some v | None => record_get acc (key c) end.
Proof.
  induction items as [|c0 items IH]; intros acc c Hnd Hin; [destruct Hin|].
  simpl in Hnd. inversion Hnd as [|? ? Hnot Hnd']; subst.
  destruct Hin as [->|Hin]; simpl.
  - rewrite fold_record_set_other by exact Hnot.
    destruct (val c); [|reflexivity].
    now rewrite record_get_set, String.eqb_refl.
  - rewrite (IH _ c Hnd' Hin).
    destruct (val c) eqn:Ec; [reflexivity|].
    destruct (val c0); [|reflexivity].
    rewrite record_get_set.
    destruct (String.eqb_spec (key c0) (key c)) as [E|E]; [|reflexivity].
    exfalso. apply Hnot. rewrite E. now apply in_map.
Qed.

Lemma fold_left_same {A B : Type} (f g : A -> B -> A) (items : list B) :
  (forall a b, f a b = g a b) ->
  forall acc, fold_left f items acc = fold_left g items acc.
Proof.
  intros H. induction items as [|c items IH]; intros acc; simpl; [reflexivity|].
  now rewrite H, IH.
Qed.

(** In create mode the form starts with an entry for every column of the
    schema (the column names being distinct, as in a table): null when
    the default is an SQL expression, which is left to SQLite; the parsed
    default when there is another default; and without a default, null
    for a nullable column and the empty text for a NOT NULL one. *)
Theorem initial_form_defaults (parseFloat_numeral : string -> option string)
    (schema : D1TableSchema) (col : D1Column) :
  NoDup (map column_name (schema_columns schema)) ->
  In col (schema_columns schema) ->
  record_get (initial_form parseFloat_numeral schema None) (column_name col)
  = Some (Cell
      match column_dflt_value col with
      | Some text =>
          if isSqlExpression (Some text) then CellNull
          else parseDefaultValue parseFloat_numeral (Some text) (column_type col)
      | None =>
          if (column_notnull col =? 0)%Z then CellNull else CellString EmptyString
      end).
Proof.
  intros Hnd Hin. unfold initial_form.
  rewrite (fold_record_set_at column_name
             (fun c => Some (default_of parseFloat_numeral c))
             (schema_columns schema) [] col Hnd Hin).
  unfold default_of.
  destruct (column_dflt_value col) as [text|]; cbn [andb orb negb].
  - destruct (isSqlExpression (Some text)); cbn [negb];
      [now rewrite orb_true_r | reflexivity].
  - rewrite orb_false_r. now destruct (column_notnull col =? 0)%Z.
Qed.

Lemma initial_form_defaults_witness :
  record_get
    (initial_form plain_numeral
       (mkD1TableSchema "notes"
          [mkD1Column 0 "id" "INTEGER" 1 None 1;
           mkD1Column 1 "title" "TEXT" 1 None 0;
           mkD1Column 2 "created" "TEXT" 1 (Some "CURRENT_TIMESTAMP") 0;
           mkD1Column 3 "rank" "INTEGER" 0 (Some "3") 0]
          ["id"]) None) "created"
  = Some (Cell CellNull).
Proof.
  refine (initial_form_defaults plain_numeral
            (mkD1TableSchema "notes"
               [mkD1Column 0 "id" "INTEGER" 1 None 1;
                mkD1Column 1 "title" "TEXT" 1 None 0;
                mkD1Column 2 "created" "TEXT" 1 (Some "CURRENT_TIMESTAMP") 0;
                mkD1Column 3 "rank" "INTEGER" 0 (Some "3") 0]
               ["id"])
            (mkD1Column 2 "created" "TEXT" 1 (Some "CURRENT_TIMESTAMP") 0) _ _).
  - repeat constructor; simpl; intuition discriminate.
  - simpl. tauto.
Defined.

(** What one turn of the loop of validate finds wrong with a column. *)
Lemma validate_column_cases (Number_isInteger : string -> bool)
    (String_of_number : string -> string)
    (schema : D1TableSchema) (isEditing : bool) (formData : FormData)
    (newErrors : list (string * string)) (col : D1Column) :
  let value := record_get formData (column_name col) in
  let next := validate_column Number_isInteger String_of_number schema isEditing
                formData newErrors col in
  (isAutoIncrement schema col && negb isEditing = true /\ next = newErrors)
  \/ (isAutoIncrement schema col && negb isEditing = false
      /\ ((isRequired col = true /\ is_blank value = true
           /\ next = record_set newErrors (column_name col) "This field is required")
          \/ (exists v, value = Some v /\ is_blank value = false
                /\ includes (toUpperCase (column_type col)) "INT" = true
                /\ is_integer_number Number_isInteger v = false
                /\ parseInt (String_of_value String_of_number v) = None
                /\ next = record_set newErrors (column_name col) "Must be an integer")
          \/ ((isRequired col = true -> is_blank value = false)
              /\ (forall v, value = Some v -> is_blank value = false ->
                    includes (toUpperCase (column_type col)) "INT" = true ->
                    is_integer_number Number_isInteger v = true
                    \/ parseInt (String_of_value String_of_number v) <> None)
              /\ next = newErrors))).
Proof.
  intros value next. subst next. unfold validate_column. fold value.
  destruct (isAutoIncrement schema col && negb isEditing); [left; now split|].
  right. split; [reflexivity|].
  destruct (is_blank value) eqn:Eb.
  - destruct (isRequired col) eqn:Er; cbn [andb negb].
    + left. repeat split. now destruct value.
    + right. right. split; [discriminate|]. split; [discriminate|]. now destruct value.
  - rewrite andb_false_r. cbn [negb andb].
    destruct value as [v|] eqn:Ev; [|discriminate Eb].
    destruct (includes (toUpperCase (column_type col)) "INT") eqn:Ei; cbn [andb].
    + destruct (is_integer_number Number_isInteger v) eqn:En; cbn [negb].
      * right. right. split; [reflexivity|]. split; [|reflexivity].
        intros v' Hv _ _. injection Hv as <-. now left.
      * destruct (parseInt (String_of_value String_of_number v)) eqn:Ep.
        -- right. right. split; [reflexivity|]. split; [|reflexivity].
           intros v' Hv _ _. injection Hv as <-. right. congruence.
        -- right. left. exists v. repeat split; assumption.
    + right. right. split; [reflexivity|]. split; [|reflexivity].
      intros v' _ _ Hi. discriminate Hi.
Qed.

(** Validation accepts the form exactly when every column, other than
    an auto-increment primary key of a new row, is filled if it is
    required (NOT NULL without default) and, if its type is an integer
    type and it is filled, holds an integer or something parseInt reads a
    number from. *)
Theorem validate_accepts_iff (Number_isInteger : string -> bool)
    (String_of_number : string -> string)
    (schema : D1TableSchema) (isEditing : bool) (formData : FormData) :
  snd (validate Number_isInteger String_of_number schema isEditing formData) = true
  <-> forall col, In col (schema_columns schema) ->
        isAutoIncrement schema col && negb isEditing = true
        \/ ((isRequired col = true ->
             is_blank (record_get formData (column_name col)) = false)
            /\ forall v, record_get formData (column_name col) = Some v ->
                 is_blank (Some v) = false ->
                 includes (toUpperCase (column_type col)) "INT" = true ->
                 is_integer_number Number_isInteger v = true
                 \/ parseInt (String_of_value String_of_number v) <> None).
Proof.
  unfold validate. cbn [snd].
  generalize (schema_columns schema) as cols.
  assert (Hgen : forall cols newErrors,
    fold_left (validate_column Number_isInteger String_of_number schema isEditing formData)
              cols newErrors = []
    <-> newErrors = []
        /\ forall col, In col cols ->
             isAutoIncrement schema col && negb isEditing = true
             \/ ((isRequired col = true ->
                  is_blank (record_get formData (column_name col)) = false)
                 /\ forall v, record_get formData (column_name col) = Some v ->
                      is_blank (Some v) = false ->
                      includes (toUpperCase (column_type col)) "INT" = true ->
                      is_integer_number Number_isInteger v = true
                      \/ parseInt (String_of_value String_of_number v) <> None)).
  { induction cols as [|c cols IH]; intros newErrors; simpl.
    - split; [intros ->; split; [reflexivity | intros ? []] | now intros [-> _]].
    - rewrite IH.
      destruct (validate_column_cases Number_isInteger String_of_number schema isEditing
                  formData newErrors c)
        as [[Hskip ->]|[Hskip [(Hr & Hb & ->)|[(v & Hv & Hb & Hi & Hn & Hp & ->)
                                               |(Hr & Ht & ->)]]]].
      + split.
        * intros [-> H]. split; [reflexivity|].
          intros col [<-|Hin]; [now left | now apply H].
        * intros [-> H]. split; [reflexivity|]. intros col Hin. apply H. now right.
      + split.
        * intros [H _]. exfalso. exact (record_set_not_empty _ _ _ H).
        * intros [-> H]. exfalso.
          destruct (H c (or_introl eq_refl)) as [Hs|[Hreq _]]; [congruence|].
          rewrite (Hreq Hr) in Hb. discriminate Hb.
      + split.
        * intros [H _]. exfalso. exact (record_set_not_empty _ _ _ H).
        * intros [-> H]. exfalso.
          destruct (H c (or_introl eq_refl)) as [Hs|[_ Hty]]; [congruence|].
          rewrite Hv in Hb.
          destruct (Hty v Hv Hb Hi) as [E|E]; congruence.
      + split.
        * intros [-> H]. split; [reflexivity|].
          intros col [<-|Hin]; [|now apply H].
          right. split; [exact Hr|].
          intros v Hv Hb Hi. apply (Ht v Hv); [now rewrite Hv | exact Hi].
        * intros [-> H]. split; [reflexivity|]. intros col Hin. apply H. now right. }
  intros cols. specialize (Hgen cols []).
  destruct (fold_left _ cols []) eqn:E.
  - split; [intros _ | reflexivity]. now apply Hgen.
  - split; [discriminate|]. intros H.
    assert (H' : @nil (string * string) = [] /\
                 (forall col, In col cols ->
                    isAutoIncrement schema col && negb isEditing = true
                    \/ ((isRequired col = true ->
                         is_blank (record_get formData (column_name col)) = false)
                        /\ forall v, record_get formData (column_name col) = Some v ->
                             is_blank (Some v) = false ->
                             includes (toUpperCase (column_type col)) "INT" = true ->
                             is_integer_number Number_isInteger v = true
                             \/ parseInt (String_of_value String_of_number v) <> None)))
      by (split; [reflexivity | exact H]).
    apply Hgen in H'. discriminate H'.
Qed.

Lemma save_column_as_set (schema : D1TableSchema) (isEditing : bool)
    (formData : FormData) (saveData : list (string * option D1CellValue))
    (col : D1Column) :
  save_column schema isEditing formData saveData col
  = match (if (isAutoIncrement schema col && negb isEditing)
              || (negb isEditing && isSqlExpression (column_dflt_value col)
                  && is_blank (record_get formData (column_name col)))
           then None
           else Some (record_get formData (column_name col))) with
    | Some v => record_set saveData (column_name col) v
    | None => saveData
    end.
Proof.
  unfold save_column.
  destruct (isAutoIncrement schema col && negb isEditing); [reflexivity|].
  cbn [orb].
  destruct (column_dflt_value col) as [text|].
  - rewrite andb_true_r. now destruct (_ && _ && _).
  - rewrite andb_false_r. cbn [isSqlExpression andb].
    now rewrite andb_false_r.
Qed.

(** Saving is refused while validation fails.  Otherwise onSave is
    called with one entry for each column of the schema (the column names
    being distinct), holding the value of the form, except that for a new
    row an auto-increment primary key is never sent, and a column whose
    default is an SQL expression is left out while its field is blank, so
    that SQLite fills both; nothing but columns of the schema is sent. *)
Theorem handleSave_sends (Number_isInteger : string -> bool)
    (String_of_number : string -> string)
    (schema : D1TableSchema) (isEditing : bool) (formData : FormData) :
  NoDup (map column_name (schema_columns schema)) ->
  let saved := snd (handleSave Number_isInteger String_of_number schema isEditing
                      formData) in
  (snd (validate Number_isInteger String_of_number schema isEditing formData) = false ->
   saved = None)
  /\ (snd (validate Number_isInteger String_of_number schema isEditing formData) = true ->
      exists saveData,
        saved = Some saveData
        /\ (forall col, In col (schema_columns schema) ->
              record_get saveData (column_name col)
              = if (isAutoIncrement schema col && negb isEditing)
                   || (negb isEditing && isSqlExpression (column_dflt_value col)
                       && is_blank (record_get formData (column_name col)))
                then None
                else Some (record_get formData (column_name col)))
        /\ forall k, ~ In k (map column_name (schema_columns schema)) ->
                     record_get saveData k = None).
Proof.
  intros Hnd saved. subst saved. unfold handleSave.
  destruct (validate Number_isInteger String_of_number schema isEditing formData)
    as [errors valid].
  cbn [snd]. split.
  - intros ->. reflexivity.
  - intros ->. cbn [snd]. eexists. split; [reflexivity|].
    rewrite (fold_left_same _ _ _ (save_column_as_set schema isEditing formData)).
    split.
    + intros col Hin.
      rewrite (fold_record_set_at column_name
                 (fun col =>
                    if (isAutoIncrement schema col && negb isEditing)
                       || (negb isEditing && isSqlExpression (column_dflt_value col)
                           && is_blank (record_get formData (column_name col)))
                    then None
                    else Some (record_get formData (column_name col)))
                 (schema_columns schema) [] col Hnd Hin).
      now destruct (_ || _).
    + intros k Hk.
      now rewrite (fold_record_set_other column_name _ (schema_columns schema) [] k Hk).
Qed.

Lemma handleSave_sends_witness :
  exists saveData,
    snd (handleSave (fun _ => false) (fun numeral => numeral)
           (mkD1TableSchema "notes"
              [mkD1Column 0 "id" "INTEGER" 1 None 1;
               mkD1Column 1 "title" "TEXT" 1 None 0;
               mkD1Column 2 "created" "TEXT" 1 (Some "CURRENT_TIMESTAMP") 0]
              ["id"]) false
           [("id", Cell CellNull); ("title", Cell (CellString "draft"));
            ("created", Cell CellNull)])
    = Some saveData
    /\ record_get saveData "id" = None
    /\ record_get saveData "title" = Some (Some (Cell (CellString "draft")))
    /\ record_get saveData "created" = None.
Proof.
  destruct (proj2 (handleSave_sends (fun _ => false) (fun numeral => numeral)
         (mkD1TableSchema "notes"
            [mkD1Column 0 "id" "INTEGER" 1 None 1;
             mkD1Column 1 "title" "TEXT" 1 None 0;
             mkD1Column 2 "created" "TEXT" 1 (Some "CURRENT_TIMESTAMP") 0]
            ["id"]) false
         [("id", Cell CellNull); ("title", Cell (CellString "draft"));
          ("created", Cell CellNull)]
         ltac:(repeat constructor; simpl; intuition discriminate)) eq_refl)
    as (saveData & Hsaved & Hcols & _).
  exists saveData. split; [exact Hsaved|].
  split; [|split].
  - exact (Hcols (mkD1Column 0 "id" "INTEGER" 1 None 1) (or_introl eq_refl)).
  - exact (Hcols (mkD1Column 1 "title" "TEXT" 1 None 0) (or_intror (or_introl eq_refl))).
  - exact (Hcols (mkD1Column 2 "created" "TEXT" 1 (Some "CURRENT_TIMESTAMP") 0)
             (or_intror (or_intror (or_introl eq_refl)))).
Defined.




(* ------------------------------------------------------------------ *)
(** ** Facts on the log parser and the log panel *)
(* ------------------------------------------------------------------ *)








Lemma until_bracket_spec (s name rest : string) :
  until_bracket s = Some (name, rest)
  <-> s = name ++ String "]" rest /\ includes name "]" = false.
Proof.
  revert name. induction s as [|a s IH]; intros name; simpl.
  - split; [discriminate|]. intros [H _]. destruct name; discriminate H.
  - destruct (Ascii.eqb_spec a "]"%char) as [->|Hne].
    + split.
      * intros H. injection H as <- <-. split; reflexivity.
      * intros [H Hn]. destruct name as [|b name].
        -- simpl in H. now injection H as ->.
        -- simpl in H. injection H as <- _. simpl in Hn. discriminate Hn.
    + destruct (until_bracket s) as [[name' rest']|] eqn:E.
      * split.
        -- intros H. injection H as <- <-.
           destruct (proj1 (IH name') eq_refl) as [-> Hn].
           split; [reflexivity|]. cbn [includes startsWith].
           apply Ascii.eqb_neq in Hne. now rewrite Hne, Hn.
        -- intros [H Hn]. destruct name as [|b name].
           ++ simpl in H. injection H as -> _. contradiction.
           ++ simpl in H. injection H as <- ->.
              cbn [includes startsWith] in Hn. apply orb_false_iff in Hn.
              destruct Hn as [_ Hn].
              assert (H' : Some (name', rest') = Some (name, rest))
                by (apply IH; now split).
              now injection H' as -> ->.
      * split; [discriminate|]. intros [H Hn]. destruct name as [|b name].
        -- simpl in H. injection H as -> _. contradiction.
        -- simpl in H. injection H as <- ->.
           cbn [includes startsWith] in Hn. apply orb_false_iff in Hn.
           destruct Hn as [_ Hn].
           assert (H' : @None (string * string) = Some (name, rest))
             by (apply IH; now split).
           discriminate H'.
Qed.

(** The worker name is found exactly in the lines that start with an
    opening bracket, a name that is not empty and holds no closing
    bracket, and a closing bracket; it is that name. *)
Theorem extractWorkerName_brackets (line name : string) :
  extractWorkerName line = Some name
  <-> exists rest,
        line = String "[" (name ++ String "]" rest)
        /\ name <> EmptyString /\ includes name "]" = false.
Proof.
  unfold extractWorkerName. split.
  - destruct line as [|a line]; [discriminate|].
    destruct (Ascii.eqb_spec a "["%char) as [->|Hne]; [|discriminate].
    destruct (until_bracket line) as [[[|b found] rest]|] eqn:E; try discriminate.
    intros H. injection H as <-.
    apply until_bracket_spec in E. destruct E as [-> Hn].
    exists rest. split; [reflexivity|]. split; [discriminate | exact Hn].
  - intros (rest & -> & Hne & Hn).
    rewrite Ascii.eqb_refl.
    rewrite (proj2 (until_bracket_spec (name ++ String "]" rest) name rest)
               (conj eq_refl Hn)).
    destruct name; [contradiction | reflexivity].
Qed.

Lemma is_ansi_param_esc : is_ansi_param esc = false.
Proof. reflexivity. Qed.

Lemma count_while_params (params y : string) (a : ascii) :
  forallb is_ansi_param (list_ascii_of_string params) = true ->
  is_ansi_param a = false ->
  count_while is_ansi_param (params ++ String a y) = String.length params
  /\ drop (String.length params) (params ++ String a y) = String a y.
Proof.
  intros Hp Ha. induction params as [|p params IH]; simpl.
  - rewrite Ha. now split.
  - simpl in Hp. apply andb_true_iff in Hp. destruct Hp as [Hp1 Hp2].
    rewrite Hp1. destruct (IH Hp2) as [-> ->]. now split.
Qed.

Lemma count_while_before (f : ascii -> bool) (x y : string) (a : ascii) :
  f a = false ->
  count_while f (x ++ String a y) = count_while f x.
Proof.
  intros Ha. induction x as [|b x IH]; simpl.
  - now rewrite Ha.
  - destruct (f b); [now rewrite IH | reflexivity].
Qed.

Lemma count_while_length (f : ascii -> bool) (x : string) :
  (count_while f x <= String.length x)%nat.
Proof.
  induction x as [|b x IH]; simpl; [lia|]. destruct (f b); lia.
Qed.

Lemma drop_append (n : nat) (x y : string) :
  (n <= String.length x)%nat -> drop n (x ++ y) = drop n x ++ y.
Proof.
  revert x. induction n as [|n IH]; intros x Hn; [reflexivity|].
  destruct x as [|b x]; simpl in *; [lia|]. apply IH. lia.
Qed.

Lemma drop_length_le (n : nat) (x : string) :
  (n + String.length (drop n x) <= String.length x)%nat
  \/ drop n x = EmptyString.
Proof.
  revert x. induction n as [|n IH]; intros x; simpl; [left; lia|].
  destruct x as [|b x]; [now right|].
  destruct (IH x) as [H|H]; [left; simpl; lia | now right].
Qed.

(** A match that starts in a text is the same when an escape character
    follows the text. *)
Lemma ansi_code_length_before (a : ascii) (x y : string) :
  ansi_code_length (String a x ++ String esc y) = ansi_code_length (String a x).
Proof.
  destruct x as [|b rest]; simpl.
  - destruct (Ascii.eqb a esc); reflexivity.
  - destruct (Ascii.eqb a esc && Ascii.eqb b "[")%bool; [|reflexivity].
    rewrite (count_while_before is_ansi_param rest y esc is_ansi_param_esc).
    rewrite drop_append by apply count_while_length.
    destruct (drop (count_while is_ansi_param rest) rest); reflexivity.
Qed.

Lemma ansi_code_length_fits (s : string) (n : nat) :
  ansi_code_length s = Some n -> (1 <= n <= String.length s)%nat.
Proof.
  destruct s as [|e [|b rest]]; simpl; try discriminate.
  destruct (Ascii.eqb e esc && Ascii.eqb b "[")%bool; [|discriminate].
  destruct (drop (count_while is_ansi_param rest) rest) as [|m tail] eqn:E;
    [discriminate|].
  destruct (Ascii.eqb m "m"); [|discriminate].
  intros H. injection H as <-.
  destruct (drop_length_le (count_while is_ansi_param rest) rest) as [H|H].
  - rewrite E in H. simpl in H. lia.
  - congruence.
Qed.

Lemma strip_ansi_skip (x y : string) :
  strip_ansi (String.length x) (x ++ y) = strip_ansi 0 y.
Proof. induction x as [|a x IH]; [reflexivity | exact IH]. Qed.

Lemma strip_ansi_at (a : ascii) (s : string) :
  strip_ansi 0 (String a s)
  = match ansi_code_length (String a s) with
    | Some n => strip_ansi (n - 1) s
    | None => String a (strip_ansi 0 s)
    end.
Proof. reflexivity. Qed.

Lemma ansi_code_length_code (params after : string) :
  forallb is_ansi_param (list_ascii_of_string params) = true ->
  ansi_code_length (String esc (String "[" (params ++ String "m" after)))
  = Some (String.length params + 3)%nat.
Proof.
  intros Hp. unfold ansi_code_length. rewrite !Ascii.eqb_refl. cbn [andb].
  destruct (count_while_params params after "m" Hp eq_refl) as [-> ->].
  now rewrite Ascii.eqb_refl.
Qed.

Lemma append_assoc_one (x : string) (a : ascii) (y : string) :
  (x ++ String a EmptyString) ++ y = x ++ String a y.
Proof. induction x as [|b x IH]; simpl; [reflexivity | now rewrite IH]. Qed.

Lemma strip_ansi_code (params after : string) :
  forallb is_ansi_param (list_ascii_of_string params) = true ->
  strip_ansi 0 (String esc (String "[" (params ++ String "m" after)))
  = strip_ansi 0 after.
Proof.
  intros Hp. rewrite strip_ansi_at, (ansi_code_length_code params after Hp).
  replace (String.length params + 3 - 1)%nat
    with (String.length (String "[" (params ++ "m")))
    by (simpl; rewrite string_length_append; simpl; lia).
  replace (String "[" (params ++ String "m" after))
    with (String "[" (params ++ "m") ++ after)
    by (simpl; now rewrite append_assoc_one).
  apply strip_ansi_skip.
Qed.

Lemma strip_ansi_before_code (before params after : string) :
  forallb is_ansi_param (list_ascii_of_string params) = true ->
  forall skip,
    (skip <= String.length before)%nat ->
    strip_ansi skip (before ++ String esc (String "[" (params ++ String "m" after)))
    = strip_ansi skip before ++ strip_ansi 0 after.
Proof.
  intros Hp. induction before as [|a before IH]; intros skip Hskip.
  - simpl in Hskip. assert (skip = O) by lia. subst skip.
    now apply strip_ansi_code.
  - cbn [append]. destruct skip as [|k].
    + rewrite !strip_ansi_at.
      change (String a (before ++ String esc (String "[" (params ++ String "m" after))))
        with (String a before ++ String esc (String "[" (params ++ String "m" after))).
      rewrite ansi_code_length_before.
      destruct (ansi_code_length (String a before)) as [n|] eqn:En.
      * apply ansi_code_length_fits in En. simpl in En.
        apply IH. lia.
      * cbn [append]. now rewrite IH by lia.
    + cbn [strip_ansi]. apply IH. simpl in Hskip. lia.
Qed.

Lemma strip_ansi_plain (text : string) :
  includes text (String esc EmptyString) = false -> strip_ansi 0 text = text.
Proof.
  induction text as [|a text IH]; intros H; [reflexivity|].
  cbn [includes startsWith] in H. apply orb_false_iff in H. destruct H as [Ha Ht].
  rewrite andb_true_r in Ha.
  rewrite strip_ansi_at. unfold ansi_code_length.
  destruct text as [|b text']; [reflexivity|].
  rewrite Ha. cbn [andb]. now rewrite IH.
Qed.

(** Cleaning a log line leaves a text without escape character as it is,
    and leaves out a colour code (the escape character, a bracket, digits
    and semicolons, the letter m) wherever it stands: the texts before
    and after it are cleaned on their own.  So a text as the colour
    library wraps it is cleaned to the text. *)
Theorem cleanLogLine_drops_codes (before params after : string) :
  forallb is_ansi_param (list_ascii_of_string params) = true ->
  cleanLogLine (before ++ String esc (String "[" (params ++ String "m" after)))
  = cleanLogLine before ++ cleanLogLine after
  /\ (includes before (String esc EmptyString) = false -> cleanLogLine before = before).
Proof.
  intros Hp. unfold cleanLogLine. split.
  - apply strip_ansi_before_code; [exact Hp | lia].
  - apply strip_ansi_plain.
Qed.

Lemma cleanLogLine_drops_codes_witness :
  cleanLogLine ("GET /api " ++ String esc (String "[" ("32" ++ String "m"
                  ("200" ++ String esc "[0m"))))
  = cleanLogLine "GET /api " ++ cleanLogLine ("200" ++ String esc "[0m").
Proof.
  exact (proj1 (cleanLogLine_drops_codes "GET /api " "32"
                  ("200" ++ String esc "[0m") eq_refl)).
Defined.




Lemma StronglySorted_snoc (l : list Z) (x : Z) :
  StronglySorted Z.lt l -> Forall (fun y => (y < x)%Z) l ->
  StronglySorted Z.lt (l ++ [x]).
Proof.
  induction l as [|y l IH]; intros Hs Hlt; simpl.
  - repeat constructor.
  - inversion Hs as [|? ? Hl Hy]; subst. inversion Hlt as [|? ? Hyx Hlx]; subst.
    constructor; [now apply IH|].
    apply Forall_app. split; [exact Hy | now constructor].
Qed.

Lemma add_entry_ids (now : Z) (st : TuiLogs) (log : ParsedLog) :
  ids_in_order st -> ids_in_order (add_entry now st log).
Proof.
  intros (Hu & Hl & Hnd & Hle). unfold ids_in_order, add_entry.
  apply Forall_app in Hle. destruct Hle as [Hleu Hlel].
  assert (Hnew : forall entries,
            Forall (fun entry => (entry_id entry <= logIdCounter st)%Z) entries ->
            Forall (fun y => (y < logIdCounter st + 1)%Z) (map entry_id entries)).
  { intros entries H. apply Forall_map. eapply Forall_impl; [|exact H].
    simpl. intros; lia. }
  assert (Hfresh : ~ In (logIdCounter st + 1)%Z
                     (map entry_id (userLogsRef st ++ localflareLogsRef st))).
  { intros Hin. apply in_map_iff in Hin. destruct Hin as (entry & Hid & Hin).
    apply in_app_iff in Hin.
    assert (entry_id entry <= logIdCounter st)%Z; [|lia].
    destruct Hin as [Hin|Hin];
      [exact (proj1 (Forall_forall _ _) Hleu entry Hin)
      |exact (proj1 (Forall_forall _ _) Hlel entry Hin)]. }
  assert (Hgrow : forall entries,
            Forall (fun entry => (entry_id entry <= logIdCounter st)%Z) entries ->
            Forall (fun entry => (entry_id entry <= logIdCounter st + 1)%Z) entries).
  { intros entries H. eapply Forall_impl; [|exact H]. simpl. intros; lia. }
  destruct (log_category log); cbn [userLogsRef localflareLogsRef logIdCounter].
  - split; [|split; [exact Hl|split]].
    + rewrite map_app. apply StronglySorted_snoc; [exact Hu | now apply Hnew].
    + apply (Permutation_NoDup
               (l := (logIdCounter st + 1)%Z
                     :: map entry_id (userLogsRef st ++ localflareLogsRef st))).
      * rewrite !map_app. simpl. rewrite <- app_assoc. simpl.
        apply Permutation_middle.
      * now constructor.
    + apply Forall_app. split; [apply Forall_app; split|].
      * now apply Hgrow.
      * constructor; [simpl; lia | constructor].
      * now apply Hgrow.
  - split; [exact Hu|split; [|split]].
    + rewrite map_app. apply StronglySorted_snoc; [exact Hl | now apply Hnew].
    + apply (Permutation_NoDup
               (l := (logIdCounter st + 1)%Z
                     :: map entry_id (userLogsRef st ++ localflareLogsRef st))).
      * rewrite app_assoc, !map_app. simpl.
        rewrite <- map_app.
        apply Permutation_cons_append.
      * now constructor.
    + apply Forall_app. split; [|apply Forall_app; split].
      * now apply Hgrow.
      * now apply Hgrow.
      * constructor; [simpl; lia | constructor].
  - split; [exact Hu|split; [exact Hl|split; [exact Hnd|]]].
    apply Forall_app. split; now apply Hgrow.
Qed.

Lemma add_entries_spec (now : nat -> Z) (parsed : list ParsedLog) :
  forall k st,
    ids_in_order st ->
    let st' := add_entries now k st parsed in
    ids_in_order st'
    /\ logIdCounter st' = (logIdCounter st + Z.of_nat (length parsed))%Z
    /\ map entry_content (userLogsRef st')
       = (map entry_content (userLogsRef st)
          ++ map log_content (filter is_user_log parsed))%list
    /\ map entry_content (localflareLogsRef st')
       = (map entry_content (localflareLogsRef st)
          ++ map log_content (filter is_localflare_log parsed))%list.
Proof.
  induction parsed as [|log parsed IH]; intros k st Hst; cbn zeta.
  - simpl. rewrite !app_nil_r. split; [exact Hst|]. repeat split. lia.
  - cbn [add_entries].
    destruct (IH (S k) (add_entry (now k) st log) (add_entry_ids _ _ _ Hst))
      as (H1 & H2 & H3 & H4).
    split; [exact H1|]. split; [|split].
    + rewrite H2. unfold add_entry.
      destruct (log_category log); cbn [logIdCounter length]; lia.
    + rewrite H3. unfold add_entry, is_user_log. cbn [filter].
      destruct (log_category log); cbn [userLogsRef]; try reflexivity.
      rewrite map_app. simpl. now rewrite <- app_assoc.
    + rewrite H4. unfold add_entry, is_localflare_log. cbn [filter].
      destruct (log_category log); cbn [localflareLogsRef]; try reflexivity.
      rewrite map_app. simpl. now rewrite <- app_assoc.
Qed.

(** Adding output to the terminal interface numbers every parsed log,
    the system ones included, and keeps the ids in order: in each panel
    they increase, no id is used twice and none is above the counter.
    The panel of the worker receives the contents of the user logs, the
    panel of the API those of the Localflare logs, both after the entries
    they had; the system logs are shown in neither. *)
Theorem addOutput_ids_in_order (clock now : nat -> Z) (output : string) (st : TuiLogs) :
  ids_in_order st ->
  let st' := addOutput clock now output st in
  ids_in_order st'
  /\ logIdCounter st'
     = (logIdCounter st + Z.of_nat (length (parseLogs clock output)))%Z
  /\ map entry_content (userLogsRef st')
     = (map entry_content (userLogsRef st)
        ++ map log_content (filter is_user_log (parseLogs clock output)))%list
  /\ map entry_content (localflareLogsRef st')
     = (map entry_content (localflareLogsRef st)
        ++ map log_content (filter is_localflare_log (parseLogs clock output)))%list.
Proof.
  intros Hst. unfold addOutput. now apply add_entries_spec.
Qed.

Lemma addOutput_ids_in_order_witness :
  map entry_content
    (userLogsRef
       (addOutput (fun _ => 0%Z) (fun _ => 0%Z)
          ("GET /notes 200" ++ line_feed ++ "GET /__localflare/d1 200" ++ line_feed
           ++ line_feed ++ "Reloading local server...")
          (mkTuiLogs 0 [] [])))
  = ["GET /notes 200"].
Proof.
  exact (proj1 (proj2 (proj2
    (addOutput_ids_in_order (fun _ => 0%Z) (fun _ => 0%Z)
       ("GET /notes 200" ++ line_feed ++ "GET /__localflare/d1 200" ++ line_feed
        ++ line_feed ++ "Reloading local server...")
       (mkTuiLogs 0 [] [])
       (conj (SSorted_nil Z.lt)
          (conj (SSorted_nil Z.lt) (conj (NoDup_nil Z) (Forall_nil _)))))))).
Defined.

(* ------------------------------------------------------------------ *)
(** ** Facts on the decimal text of an integer *)
(* ------------------------------------------------------------------ *)

Lemma leading_digits_acc (d : Decimal.uint) :
  forall acc : positive,
    leading_digits (DecimalString.NilEmpty.string_of_uint d) (Some (Z.pos acc))
    = (Some (Z.pos (Pos.of_uint_acc d acc)), EmptyString).
Proof.
  induction d; intros acc; cbn [DecimalString.NilEmpty.string_of_uint Pos.of_uint_acc];
    [reflexivity|..];
    cbn [leading_digits]; rewrite <- IHd;
    match goal with
    | |- context [digit_of ?c] =>
        let v := eval vm_compute in (digit_of c) in change (digit_of c) with v
    end;
    cbv iota; do 2 f_equal; lia.
Qed.

Lemma leading_digits_zero (d : Decimal.uint) :
  leading_digits (DecimalString.NilEmpty.string_of_uint d) (Some 0%Z)
  = (Some (Z.of_N (Pos.of_uint d)), EmptyString).
Proof.
  induction d; cbn [DecimalString.NilEmpty.string_of_uint Pos.of_uint];
    [reflexivity|..];
    cbn [leading_digits];
    match goal with
    | |- context [digit_of ?c] =>
        let v := eval vm_compute in (digit_of c) in change (digit_of c) with v
    end;
    cbv iota;
    first [ exact IHd | apply (leading_digits_acc d) ].
Qed.

Lemma leading_digits_start (d : Decimal.uint) :
  d <> Decimal.Nil ->
  leading_digits (DecimalString.NilEmpty.string_of_uint d) None
  = leading_digits (DecimalString.NilEmpty.string_of_uint d) (Some 0%Z).
Proof.
  destruct d; intros H; [contradiction|..]; reflexivity.
Qed.

Lemma parseInt_digits (d : Decimal.uint) :
  d <> Decimal.Nil ->
  parseInt (DecimalString.NilEmpty.string_of_uint d) = Some (Z.of_N (Pos.of_uint d))
  /\ parseInt (String "-" (DecimalString.NilEmpty.string_of_uint d))
     = Some (- Z.of_N (Pos.of_uint d))%Z.
Proof.
  intros Hd.
  pose proof (leading_digits_start d Hd) as Hs.
  rewrite leading_digits_zero in Hs.
  split.
  - destruct d; [contradiction|..];
      cbn [DecimalString.NilEmpty.string_of_uint] in *;
      unfold parseInt; cbn [trimStart];
      match goal with
      | |- context [is_space ?c] =>
          let v := eval vm_compute in (is_space c) in change (is_space c) with v
      end; cbv iota;
      match goal with
      | |- context [Ascii.eqb ?c "-"] =>
          let v := eval vm_compute in (Ascii.eqb c "-") in
          change (Ascii.eqb c "-") with v
      end; cbv iota;
      match goal with
      | |- context [Ascii.eqb ?c "+"] =>
          let v := eval vm_compute in (Ascii.eqb c "+") in
          change (Ascii.eqb c "+") with v
      end; cbv iota;
      now rewrite Hs.
  - unfold parseInt. cbn [trimStart].
    change (is_space "-") with false. cbv iota.
    change (Ascii.eqb "-" "-") with true. cbv iota.
    now rewrite Hs.
Qed.

(** The decimal text of an integer reads back as that integer. *)
Lemma parseInt_String_of_Z (n : Z) : parseInt (String_of_Z n) = Some n.
Proof.
  unfold String_of_Z. destruct n as [|p|p]; [reflexivity|..];
    cbn [Z.to_int DecimalString.NilZero.string_of_int];
    pose proof (DecimalPos.Unsigned.to_uint_nonnil p) as Hnil;
    pose proof (DecimalPos.Unsigned.of_to p) as Hof;
    destruct (parseInt_digits (Pos.to_uint p) Hnil) as [Hpos Hneg];
    unfold DecimalString.NilZero.string_of_uint;
    destruct (Pos.to_uint p) eqn:E; try contradiction;
    rewrite ?Hpos, ?Hneg, Hof; reflexivity.
Qed.

Lemma String_of_Z_first (n : Z) (rest : string) :
  startsWith (String_of_Z n ++ rest) "[" = false \/ String_of_Z n = EmptyString.
Proof.
  unfold String_of_Z. destruct (Z.to_int n) as [d|d]; [|now left].
  destruct d; first [now left | now right].
Qed.

(* ------------------------------------------------------------------ *)
(** ** Facts on the editable cell and on the row identifiers of the data
       table *)
(* ------------------------------------------------------------------ *)


(** For a table with a composite primary key the data table identifies a
    row by the key values joined with two colons.  The API worker reads
    such an identifier as a single key: whenever it does not start with
    an opening bracket, as when the first key value is a number,
    buildPrimaryKeyWhere refuses it for the composite key. *)
Theorem composite_row_id_refused (JSON_stringify : JsRecord -> string)
    (parse : string -> option (list JsVal))
    (name : string) (columns : list D1Column) (pk1 pk2 : string) (pks : list string)
    (row : JsRecord) :
  let schema := mkD1TableSchema name columns (pk1 :: pk2 :: pks) in
  let rowId := getRowId JSON_stringify schema row in
  rowId = join "::" (map (fun pk => join_text (prop row pk)) (pk1 :: pk2 :: pks))
  /\ (startsWith rowId "[" = false ->
      buildPrimaryKeyWhere parse (pk1 :: pk2 :: pks) (RowIdString rowId)
      = Raise (new_Error "Invalid row identifier for composite primary key"))
  /\ (forall n, prop row pk1 = JNum n -> startsWith rowId "[" = false).
Proof.
  intros schema rowId. subst rowId schema. unfold getRowId.
  cbn [schema_primaryKeys].
  split; [reflexivity|]. split.
  - intros Hs. unfold buildPrimaryKeyWhere. now rewrite Hs.
  - intros n Hn. cbn [map join]. rewrite Hn. cbn [join_text String_of_js].
    destruct (String_of_Z_first n
                ("::" ++ join "::" (join_text (prop row pk2)
                                    :: map (fun pk => join_text (prop row pk)) pks)))
      as [H|H]; [exact H|].
    pose proof (parseInt_String_of_Z n) as Hp. rewrite H in Hp. discriminate Hp.
Qed.

(* ------------------------------------------------------------------ *)
(** ** Facts on the limit of the rows route and on relative times *)
(* ------------------------------------------------------------------ *)






(** The label of a query in the history counts whole units of the time
    elapsed, in the largest unit that is not zero: days from one day on,
    hours from one hour, minutes from one minute, seconds from eleven
    seconds; a query less than eleven seconds old, or dated in the
    future, is labelled just now. *)
Theorem formatRelativeTime_units (now timestamp : Z) :
  let diff := (now - timestamp)%Z in
  ((diff < 11000)%Z -> formatRelativeTime now timestamp = "just now")
  /\ ((11000 <= diff < 60000)%Z ->
      formatRelativeTime now timestamp = String_of_Z (diff / 1000) ++ "s ago")
  /\ ((60000 <= diff < 3600000)%Z ->
      formatRelativeTime now timestamp = String_of_Z (diff / 60000) ++ "m ago")
  /\ ((3600000 <= diff < 86400000)%Z ->
      formatRelativeTime now timestamp = String_of_Z (diff / 3600000) ++ "h ago")
  /\ ((86400000 <= diff)%Z ->
      formatRelativeTime now timestamp = String_of_Z (diff / 86400000) ++ "d ago").
Proof.
  intros diff. unfold formatRelativeTime. fold diff.
  repeat split; intros H.
  - assert (H1 : (0 <? diff / 1000 / 60 / 60 / 24)%Z = false)
      by (apply Z.ltb_ge; Z.div_mod_to_equations; lia).
    assert (H2 : (0 <? diff / 1000 / 60 / 60)%Z = false)
      by (apply Z.ltb_ge; Z.div_mod_to_equations; lia).
    assert (H3 : (0 <? diff / 1000 / 60)%Z = false)
      by (apply Z.ltb_ge; Z.div_mod_to_equations; lia).
    assert (H4 : (10 <? diff / 1000)%Z = false)
      by (apply Z.ltb_ge; Z.div_mod_to_equations; lia).
    now rewrite H1, H2, H3, H4.
  - assert (H1 : (0 <? diff / 1000 / 60 / 60 / 24)%Z = false)
      by (apply Z.ltb_ge; Z.div_mod_to_equations; lia).
    assert (H2 : (0 <? diff / 1000 / 60 / 60)%Z = false)
      by (apply Z.ltb_ge; Z.div_mod_to_equations; lia).
    assert (H3 : (0 <? diff / 1000 / 60)%Z = false)
      by (apply Z.ltb_ge; Z.div_mod_to_equations; lia).
    assert (H4 : (10 <? diff / 1000)%Z = true)
      by (apply Z.ltb_lt; Z.div_mod_to_equations; lia).
    now rewrite H1, H2, H3, H4.
  - assert (H1 : (0 <? diff / 1000 / 60 / 60 / 24)%Z = false)
      by (apply Z.ltb_ge; Z.div_mod_to_equations; lia).
    assert (H2 : (0 <? diff / 1000 / 60 / 60)%Z = false)
      by (apply Z.ltb_ge; Z.div_mod_to_equations; lia).
    assert (H3 : (0 <? diff / 1000 / 60)%Z = true)
      by (apply Z.ltb_lt; Z.div_mod_to_equations; lia).
    rewrite H1, H2, H3. do 2 f_equal. Z.div_mod_to_equations; lia.
  - assert (H1 : (0 <? diff / 1000 / 60 / 60 / 24)%Z = false)
      by (apply Z.ltb_ge; Z.div_mod_to_equations; lia).
    assert (H2 : (0 <? diff / 1000 / 60 / 60)%Z = true)
      by (apply Z.ltb_lt; Z.div_mod_to_equations; lia).
    rewrite H1, H2. do 2 f_equal. Z.div_mod_to_equations; lia.
  - assert (H1 : (0 <? diff / 1000 / 60 / 60 / 24)%Z = true)
      by (apply Z.ltb_lt; Z.div_mod_to_equations; lia).
    rewrite H1. do 2 f_equal. Z.div_mod_to_equations; lia.
Qed.

(* ------------------------------------------------------------------ *)
(** ** Facts on the pages that call the query and the send routes *)
(* ------------------------------------------------------------------ *)




(** A message sent from the queues page is never refused as
    missing.  The page sends nothing without a selected queue (and, in
    the page of components/queues, for a blank body); what it hands to
    the API client is the value JSON.parse reads from the body, or, in
    the page of components/queues, the body itself as a string when it
    is not valid JSON.  JSON.parse returning no undefined, the send route
    of the API worker hands every such message, carried in the field
    message of the request body, to the queue in one call. *)
Theorem queues_page_message_accepted (JSON_parse : string -> option JsVal)
    (pf : Platform) (World : Type)
    (answer : forall op : Op, World -> Res (ret_type op) * World)
    (selectedQueue : option string) (body binding queue : string) (message : JsVal)
    (w : World) :
  (forall text, JSON_parse text <> Some JUndefined) ->
  handleSendMessage JSON_parse selectedQueue body = Some (binding, message)
  \/ handleSendMessage_json JSON_parse selectedQueue body = Some (binding, message) ->
  getQueue (worker_env pf) binding = Some queue ->
  selectedQueue = Some binding
  /\ (JSON_parse body = Some message \/ (JSON_parse body = None /\ message = JStr body))
  /\ map fst (snd (fst (run World answer
            (handle pf (WorkerQueuesSend binding (Val message))) w)))
     = [Queue_send queue message].
Proof.
  intros Hjson Hsent Hq.
  assert (Hcases : selectedQueue = Some binding
                   /\ (JSON_parse body = Some message
                       \/ (JSON_parse body = None /\ message = JStr body))).
  { destruct Hsent as [H|H].
    - unfold handleSendMessage in H.
      destruct selectedQueue as [[|a selected]|]; cbn [nonempty] in H;
        try discriminate H.
      destruct (String.eqb (trim body) EmptyString); [discriminate H|].
      destruct (JSON_parse body) as [v|] eqn:E; injection H as <- <-;
        (split; [reflexivity|]); [now left | right; now split].
    - unfold handleSendMessage_json in H.
      destruct selectedQueue as [[|a selected]|]; cbn [nonempty] in H;
        try discriminate H.
      destruct (JSON_parse body) as [v|] eqn:E; [|discriminate H].
      injection H as <- <-. split; [reflexivity | now left]. }
  destruct Hcases as [Hsel Hmsg]. split; [exact Hsel|]. split; [exact Hmsg|].
  assert (Hdef : message <> JUndefined).
  { destruct Hmsg as [E|[_ ->]]; [|discriminate].
    intros ->. exact (Hjson body E). }
  unfold handle, worker_queues_send. rewrite Hq. cbn [of_res bind try_catch].
  destruct message; try contradiction;
    cbn [bind call try_catch run];
    destruct (answer _ w) as [[u|e] w1]; reflexivity.
Qed.

Lemma queues_page_message_accepted_witness :
  map fst (snd (fst (run unit (rows_world [])
    (handle example_platform (WorkerQueuesSend "QUEUE" (Val (JStr "hello")))) tt)))
  = [Queue_send "QUEUE" (JStr "hello")].
Proof.
  refine (proj2 (proj2
    (queues_page_message_accepted
       (fun text => match parse_int_array text with
                    | Some items => Some (JArr items)
                    | None => None
                    end)
       example_platform unit (rows_world [])
       (Some "QUEUE") "hello" "QUEUE" "QUEUE" (JStr "hello") tt _ _ eq_refl))).
  - intros text. destruct (parse_int_array text); discriminate.
  - left. reflexivity.
Defined.
